(** * Elvanto export: the normalisation and filtering layer

    A shallow embedding of [backend/app/elvanto_client.py],
    [backend/app/api/people.py] and the export of [backend/app/main.py].
    JSON payloads are Python values, Python
    exceptions are an error result, the remote API is an oracle from requests
    to transport outcomes, the workbook of the export is an oracle from rows
    to refusals, and the [while True] pagination loops take fuel. *)

From Stdlib Require Import List String Ascii ZArith Bool Lia DecimalString.
From Stdlib Require DecimalPos Permutation.
Import ListNotations.
Open Scope string_scope.
Open Scope list_scope.

(** ** Python values

    What [response.json()] produces, for payloads whose numbers are integers:
    ids, counters and flags.  A payload with a floating-point number is outside
    this model, and nothing below speaks about one; so is an integer of more
    than 4300 digits, which the decoder refuses.  A string is held as its
    UTF-8 bytes; a character is a lead byte with the continuation bytes that
    follow it, and this is what a walk over a string yields.  [lower] folds the
    letters A to Z only, which is all that a comparison with "true", "adults",
    "children" or "leader" can see.  A dict is an association list read at
    its first binding. *)

Set Warnings "-register-all".

Inductive value : Type :=
| VNone
| VBool (b : bool)
| VInt (z : Z)
| VStr (s : string)
| VList (l : list value)
| VDict (d : list (string * value)).

Definition dict := list (string * value).

(** ** Exceptions and the error result *)

Inductive exn : Type :=
| AttributeError            (* [x.get], [x.lower] on a value without it *)
| TypeError                 (* iterating a non-iterable, hashing a list or dict *)
| Exception_ (msg : string) (* [raise Exception(msg)] of [_make_request] *).

Inductive res (A : Type) : Type :=
| Ok (a : A)
| Raise (e : exn).
Arguments Ok {A} a.
Arguments Raise {A} e.

Definition bind {A B} (c : res A) (k : A -> res B) : res B :=
  match c with
  | Ok a => k a
  | Raise e => Raise e
  end.

Declare Scope py_scope.
Delimit Scope py_scope with py.
Notation "x <- c ;; k" := (bind c (fun x => k))
  (at level 61, c at next level, right associativity) : py_scope.
Open Scope py_scope.

Fixpoint mapM {A B} (f : A -> res B) (l : list A) : res (list B) :=
  match l with
  | [] => Ok []
  | x :: r => y <- f x ;; ys <- mapM f r ;; Ok (y :: ys)
  end.

(** [for x in l: s = body(s, x)], leaving at the first exception. *)
Fixpoint foldM {S A} (body : S -> A -> res S) (s : S) (l : list A) : res S :=
  match l with
  | [] => Ok s
  | x :: r => s' <- body s x ;; foldM body s' r
  end.

(** [[x for x in l if keep(x)]] where [keep] may raise. *)
Fixpoint filterM {A} (keep : A -> res bool) (l : list A) : res (list A) :=
  match l with
  | [] => Ok []
  | x :: r =>
      b <- keep x ;; ys <- filterM keep r ;; Ok (if b then x :: ys else ys)
  end.

(** ** Python primitives used by the program *)

(** [bool(v)], as [if not v] reads it. *)
Definition truthy (v : value) : bool :=
  match v with
  | VNone => false
  | VBool b => b
  | VInt z => negb (Z.eqb z 0)
  | VStr s => negb (String.eqb s "")
  | VList l => match l with [] => false | _ => true end
  | VDict d => match d with [] => false | _ => true end
  end.

Definition is_dict (v : value) : bool :=
  match v with VDict _ => true | _ => false end.

Definition is_list (v : value) : bool :=
  match v with VList _ => true | _ => false end.

Definition is_str (v : value) : bool :=
  match v with VStr _ => true | _ => false end.

Fixpoint lookup (k : string) (d : dict) : option value :=
  match d with
  | [] => None
  | (k', v) :: r => if String.eqb k k' then Some v else lookup k r
  end.

(** [d[k] = v]: overwrite in place or append (insertion order is kept). *)
Fixpoint dict_set (k : string) (v : value) (d : dict) : dict :=
  match d with
  | [] => [(k, v)]
  | (k', v') :: r =>
      if String.eqb k k' then (k, v) :: r else (k', v') :: dict_set k v r
  end.

(** [v.get(k, default)]: only a dict has [get]. *)
Definition py_get (v : value) (k : string) (default : value) : res value :=
  match v with
  | VDict d => Ok (match lookup k d with Some x => x | None => default end)
  | _ => Raise AttributeError
  end.

(** The characters of a string: UTF-8 continuation bytes (128 to 191) stay
    with the byte they follow. *)
Definition is_continuation (c : ascii) : bool :=
  let n := nat_of_ascii c in (128 <=? n)%nat && (n <=? 191)%nat.

Definition continues (l : list ascii) : bool :=
  match l with
  | c :: _ => is_continuation c
  | [] => false
  end.

Fixpoint characters (l : list ascii) : list string :=
  match l with
  | [] => []
  | c :: r =>
      match characters r with
      | t :: ts =>
          if continues r then String c t :: ts
          else String c EmptyString :: t :: ts
      | [] => [String c EmptyString]
      end
  end.

Definition chars (s : string) : list value :=
  map VStr (characters (list_ascii_of_string s)).

(** [for x in v]: a list yields its items, a string its characters, a dict its
    keys; nothing else is iterable. *)
Definition py_iter (v : value) : res (list value) :=
  match v with
  | VList l => Ok l
  | VStr s => Ok (chars s)
  | VDict d => Ok (map (fun kv => VStr (fst kv)) d)
  | _ => Raise TypeError
  end.

Definition lower_ascii (c : ascii) : ascii :=
  let n := nat_of_ascii c in
  if (65 <=? n)%nat && (n <=? 90)%nat then ascii_of_nat (n + 32) else c.

Fixpoint lower (s : string) : string :=
  match s with
  | EmptyString => EmptyString
  | String c r => String (lower_ascii c) (lower r)
  end.

(** [v.lower()]: only a string has [lower]. *)
Definition py_lower (v : value) : res string :=
  match v with
  | VStr s => Ok (lower s)
  | _ => Raise AttributeError
  end.

(** [v == n] for an int literal [n] ([True == 1] holds in Python). *)
Definition py_eq_int (v : value) (n : Z) : bool :=
  match v with
  | VInt z => Z.eqb z n
  | VBool b => Z.eqb (if b then 1 else 0) n
  | _ => false
  end.

(** [v == s] for a string [s]. *)
Definition py_eq_str (v : value) (s : string) : bool :=
  match v with
  | VStr t => String.eqb t s
  | _ => false
  end.

(** [v in l] for a list of strings [l]. *)
Definition py_in_strs (v : value) (l : list string) : bool :=
  existsb (py_eq_str v) l.

Definition in_strs (s : string) (l : list string) : bool :=
  existsb (String.eqb s) l.

(** *** [str(v)] *)

Definition dquote : ascii := ascii_of_nat 34.
Definition squote : ascii := ascii_of_nat 39.
Definition backslash : ascii := ascii_of_nat 92.

Definition has_char (c : ascii) (s : string) : bool :=
  existsb (Ascii.eqb c) (list_ascii_of_string s).

Definition hex_digit (n : nat) : ascii :=
  if (n <? 10)%nat then ascii_of_nat (48 + n) else ascii_of_nat (87 + n).

Definition escape_char (q c : ascii) : string :=
  let n := nat_of_ascii c in
  if Ascii.eqb c q || Ascii.eqb c backslash then String backslash (String c "")
  else if (n =? 9)%nat then String backslash "t"
  else if (n =? 10)%nat then String backslash "n"
  else if (n =? 13)%nat then String backslash "r"
  else if (n <? 32)%nat || (n =? 127)%nat then
    String backslash
      (String "x" (String (hex_digit (n / 16)) (String (hex_digit (n mod 16)) "")))
  else String c "".

(** [repr] of a string: single quotes unless it has one and no double quote. *)
Definition repr_str (s : string) : string :=
  let q := if has_char squote s && negb (has_char dquote s)
           then dquote else squote in
  String q (String.concat "" (map (escape_char q) (list_ascii_of_string s))
            ++ String q "")%string.

Definition str_of_Z (z : Z) : string := NilZero.string_of_int (Z.to_int z).

Fixpoint py_repr (v : value) : string :=
  match v with
  | VNone => "None"
  | VBool b => if b then "True" else "False"
  | VInt z => str_of_Z z
  | VStr s => repr_str s
  | VList l => ("[" ++ String.concat ", " (map py_repr l) ++ "]")%string
  | VDict d =>
      ("{" ++ String.concat ", "
                (map (fun kv => match kv with
                                | (k, x) => repr_str k ++ ": " ++ py_repr x
                                end) d) ++ "}")%string
  end.

Definition py_str (v : value) : string :=
  match v with
  | VStr s => s
  | _ => py_repr v
  end.

(** [key in v]: dict keys, list items, substring of a string. *)
Definition py_contains (v : value) (k : string) : res bool :=
  match v with
  | VDict d => Ok (match lookup k d with Some _ => true | None => false end)
  | VList l => Ok (existsb (fun x => py_eq_str x k) l)
  | VStr s => Ok (match index 0 k s with Some _ => true | None => false end)
  | _ => Raise TypeError
  end.

(** *** [int(s)] on a string

    CPython first rewrites the string: a character below 127 stays, a Unicode
    white space becomes a space, a Unicode decimal digit its ASCII digit, and
    anything else makes the string invalid.  What is left is read as white
    space (tab to carriage return, and the space), a sign, decimal digits with
    single underscores between them, white space.  More than 4300 digits are
    refused (the default of [sys.set_int_max_str_digits]).  The tables are
    those of Unicode 14.0, which CPython 3.11 carries. *)

Definition lead_payload (c : ascii) : N :=
  let n := N_of_ascii c in
  if (n <? 128)%N then n
  else if (n <? 224)%N then (n mod 32)%N
  else if (n <? 240)%N then (n mod 16)%N
  else (n mod 8)%N.

(** The code point a character encodes. *)
Definition code_point (t : string) : N :=
  match t with
  | EmptyString => 0%N
  | String c r =>
      fold_left (fun acc b => (acc * 64 + N_of_ascii b mod 64)%N)
                (list_ascii_of_string r) (lead_payload c)
  end.

(** [str.isspace] from 127 up. *)
Definition unicode_space (cp : N) : bool :=
  existsb (N.eqb cp) [133; 160; 5760; 8232; 8233; 8239; 8287; 12288]%N
  || ((8192 <=? cp)%N && (cp <=? 8202)%N).

(** The code points of the digit zero of every decimal script from 127 up;
    the nine that follow each are its digits 1 to 9. *)
Definition decimal_zeros : list N :=
  [
    1632; 1776; 1984; 2406; 2534; 2662; 2790; 2918; 3046; 3174; 3302; 3430;
    3558; 3664; 3792; 3872; 4160; 4240; 6112; 6160; 6470; 6608; 6784; 6800;
    6992; 7088; 7232; 7248; 42528; 43216; 43264; 43472; 43504; 43600; 44016;
    65296; 66720; 68912; 69734; 69872; 69942; 70096; 70384; 70736; 70864;
    71248; 71360; 71472; 71904; 72016; 72784; 73040; 73120; 92768; 92864;
    93008; 120782; 120792; 120802; 120812; 120822; 123200; 123632; 125264;
    130032
  ]%N.

Definition unicode_decimal (cp : N) : option N :=
  match List.find (fun z => (z <=? cp)%N && (cp <? z + 10)%N) decimal_zeros with
  | Some z => Some (cp - z)%N
  | None => None
  end.

(** The byte [int] reads for a character; "?" stands for one it refuses. *)
Definition decimal_ascii (t : string) : ascii :=
  match t with
  | String c EmptyString =>
      if (nat_of_ascii c <? 127)%nat then c else "?"%char
  | _ =>
      let cp := code_point t in
      if (cp <? 127)%N then "?"%char
      else if unicode_space cp then " "%char
      else match unicode_decimal cp with
           | Some d => ascii_of_N (48 + d)
           | None => "?"%char
           end
  end.

Definition is_space (c : ascii) : bool :=
  let n := nat_of_ascii c in
  ((9 <=? n)%nat && (n <=? 13)%nat) || (n =? 32)%nat.

Fixpoint lstrip (l : list ascii) : list ascii :=
  match l with
  | c :: r => if is_space c then lstrip r else l
  | [] => []
  end.

Definition strip (l : list ascii) : list ascii := rev (lstrip (rev (lstrip l))).

Definition digit_val (c : ascii) : option Z :=
  let n := nat_of_ascii c in
  if (48 <=? n)%nat && (n <=? 57)%nat then Some (Z.of_nat (n - 48)) else None.

Definition is_digit (c : ascii) : bool :=
  match digit_val c with Some _ => true | None => false end.

Fixpoint parse_digits (acc : Z) (after_digit : bool) (l : list ascii) : option Z :=
  match l with
  | [] => if after_digit then Some acc else None
  | c :: r =>
      match digit_val c with
      | Some d => parse_digits (acc * 10 + d) true r
      | None =>
          if Ascii.eqb c "_" && after_digit then parse_digits acc false r
          else None
      end
  end.

Definition max_str_digits : nat := 4300.

(** The digits after the sign, unless there are too many of them. *)
Definition parse_limited (l : list ascii) : option Z :=
  if (max_str_digits <? List.length (filter is_digit l))%nat then None
  else parse_digits 0 false l.

Definition int_of_str (s : string) : option Z :=
  match strip (map decimal_ascii (characters (list_ascii_of_string s))) with
  | [] => None
  | c :: r =>
      if Ascii.eqb c "-" then option_map Z.opp (parse_limited r)
      else if Ascii.eqb c "+" then parse_limited r
      else parse_limited (c :: r)
  end.

(** *** Hashing: dict keys and set members

    Only scalars are hashable; [True] and [1] are the same key. *)

Inductive hkey : Type :=
| KNone
| KInt (z : Z)
| KStr (s : string).

Definition hash_key (v : value) : res hkey :=
  match v with
  | VNone => Ok KNone
  | VBool b => Ok (KInt (if b then 1 else 0))
  | VInt z => Ok (KInt z)
  | VStr s => Ok (KStr s)
  | VList _ | VDict _ => Raise TypeError
  end.

Definition key_eqb (a b : hkey) : bool :=
  match a, b with
  | KNone, KNone => true
  | KInt x, KInt y => Z.eqb x y
  | KStr x, KStr y => String.eqb x y
  | _, _ => false
  end.

(** A Python [dict] with hashable keys, in insertion order. *)
Fixpoint find {V} (k : hkey) (m : list (hkey * V)) : option V :=
  match m with
  | [] => None
  | (k', v) :: r => if key_eqb k k' then Some v else find k r
  end.

(** [m[k] = f(m[k])] on a key that is present. *)
Fixpoint update {V} (k : hkey) (f : V -> V) (m : list (hkey * V)) : list (hkey * V) :=
  match m with
  | [] => []
  | (k', v) :: r =>
      if key_eqb k k' then (k', f v) :: r else (k', v) :: update k f r
  end.

(** [if k not in m: m[k] = v]. *)
Definition setdefault {V} (k : hkey) (v : V) (m : list (hkey * V)) : list (hkey * V) :=
  match find k m with
  | Some _ => m
  | None => m ++ [(k, v)]
  end.

(** A Python [set], as a list without repetition; [add] keeps what is there. *)
Definition set_add {A} (eqb : A -> A -> bool) (x : A) (s : list A) : list A :=
  if existsb (eqb x) s then s else s ++ [x].

(** The one-or-many reading the source repeats at every item field:
    [if isinstance(x, dict): x = [x]]. *)
Definition one_or_many (v : value) : value :=
  if is_dict v then VList [v] else v.

(** ** The department walk

    [extract_volunteer_positions_from_people] (client) and
    [get_person_positions_from_departments] (API layer) run the same loop nest
    over a person, department, sub-department, position, and differ in the
    statements of the innermost loop only: [visit] stands for them. *)

Section Walk.
Context {S : Type}.
Variable visit : value -> value -> S -> value -> res S.

(** The body of [for sub in sub_list]. *)
Definition walk_sub (dept_name : value) (s : S) (sub : value) : res S :=
  sub_name <- py_get sub "name" (VStr "") ;;
  if negb (truthy sub_name) then Ok s else
  positions_data <- py_get sub "positions" (VDict []) ;;
  if negb (truthy positions_data) || negb (is_dict positions_data) then Ok s else
  pos_list <- py_get positions_data "position" (VList []) ;;
  poss <- py_iter (one_or_many pos_list) ;;
  foldM (visit dept_name sub_name) s poss.

(** The body of [for dept in dept_list]. *)
Definition walk_dept (s : S) (dept : value) : res S :=
  dept_name <- py_get dept "name" (VStr "Unknown") ;;
  sub_depts <- py_get dept "sub_departments" (VDict []) ;;
  if negb (truthy sub_depts) || negb (is_dict sub_depts) then Ok s else
  sub_list <- py_get sub_depts "sub_department" (VList []) ;;
  subs <- py_iter (one_or_many sub_list) ;;
  foldM (walk_sub dept_name) s subs.

(** From [depts = person.get("departments", {})] to the end of the
    department loop. *)
Definition walk_departments (s : S) (person : value) : res S :=
  depts <- py_get person "departments" (VDict []) ;;
  if negb (truthy depts) || negb (is_dict depts) then Ok s else
  dept_list <- py_get depts "department" (VList []) ;;
  ds <- py_iter (one_or_many dept_list) ;;
  foldM walk_dept s ds.
End Walk.

(** ** The remote API *)

Inductive http_outcome : Type :=
| TransportError (msg : string)  (* a [RequestException] was raised: network,
                                    timeout, HTTP status and, with requests
                                    2.27 or later, a body that is not JSON *)
| NotJson (msg : string)         (* [response.json()] raised a [ValueError]
                                    that is no [RequestException] (requests
                                    before 2.27) *)
| Json (v : value).

Definition transport := string -> value -> http_outcome.

(** * elvanto_client.py *)

Module ElvantoClient.

(** [_to_int], always called with its default [0]. *)
Definition _to_int (v : value) (default : Z) : Z :=
  match v with
  | VInt z => z
  | VBool b => if b then 1 else 0
  | VStr s => match int_of_str s with Some z => z | None => default end
  | VNone | VList _ | VDict _ => default
  end.

Definition _is_adult (person : value) : res bool :=
  demographics <- py_get person "demographics" (VDict []) ;;
  if negb (truthy demographics) || negb (is_dict demographics) then Ok true else
  demo_list <- py_get demographics "demographic" (VList []) ;;
  let demo_list := one_or_many demo_list in
  if negb (truthy demo_list) then Ok true else
  ds <- py_iter demo_list ;;
  demo_names <- mapM (fun d => n <- py_get d "name" (VStr "") ;; py_lower n) ds ;;
  if in_strs "adults" demo_names then Ok true
  else if in_strs "children" demo_names then Ok false
  else Ok true.

Definition should_include_person
    (person : value) (excluded_category_ids : option (list string)) : res bool :=
  let excluded_category_ids :=
    match excluded_category_ids with None => [] | Some l => l end in
  archived <- py_get person "archived" (VInt 0) ;;
  if py_eq_int archived 1 || py_eq_str archived "1"
     || String.eqb (lower (py_str archived)) "true"
  then Ok false else
  category_id <- py_get person "category_id" (VStr "") ;;
  if py_in_strs category_id excluded_category_ids then Ok false else
  adult <- _is_adult person ;;
  if negb adult then Ok false else Ok true.

(** *** Volunteer positions *)

Record position_entry : Type := {
  pe_id : value;
  pe_name : value;
  pe_department : value;
  pe_position_ids : list string;
  pe_volunteers : list hkey
}.

Definition positions_map := list (hkey * position_entry).

(** The body of [for pos in pos_list]. *)
Definition add_position (person_id : value) (dept_name sub_name : value)
    (positions : positions_map) (pos : value) : res positions_map :=
  pos_id <- py_get pos "id" (VStr "") ;;
  let display_name := sub_name in
  key <- hash_key display_name ;;
  let positions :=
    setdefault key {| pe_id := display_name; pe_name := display_name;
                      pe_department := dept_name;
                      pe_position_ids := []; pe_volunteers := [] |} positions in
  let positions :=
    update key (fun e => {| pe_id := pe_id e; pe_name := pe_name e;
                            pe_department := pe_department e;
                            pe_position_ids :=
                              set_add String.eqb (py_str pos_id) (pe_position_ids e);
                            pe_volunteers := pe_volunteers e |}) positions in
  member <- hash_key person_id ;;
  Ok (update key (fun e => {| pe_id := pe_id e; pe_name := pe_name e;
                              pe_department := pe_department e;
                              pe_position_ids := pe_position_ids e;
                              pe_volunteers :=
                                set_add key_eqb member (pe_volunteers e) |})
             positions).

(** The body of [for person in people]. *)
Definition extract_person (positions : positions_map) (person : value)
    : res positions_map :=
  person_id <- py_get person "id" VNone ;;
  if negb (truthy person_id) then Ok positions else
  walk_departments (add_position person_id) positions person.

(** The sets of an entry stay sets here: [list(...)] at the end of the source
    function fixes an order Python does not specify. *)
Definition extract_volunteer_positions_from_people (people : list value)
    : res positions_map :=
  foldM extract_person [] people.

(** *** Requests and pagination *)

Section WithTransport.
Variable post : transport.

Definition _make_request (endpoint : string) (data : value) : res value :=
  match post endpoint (if truthy data then data else VDict []) with
  | TransportError e => Raise (Exception_ ("Request failed: " ++ e)%string)
  | NotJson e => Raise (Exception_ ("Invalid JSON response: " ++ e)%string)
  | Json result =>
      has_status <- py_contains result "status" ;;
      if has_status then
        status <- py_get result "status" VNone ;;
        if negb (py_eq_str status "ok") then
          error <- py_get result "error" (VDict []) ;;
          error_msg <- py_get error "message" (VStr "Unknown Elvanto API error") ;;
          Raise (Exception_ ("Elvanto API error: " ++ py_str error_msg)%string)
        else Ok result
      else Ok result
  end.

Definition page_size : Z := 100.

Definition request_data (page : Z) (fields : list string) : value :=
  VDict [("page", VInt page); ("page_size", VInt page_size);
         ("fields", VList (map VStr fields))].

(** How one round of a [while True] loop ends. *)
Inductive round : Type :=
| Break (all : list value)
| Next (all : list value).

(** The three fetchers repeat one loop body; only the people fetcher has the
    filter between the one-or-many step and [extend].  [keep = None] is the
    body of the group fetchers and of [adults_only=False]. *)
Definition page_round (collection item : string)
    (keep : option (value -> res bool))
    (all : list value) (result : value) : res round :=
  data <- py_get result collection (VDict []) ;;
  if negb (truthy data) then Ok (Break all) else
  items <- py_get data item (VList []) ;;
  if negb (truthy items) then Ok (Break all) else
  let items := one_or_many items in
  xs <- py_iter items ;;
  xs <- match keep with
        | Some f => filterM f xs
        | None => Ok xs
        end ;;
  let all := all ++ xs in
  total <- py_get data "total" (VInt 0) ;;
  per_page <- py_get data "per_page" (VInt page_size) ;;
  on_this_page <- py_get data "on_this_page" (VInt (Z.of_nat (List.length xs))) ;;
  let total := _to_int total 0 in
  let per_page := _to_int per_page 0 in
  let on_this_page := _to_int on_this_page 0 in
  if (on_this_page <? per_page)%Z || (Z.of_nat (List.length all) >=? total)%Z
  then Ok (Break all) else Ok (Next all).

(** [None]: the loop has not left within [fuel] rounds. *)
Fixpoint fetch_loop (endpoint : string) (fields : list string)
    (collection item : string) (keep : option (value -> res bool))
    (fuel : nat) (page : Z) (all : list value) : option (res (list value)) :=
  match fuel with
  | O => None
  | S fuel' =>
      match _make_request endpoint (request_data page fields) with
      | Raise e => Some (Raise e)
      | Ok result =>
          match page_round collection item keep all result with
          | Raise e => Some (Raise e)
          | Ok (Break all') => Some (Ok all')
          | Ok (Next all') =>
              fetch_loop endpoint fields collection item keep
                         fuel' (page + 1) all'
          end
      end
  end.

Definition get_all_groups_with_people (fuel : nat) : option (res (list value)) :=
  fetch_loop "groups/getAll" ["people"] "groups" "group" None fuel 1 [].

Definition get_all_groups_with_categories (fuel : nat)
    : option (res (list value)) :=
  fetch_loop "groups/getAll" ["categories"] "groups" "group" None fuel 1 [].

Definition get_all_people_with_departments (fuel : nat) (adults_only : bool)
    (excluded_category_ids : option (list string)) : option (res (list value)) :=
  fetch_loop "people/getAll" ["departments"; "demographics"] "people" "person"
             (if adults_only
              then Some (fun p => should_include_person p excluded_category_ids)
              else None)
             fuel 1 [].
End WithTransport.

End ElvantoClient.

(** ** Mutation that survives an exception

    [filter_people] fills one dict inside two [try] blocks; what a block wrote
    before it raised stays written.  A block is a function from the dict to the
    dict it leaves and the exception it left with, if any. *)

Definition outcome (S : Type) : Type := (S * option exn)%type.

(** A step that raises before it writes. *)
Definition atomic {S} (s : S) (c : res S) : outcome S :=
  match c with
  | Ok s' => (s', None)
  | Raise e => (s, Some e)
  end.

Fixpoint for_each {S A} (body : S -> A -> outcome S) (s : S) (l : list A)
    : outcome S :=
  match l with
  | [] => (s, None)
  | x :: r =>
      match body s x with
      | (s', None) => for_each body s' r
      | (s', Some e) => (s', Some e)
      end
  end.

(** [m[k] = v] on a dict with hashable keys. *)
Fixpoint assign {V} (k : hkey) (v : V) (m : list (hkey * V)) : list (hkey * V) :=
  match m with
  | [] => [(k, v)]
  | (k', v') :: r =>
      if key_eqb k k' then (k', v) :: r else (k', v') :: assign k v r
  end.

(** * api/people.py *)

Module People.

Import ElvantoClient.

Record FilterRequest : Type := {
  group_ids : list string;
  service_position_ids : list string;
  excluded_category_ids : list string;
  excluded_group_category_ids : list string
}.

Definition _is_adult (person : value) : res bool :=
  demographics <- py_get person "demographics" (VDict []) ;;
  if negb (truthy demographics) || negb (is_dict demographics) then Ok true else
  demo_list <- py_get demographics "demographic" (VList []) ;;
  let demo_list := one_or_many demo_list in
  if negb (truthy demo_list) then Ok true else
  ds <- py_iter demo_list ;;
  demo_names <- mapM (fun d => n <- py_get d "name" (VStr "") ;; py_lower n) ds ;;
  if in_strs "adults" demo_names then Ok true
  else if in_strs "children" demo_names then Ok false
  else Ok true.

Definition should_include_person
    (person : value) (excluded_category_ids : option (list string)) : res bool :=
  let excluded_category_ids :=
    match excluded_category_ids with None => [] | Some l => l end in
  archived <- py_get person "archived" (VInt 0) ;;
  if py_eq_int archived 1 || py_eq_str archived "1"
     || String.eqb (lower (py_str archived)) "true"
  then Ok false else
  category_id <- py_get person "category_id" (VStr "") ;;
  if py_in_strs category_id excluded_category_ids then Ok false else
  adult <- _is_adult person ;;
  if negb adult then Ok false else Ok true.

Definition is_leader (p : value) : res bool :=
  position <- py_get p "position" (VStr "") ;;
  l <- py_lower position ;;
  Ok (String.eqb l "leader").

Definition get_leaders_from_group (group : value) : res (list value) :=
  people_data <- py_get group "people" (VDict []) ;;
  if negb (truthy people_data) then Ok [] else
  persons <- py_get people_data "person" (VList []) ;;
  ps <- py_iter (one_or_many persons) ;;
  filterM is_leader ps.

(** An item of the list [get_person_positions_from_departments] returns. *)
Record position_ref : Type := {
  pr_id : value;
  pr_name : value;
  pr_department : value
}.

Definition append_position (dept_name sub_name : value)
    (positions : list position_ref) (pos : value) : res (list position_ref) :=
  let display_name := sub_name in
  Ok (positions ++ [{| pr_id := display_name; pr_name := display_name;
                       pr_department := dept_name |}]).

Definition get_person_positions_from_departments (person : value)
    : res (list position_ref) :=
  walk_departments append_position [] person.

(** The [if]/[elif]/[else] that reads [cat_list] off [categories]. *)
Definition category_list (categories : value) : res value :=
  if is_dict categories then
    cat_list <- py_get categories "category" (VList []) ;;
    Ok (one_or_many cat_list)
  else if is_list categories then Ok categories
  else Ok (VList []).

(** [for cat in cat_list: ... return True], else fall through. *)
Fixpoint any_excluded (excluded : list string) (cats : list value) : res bool :=
  match cats with
  | [] => Ok false
  | cat :: r =>
      if is_dict cat then
        cat_id <- py_get cat "id" VNone ;;
        if truthy cat_id && py_in_strs cat_id excluded then Ok true
        else any_excluded excluded r
      else any_excluded excluded r
  end.

Definition group_has_excluded_category (group : value)
    (excluded_category_ids : list string) : res bool :=
  match excluded_category_ids with
  | [] => Ok false
  | _ =>
      no_category <-
        (if in_strs "__no_category__" excluded_category_ids then
           categories <- py_get group "categories" VNone ;;
           if negb (truthy categories) then Ok true
           else if is_dict categories then
             cat_list <- py_get categories "category" (VList []) ;;
             Ok (negb (truthy (one_or_many cat_list)))
           else Ok (is_list categories && negb (truthy categories))
         else Ok false) ;;
      if no_category then Ok true else
      categories <- py_get group "categories" VNone ;;
      if negb (truthy categories) then Ok false else
      cat_list <- category_list categories ;;
      cats <- py_iter cat_list ;;
      any_excluded excluded_category_ids cats
  end.

(** *** The export record *)

Record group_ref : Type := {
  gr_id : string;
  gr_name : value;
  gr_role : string
}.

(** A matched position: its id is one of the requested strings. *)
Record service_position : Type := {
  sp_id : string;
  sp_name : string;
  sp_department : value
}.

Record export_record : Type := {
  er_id : value;
  er_firstname : value;
  er_preferred_name : value;
  er_lastname : value;
  er_email : value;
  er_groups : list group_ref;
  er_service_positions : list service_position
}.

Definition people_map := list (hkey * export_record).

Definition field (person : value) (k : string) : value :=
  match py_get person k (VStr "") with
  | Ok v => v
  | Raise _ => VStr ""
  end.

(** The record both modes create for a person they see first. *)
Definition new_record (person_id person : value) : export_record :=
  {| er_id := person_id;
     er_firstname := field person "firstname";
     er_preferred_name := field person "preferred_name";
     er_lastname := field person "lastname";
     er_email := field person "email";
     er_groups := [];
     er_service_positions := [] |}.

Definition add_group (g : group_ref) (r : export_record) : export_record :=
  {| er_id := er_id r;
     er_firstname := er_firstname r;
     er_preferred_name := er_preferred_name r;
     er_lastname := er_lastname r;
     er_email := er_email r;
     er_groups :=
       if existsb (fun g' => String.eqb (gr_id g') (gr_id g)) (er_groups r)
       then er_groups r else er_groups r ++ [g];
     er_service_positions := er_service_positions r |}.

Definition add_service_position (p : service_position) (r : export_record)
    : export_record :=
  {| er_id := er_id r;
     er_firstname := er_firstname r;
     er_preferred_name := er_preferred_name r;
     er_lastname := er_lastname r;
     er_email := er_email r;
     er_groups := er_groups r;
     er_service_positions :=
       if existsb (fun p' => String.eqb (sp_id p') (sp_id p))
                  (er_service_positions r)
       then er_service_positions r else er_service_positions r ++ [p] |}.

(** *** Group-leader mode *)

(** The body of [for person in leaders]. *)
Definition add_leader (group_id : string) (group_name : value)
    (filtered_people : people_map) (person : value) : res people_map :=
  person_id <- py_get person "id" VNone ;;
  if negb (truthy person_id) then Ok filtered_people else
  key <- hash_key person_id ;;
  let filtered_people :=
    setdefault key (new_record person_id person) filtered_people in
  Ok (update key
        (add_group {| gr_id := group_id; gr_name := group_name;
                      gr_role := "Leader" |})
        filtered_people).

(** The two loops that join the category fetch into the people fetch. *)
Definition index_categories (by_id : list (hkey * value)) (group : value)
    : res (list (hkey * value)) :=
  group_id <- py_get group "id" VNone ;;
  if truthy group_id then
    key <- hash_key group_id ;;
    categories <- py_get group "categories" VNone ;;
    Ok (assign key categories by_id)
  else Ok by_id.

Definition merge_group (categories_by_group_id : list (hkey * value))
    (groups : list value) (group : value) : res (list value) :=
  group_id <- py_get group "id" VNone ;;
  key <- hash_key group_id ;;
  match find key categories_by_group_id, group with
  | Some categories, VDict d =>
      Ok (groups ++ [VDict (dict_set "categories" categories d)])
  | _, _ => Ok (groups ++ [group])
  end.

Definition merge_categories (groups_with_people groups_with_categories : list value)
    : res (list value) :=
  categories_by_group_id <- foldM index_categories [] groups_with_categories ;;
  foldM (merge_group categories_by_group_id) [] groups_with_people.

(** The body of [for group in groups]. *)
Definition process_group (request : FilterRequest)
    (filtered_people : people_map) (group : value) : outcome people_map :=
  match
    (id <- py_get group "id" (VStr "") ;;
     let group_id := py_str id in
     if negb (in_strs group_id (group_ids request)) then Ok None else
     excluded <- group_has_excluded_category group
                   (excluded_group_category_ids request) ;;
     if excluded then Ok None else
     group_name <- py_get group "name" (VStr "Unknown Group") ;;
     leaders <- get_leaders_from_group group ;;
     Ok (Some (group_id, group_name, leaders)))
  with
  | Raise e => (filtered_people, Some e)
  | Ok None => (filtered_people, None)
  | Ok (Some (group_id, group_name, leaders)) =>
      for_each (fun fp person => atomic fp (add_leader group_id group_name fp person))
               filtered_people leaders
  end.

(** *** Service-position mode *)

(** [[pos for pos in person_positions if pos["id"] in service_position_ids]]:
    only a string id is in a list of strings. *)
Fixpoint matched_positions (ids : list string) (person_positions : list position_ref)
    : list service_position :=
  match person_positions with
  | [] => []
  | pos :: r =>
      match pr_id pos with
      | VStr s =>
          if in_strs s ids
          then {| sp_id := s; sp_name := s; sp_department := pr_department pos |}
               :: matched_positions ids r
          else matched_positions ids r
      | _ => matched_positions ids r
      end
  end.

(** The body of [for person in people]. *)
Definition add_volunteer (request : FilterRequest)
    (filtered_people : people_map) (person : value) : res people_map :=
  person_id <- py_get person "id" VNone ;;
  if negb (truthy person_id) then Ok filtered_people else
  person_positions <- get_person_positions_from_departments person ;;
  match matched_positions (service_position_ids request) person_positions with
  | [] => Ok filtered_people
  | matched =>
      key <- hash_key person_id ;;
      let filtered_people :=
        setdefault key (new_record person_id person) filtered_people in
      Ok (fold_left (fun fp pos => update key (add_service_position pos) fp)
                    matched filtered_people)
  end.

Record FilterResponse : Type := {
  people : list export_record;
  count : nat
}.

Section WithTransport.
Variable post : transport.

(** The first [try] block. *)
Definition group_task (fuel : nat) (request : FilterRequest)
    (filtered_people : people_map) : option (outcome people_map) :=
  match get_all_groups_with_people post fuel with
  | None => None
  | Some (Raise e) => Some (filtered_people, Some e)
  | Some (Ok groups_with_people) =>
      match get_all_groups_with_categories post fuel with
      | None => None
      | Some (Raise e) => Some (filtered_people, Some e)
      | Some (Ok groups_with_categories) =>
          match merge_categories groups_with_people groups_with_categories with
          | Raise e => Some (filtered_people, Some e)
          | Ok groups =>
              Some (for_each (process_group request) filtered_people groups)
          end
      end
  end.

(** The second [try] block. *)
Definition service_task (fuel : nat) (request : FilterRequest)
    (filtered_people : people_map) : option (outcome people_map) :=
  match get_all_people_with_departments post fuel true
          (Some (excluded_category_ids request)) with
  | None => None
  | Some (Raise e) => Some (filtered_people, Some e)
  | Some (Ok people) =>
      Some (for_each (fun fp person => atomic fp (add_volunteer request fp person))
                     filtered_people people)
  end.

(** [filter_people] on a constructed client: both [except] clauses only
    print, so each block hands on the dict as it left it. *)
Definition filter_people (fuel : nat) (request : FilterRequest)
    : option FilterResponse :=
  let filtered_people : people_map := [] in
  match
    match group_ids request with
    | [] => Some filtered_people
    | _ => option_map fst (group_task fuel request filtered_people)
    end
  with
  | None => None
  | Some filtered_people =>
      match
        match service_position_ids request with
        | [] => Some filtered_people
        | _ => option_map fst (service_task fuel request filtered_people)
        end
      with
      | None => None
      | Some filtered_people =>
          let result := map snd filtered_people in
          Some {| people := result; count := List.length result |}
      end
  end.
End WithTransport.

End People.

(** * The data model of the specification *)

(** ** Demographic tags

    The tag names of a person record: none when [demographics] is absent or
    empty, otherwise the names of its [demographic] entries (one mapping or a
    list of mappings, each with a string [name] or none).  [None] marks a
    record outside the data model. *)

Definition tag_name (d : value) : option string :=
  match d with
  | VDict f =>
      match lookup "name" f with
      | None => Some ""
      | Some (VStr n) => Some n
      | Some _ => None
      end
  | _ => None
  end.

Fixpoint tag_names (ds : list value) : option (list string) :=
  match ds with
  | [] => Some []
  | d :: r =>
      match tag_name d, tag_names r with
      | Some n, Some ns => Some (n :: ns)
      | _, _ => None
      end
  end.

Definition demographic_tags (person : value) : option (list string) :=
  match person with
  | VDict p =>
      match lookup "demographics" p with
      | None => Some []
      | Some (VDict dm) =>
          match lookup "demographic" dm with
          | None => Some []
          | Some (VList ds) => tag_names ds
          | Some (VDict d) => tag_names [VDict d]
          | Some v => if truthy v then None else Some []
          end
      | Some v => if truthy v then None else Some []
      end
  | _ => None
  end.

(** A tag set has a tag when one of its names is the tag up to letter case. *)
Definition has_tag (t : string) (tags : list string) : Prop :=
  In t (map lower tags).

(** The archived marker signals true: integer 1, string "1", or a string that
    reads "true" whatever its letter case. *)
Definition archived_signal (v : value) : Prop :=
  v = VInt 1 \/ v = VStr "1" \/ exists s, v = VStr s /\ lower s = "true".

(** ** Well-shaped person records

    The shapes the one-or-many handling is written for.  An item field
    ([demographic], [department], [sub_department], [position]) is missing, one
    mapping or a list; a container field ([demographics], [departments],
    [sub_departments], [positions]) is missing, a mapping, or anything else
    that is not a mapping.  What the items of a list have to be depends on who
    reads them: a department and a sub-department are always read, so they are
    mappings; the client extractor reads the [id] of a position and uses the
    sub-department name as a key, the API-layer walk does neither. *)

Definition scalar (v : value) : bool := negb (is_dict v) && negb (is_list v).

Definition any_value (v : value) : bool := true.

Definition items_ok (ok : value -> bool) (field : option value) : bool :=
  match field with
  | None => true
  | Some (VDict d) => ok (VDict d)
  | Some (VList l) => forallb ok l
  | Some _ => false
  end.

Definition container_ok (item : string) (ok : value -> bool)
    (field : option value) : bool :=
  match field with
  | Some (VDict d) => items_ok ok (lookup item d)
  | _ => true
  end.

Definition demographic_ok (d : value) : bool :=
  match tag_name d with Some _ => true | None => false end.

(** The [demographics] of a person, as [_is_adult] reads them. *)
Definition demographics_ok (p : dict) : bool :=
  container_ok "demographic" demographic_ok (lookup "demographics" p).

Definition sub_department_ok (name_ok position_ok : value -> bool)
    (sub : value) : bool :=
  match sub with
  | VDict d =>
      match lookup "name" d with Some n => name_ok n | None => true end
      && container_ok "position" position_ok (lookup "positions" d)
  | _ => false
  end.

Definition department_ok (name_ok position_ok : value -> bool)
    (dept : value) : bool :=
  match dept with
  | VDict d =>
      container_ok "sub_department" (sub_department_ok name_ok position_ok)
                   (lookup "sub_departments" d)
  | _ => false
  end.

(** The [departments] of a person, down to the positions. *)
Definition departments_ok (name_ok position_ok : value -> bool)
    (p : dict) : bool :=
  container_ok "department" (department_ok name_ok position_ok)
               (lookup "departments" p).

(** What the client extractor reads of a person: the id, which becomes a
    member of a set, and the departments, with sub-department names that can
    be keys and positions that are mappings.  The demographics are not read. *)
Definition person_ok (person : value) : bool :=
  match person with
  | VDict p =>
      match lookup "id" p with Some i => scalar i | None => true end
      && departments_ok scalar is_dict p
  | _ => false
  end.

(** A container field the walks pass over: missing, empty, None, or anything
    else that is not a mapping. *)
Definition passed_over (field : option value) : bool :=
  match field with
  | Some c => negb (truthy c) || negb (is_dict c)
  | None => true
  end.

(** An item field that holds a bare string which is not empty. *)
Definition bare_string (item : string) (d : dict) : Prop :=
  exists s, lookup item d = Some (VStr s) /\ s <> "".

(** ** Server pages

    A page of a list endpoint as section 6 of the specification lays it out:
    the item field (missing, a list, or one bare mapping) next to [total],
    [per_page] and [on_this_page]. *)

Inductive page_items : Type :=
| Missing
| Many (l : list value)
| One (d : dict).

Record page : Type := {
  pg_items : page_items;
  pg_total : Z;
  pg_per_page : Z;
  pg_on_this_page : Z
}.

Definition encode (collection item : string) (p : page) : value :=
  VDict [("status", VStr "ok");
         (collection,
          VDict (("total", VInt (pg_total p))
                 :: ("per_page", VInt (pg_per_page p))
                 :: ("on_this_page", VInt (pg_on_this_page p))
                 :: match pg_items p with
                    | Missing => []
                    | Many l => [(item, VList l)]
                    | One d => [(item, VDict d)]
                    end))].

(** A server that answers request number n with the n-th page of [pages] and
    every other request with [after]. *)
Definition serve (collection item : string) (pages : list page)
    (after : http_outcome) : transport :=
  fun endpoint data =>
    match data with
    | VDict d =>
        match lookup "page" d with
        | Some (VInt n) =>
            if (1 <=? n)%Z then
              match nth_error pages (Z.to_nat (n - 1)) with
              | Some p => Json (encode collection item p)
              | None => after
              end
            else after
        | _ => after
        end
    | _ => after
    end.

(** A response whose collection is empty. *)
Definition no_more (collection : string) : http_outcome :=
  Json (VDict [("status", VStr "ok"); (collection, VDict [])]).

(** The items a page contributes: a bare mapping counts as one item, an empty
    one as none. *)
Definition items_of (i : page_items) : list value :=
  match i with
  | Missing => []
  | Many l => l
  | One [] => []
  | One d => [VDict d]
  end.

(** Pagination as the specification words it: accumulate from the first page
    on; stop at once on a page without items; otherwise stop after a page
    whose reported count is below the page size, or once the accumulated count
    has reached the reported total. *)
Inductive pagination : Type :=
| Stopped (all : list value)
| RanOut (all : list value).

Fixpoint paginate (pages : list page) (all : list value) : pagination :=
  match pages with
  | [] => RanOut all
  | p :: rest =>
      match items_of (pg_items p) with
      | [] => Stopped all
      | items =>
          let all := all ++ items in
          if (pg_on_this_page p <? pg_per_page p)%Z
             || (pg_total p <=? Z.of_nat (List.length all))%Z
          then Stopped all
          else paginate rest all
      end
  end.

Definition collected (r : pagination) : list value :=
  match r with
  | Stopped all => all
  | RanOut all => all
  end.

(** ** The walk as a list of assignments

    What the loop nest of the extractor meets, in the order it meets it: one
    assignment per position of a named sub-department of a person with an
    id. *)

Record assignment : Type := {
  as_person : value;
  as_department : value;
  as_sub_department : value;
  as_position : value
}.

Definition note_assignment (person_id dept_name sub_name : value)
    (met : list assignment) (pos : value) : res (list assignment) :=
  Ok (met ++ [{| as_person := person_id; as_department := dept_name;
                 as_sub_department := sub_name; as_position := pos |}]).

Definition walk_person (met : list assignment) (person : value)
    : res (list assignment) :=
  person_id <- py_get person "id" VNone ;;
  if negb (truthy person_id) then Ok met else
  walk_departments (note_assignment person_id) met person.

Definition assignments (people : list value) : res (list assignment) :=
  foldM walk_person [] people.

(** The department of the first assignment whose sub-department has key [k]. *)
Fixpoint first_department (k : hkey) (met : list assignment) : option value :=
  match met with
  | [] => None
  | a :: r =>
      match hash_key (as_sub_department a) with
      | Ok k' =>
          if key_eqb k k' then Some (as_department a) else first_department k r
      | Raise _ => first_department k r
      end
  end.

(** The department of the last such assignment. *)
Definition last_department (k : hkey) (met : list assignment) : option value :=
  first_department k (rev met).

(** Person [p], with id [i], holds a position of a sub-department named
    [sub]. *)
Definition assigned (p i : value) (sub : string) : Prop :=
  py_get p "id" VNone = Ok i /\ truthy i = true /\
  exists refs r,
    People.get_person_positions_from_departments p = Ok refs /\
    In r refs /\ People.pr_id r = VStr sub.

(** The member set of an entry holds the id [i]. *)
Definition member (i : value) (e : ElvantoClient.position_entry) : Prop :=
  exists m, hash_key i = Ok m /\ In m (ElvantoClient.pe_volunteers e).

(** The innermost statements of the extractor, run on an assignment. *)
Definition add_assignment (positions : ElvantoClient.positions_map)
    (a : assignment) : res ElvantoClient.positions_map :=
  ElvantoClient.add_position (as_person a) (as_department a)
    (as_sub_department a) positions (as_position a).

(** ** What a mode may change in a record that is already there *)

Definition same_identity (r r' : People.export_record) : Prop :=
  People.er_id r' = People.er_id r /\
  People.er_firstname r' = People.er_firstname r /\
  People.er_preferred_name r' = People.er_preferred_name r /\
  People.er_lastname r' = People.er_lastname r /\
  People.er_email r' = People.er_email r.

Definition position_ids (r : People.export_record) : list string :=
  map People.sp_id (People.er_service_positions r).

Definition group_ids_of (r : People.export_record) : list string :=
  map People.gr_id (People.er_groups r).

(** Identity and groups as they were; service positions appended, without a
    position id coming twice. *)
Definition positions_appended (r r' : People.export_record) : Prop :=
  same_identity r r' /\
  People.er_groups r' = People.er_groups r /\
  (exists added,
     People.er_service_positions r'
     = People.er_service_positions r ++ added) /\
  (NoDup (position_ids r) -> NoDup (position_ids r')).

(** Identity and service positions as they were. *)
Definition groups_only (r r' : People.export_record) : Prop :=
  same_identity r r' /\
  People.er_service_positions r' = People.er_service_positions r.

(** Every record of [fp] is still in [fp'], changed as [change] allows. *)
Definition frame (change : People.export_record -> People.export_record -> Prop)
    (fp fp' : People.people_map) : Prop :=
  forall k r, find k fp = Some r ->
              exists r', find k fp' = Some r' /\ change r r'.

(** ** Members and leaders of a group *)

(** [p] is one of the people the group carries. *)
Definition group_member (g p : value) : Prop :=
  exists people_data persons ps,
    py_get g "people" (VDict []) = Ok people_data /\
    py_get people_data "person" (VList []) = Ok persons /\
    py_iter (one_or_many persons) = Ok ps /\ In p ps.

(** The position of [p] reads "leader" whatever its letter case. *)
Definition leader_role (p : value) : Prop :=
  exists s, py_get p "position" (VStr "") = Ok (VStr s) /\ lower s = "leader".

(** The group is one of the requested ones. *)
Definition requested (request : People.FilterRequest) (g : value) : Prop :=
  exists id, py_get g "id" (VStr "") = Ok id /\
             In (py_str id) (People.group_ids request).

(** A request for one of the two modes only. *)
Definition without_groups (request : People.FilterRequest) : People.FilterRequest :=
  {| People.group_ids := [];
     People.service_position_ids := People.service_position_ids request;
     People.excluded_category_ids := People.excluded_category_ids request;
     People.excluded_group_category_ids :=
       People.excluded_group_category_ids request |}.

Definition without_positions (request : People.FilterRequest)
    : People.FilterRequest :=
  {| People.group_ids := People.group_ids request;
     People.service_position_ids := [];
     People.excluded_category_ids := People.excluded_category_ids request;
     People.excluded_group_category_ids :=
       People.excluded_group_category_ids request |}.

(** A server with one answer list for the group endpoint and one for the
    people endpoint. *)
Definition route (groups people : transport) : transport :=
  fun endpoint data =>
    if String.eqb endpoint "people/getAll" then people endpoint data
    else groups endpoint data.

(** ** Invariants of the loops *)

(** An item field that is none of the counters, in a collection that is not
    the status field: the two endpoints of the client are such. *)
Definition plain_names (collection item : string) : Prop :=
  String.eqb collection "status" = false /\
  String.eqb item "total" = false /\
  String.eqb item "per_page" = false /\
  String.eqb item "on_this_page" = false.

Definition round_all (r : ElvantoClient.round) : list value :=
  match r with
  | ElvantoClient.Break all => all
  | ElvantoClient.Next all => all
  end.

(** The positions are what the innermost statements of the extractor build
    from the assignments [met]. *)
Definition built_from (positions : ElvantoClient.positions_map)
    (met : list assignment) : Prop :=
  foldM add_assignment [] met = Ok positions.

(** Keys come once; an entry carries its key as id and name, and no member
    twice. *)
Definition entries_ok (s : ElvantoClient.positions_map) : Prop :=
  NoDup (map fst s) /\
  forall k e, In (k, e) s ->
    ElvantoClient.pe_id e = ElvantoClient.pe_name e /\
    hash_key (ElvantoClient.pe_id e) = Ok k /\
    NoDup (ElvantoClient.pe_volunteers e).

(** Key [k] has an entry whose member set holds [m]. *)
Definition holds (k m : hkey) (s : ElvantoClient.positions_map) : Prop :=
  exists e, find k s = Some e /\ In m (ElvantoClient.pe_volunteers e).

(** A group after the category join: itself, or itself with [categories]
    set. *)
Definition joined (g g' : value) : Prop :=
  g' = g \/ exists d c, g = VDict d /\ g' = VDict (dict_set "categories" c d).

(** Every record of the mapping is a leader of a requested group among
    [groups], and lists its groups with the role "Leader". *)
Definition only_leaders (request : People.FilterRequest) (groups : list value)
    (fp : People.people_map) : Prop :=
  forall k r, In (k, r) fp ->
    (exists g p, In g groups /\ requested request g /\ group_member g p /\
                 leader_role p /\ py_get p "id" VNone = Ok (People.er_id r)) /\
    (forall gr, In gr (People.er_groups r) ->
                People.gr_role gr = "Leader" /\
                In (People.gr_id gr) (People.group_ids request)).


(** * Sample payloads *)

Module Sample.

Definition adult_and_child : value :=
  VDict [("id", VStr "P1");
         ("demographics",
          VDict [("demographic",
                  VList [VDict [("name", VStr "Adults")];
                         VDict [("name", VStr "Children")]])])].

Definition child_only : value :=
  VDict [("id", VStr "P2");
         ("demographics",
          VDict [("demographic", VDict [("name", VStr "Children")])])].

Definition archived_true : dict :=
  [("id", VStr "P7"); ("archived", VStr "True"); ("category_id", VStr "c1")].

(** Records with the given numeric ids. *)
Definition records (ids : list Z) : list value :=
  map (fun i => VDict [("id", VInt i)]) ids.

Definition full_page (items : list value) (total per_page : Z) : page :=
  {| pg_items := Many items; pg_total := total; pg_per_page := per_page;
     pg_on_this_page := Z.of_nat (List.length items) |}.

(** Five records in pages of two. *)
Definition five_in_twos : list page :=
  [full_page (records [1; 2]%Z) 5 2;
   full_page (records [3; 4]%Z) 5 2;
   full_page (records [5]%Z) 5 2].

Definition archived_one : value :=
  VDict [("id", VStr "P8"); ("archived", VInt 1)].

Definition plain_person : value :=
  VDict [("id", VStr "P9"); ("archived", VInt 0)].

(** A page with an archived person, a child and a plain person. *)
Definition mixed_people : list page :=
  [full_page [archived_one; child_only; plain_person] 3 100].

(** Two volunteers of a sub-department "Ushers" that sits under "Welcome"
    for the first and under "Sunday" for the second; the second holds two
    positions in it. *)
Definition usher_one : value :=
  VDict [("id", VStr "P1"); ("firstname", VStr "Ann");
         ("departments",
          VDict [("department",
                  VDict [("name", VStr "Welcome");
                         ("sub_departments",
                          VDict [("sub_department",
                                  VDict [("name", VStr "Ushers");
                                         ("positions",
                                          VDict [("position",
                                                  VDict [("id", VStr "10");
                                                         ("name", VStr "Door")])])])])])])].

Definition usher_two : value :=
  VDict [("id", VStr "P2"); ("firstname", VStr "Bob");
         ("departments",
          VDict [("department",
                  VList [VDict [("name", VStr "Sunday");
                                ("sub_departments",
                                 VDict [("sub_department",
                                         VList [VDict [("name", VStr "Ushers");
                                                       ("positions",
                                                        VDict [("position",
                                                                VList [VDict [("id", VStr "11")];
                                                                       VDict [("id", VStr "12")]])])]])])]])])].

(** A person under the same sub-department with no position in it. *)
Definition usher_without_position : value :=
  VDict [("id", VStr "P3");
         ("departments",
          VDict [("department",
                  VDict [("name", VStr "Welcome");
                         ("sub_departments",
                          VDict [("sub_department",
                                  VDict [("name", VStr "Ushers")])])])])].

Definition ushers : list value := [usher_one; usher_two].

Definition ushers_out : ElvantoClient.positions_map :=
  [(KStr "Ushers",
    {| ElvantoClient.pe_id := VStr "Ushers";
       ElvantoClient.pe_name := VStr "Ushers";
       ElvantoClient.pe_department := VStr "Welcome";
       ElvantoClient.pe_position_ids := ["10"; "11"; "12"];
       ElvantoClient.pe_volunteers := [KStr "P1"; KStr "P2"] |})].

(** Records whose item field is a bare string, and one whose item field is
    null. *)
Definition bare_string_demographic : value :=
  VDict [("id", VStr "P4");
         ("demographics", VDict [("demographic", VStr "Adults")])].

Definition bare_string_department : value :=
  VDict [("id", VStr "P5");
         ("departments", VDict [("department", VStr "Worship")])].

Definition null_department : value :=
  VDict [("id", VStr "P6");
         ("departments", VDict [("department", VNone)])].

(** Group G1 with a leader P1 and a member P2. *)
Definition g1 (name : value) : value :=
  VDict [("id", VStr "G1"); ("name", name);
         ("people",
          VDict [("person",
                  VList [VDict [("id", VStr "P1"); ("position", VStr "Leader")];
                         VDict [("id", VStr "P2"); ("position", VStr "Member")]])])].

(** A group whose one person has a null position. *)
Definition g2_null_position : value :=
  VDict [("id", VStr "G2"); ("name", VStr "Band");
         ("people",
          VDict [("person",
                  VDict [("id", VStr "P9"); ("position", VNone)])])].

Definition group_server (groups : list value) : transport :=
  serve "groups" "group"
        [full_page groups (Z.of_nat (List.length groups)) 100]
        (no_more "groups").

Definition people_server (persons : list value) : transport :=
  serve "people" "person"
        [full_page persons (Z.of_nat (List.length persons)) 100]
        (no_more "people").

Definition leaders_of (ids : list string) : People.FilterRequest :=
  {| People.group_ids := ids; People.service_position_ids := [];
     People.excluded_category_ids := [];
     People.excluded_group_category_ids := [] |}.

Definition leaders_and_ushers : People.FilterRequest :=
  {| People.group_ids := ["G1"]; People.service_position_ids := ["Ushers"];
     People.excluded_category_ids := [];
     People.excluded_group_category_ids := [] |}.

Definition p1_leader (name : value) : People.export_record :=
  {| People.er_id := VStr "P1";
     People.er_firstname := VStr "";
     People.er_preferred_name := VStr "";
     People.er_lastname := VStr "";
     People.er_email := VStr "";
     People.er_groups :=
       [{| People.gr_id := "G1"; People.gr_name := name;
           People.gr_role := "Leader" |}];
     People.er_service_positions := [] |}.

(** P1 as group-leader mode leaves it, and after service-position mode has
    met the volunteer [usher_one], who has the same id. *)
Definition after_groups : People.people_map :=
  [(KStr "P1", p1_leader (VStr "Youth"))].

Definition after_positions : People.people_map :=
  [(KStr "P1",
    {| People.er_id := VStr "P1";
       People.er_firstname := VStr "";
       People.er_preferred_name := VStr "";
       People.er_lastname := VStr "";
       People.er_email := VStr "";
       People.er_groups :=
         [{| People.gr_id := "G1"; People.gr_name := VStr "Youth";
             People.gr_role := "Leader" |}];
       People.er_service_positions :=
         [{| People.sp_id := "Ushers"; People.sp_name := "Ushers";
             People.sp_department := VStr "Welcome" |}] |})].

Definition both_servers : transport :=
  route (group_server [g1 (VStr "Youth")]) (people_server [usher_one]).

(** A group server that fails, next to a people server that answers. *)
Definition groups_down : transport :=
  route (fun _ _ => TransportError "timeout") (people_server [usher_one]).

End Sample.

(** * elvanto_client.py: the category requests and the person request *)

Module ClientLists.

Section WithTransport.
Variable post : transport.

(** The body [get_all_categories] and [get_all_group_categories] share, from
    the request to the [return] of either branch of the [try]. *)
Definition fetch_categories (endpoint : string) : value :=
  match
    (result <- ElvantoClient._make_request post endpoint (VDict []) ;;
     categories_data <- py_get result "categories" (VDict []) ;;
     categories <- py_get categories_data "category" (VList []) ;;
     Ok (one_or_many categories))
  with
  | Ok categories => categories
  | Raise _ => VList []
  end.

Definition get_all_categories : value :=
  fetch_categories "people/categories/getAll".

Definition get_all_group_categories : value :=
  fetch_categories "groups/categories/getAll".

Definition get_person_details (person_id : value) : res value :=
  result <- ElvantoClient._make_request post "people/getInfo"
              (VDict [("id", person_id)]) ;;
  py_get result "person" (VDict []).
End WithTransport.

End ClientLists.

(** * api/people.py: the listing endpoints

    An endpoint answers with its value or with the exception its outer
    [except] turns into a 500 response. *)

Module Endpoints.

Record category_item : Type := {
  ci_id : value;
  ci_name : value
}.

(** The item [get_categories] makes of a category. *)
Definition category_item_of (cat : value) : res category_item :=
  id <- py_get cat "id" (VStr "") ;;
  name <- py_get cat "name" (VStr "Unknown") ;;
  Ok {| ci_id := id; ci_name := name |}.

Definition get_categories (post : transport) : res (list category_item) :=
  categories <- py_iter (ClientLists.get_all_categories post) ;;
  mapM category_item_of categories.

(** *** [get_group_categories] *)

(** [categories_dict[cat_id] = cat_name]: a key that is there keeps its place
    and its key object. *)
Definition set_name (key : hkey) (cat_id cat_name : value)
    (categories_dict : list (hkey * category_item))
    : list (hkey * category_item) :=
  update key (fun e => {| ci_id := ci_id e; ci_name := cat_name |})
         (setdefault key {| ci_id := cat_id; ci_name := cat_name |}
                     categories_dict).

(** The body of [for cat in cat_list]. *)
Definition note_category (categories_dict : list (hkey * category_item))
    (cat : value) : res (list (hkey * category_item)) :=
  if is_dict cat then
    cat_id <- py_get cat "id" VNone ;;
    cat_name <- py_get cat "name" VNone ;;
    if truthy cat_id && truthy cat_name then
      key <- hash_key cat_id ;;
      Ok (set_name key cat_id cat_name categories_dict)
    else Ok categories_dict
  else Ok categories_dict.

(** The body of [for group in groups], on [categories_dict] and
    [groups_without_category]. *)
Definition note_group (state : list (hkey * category_item) * nat)
    (group : value) : res (list (hkey * category_item) * nat) :=
  let (categories_dict, groups_without_category) := state in
  categories <- py_get group "categories" VNone ;;
  if truthy categories then
    if is_dict categories then
      cat_list <- py_get categories "category" (VList []) ;;
      cats <- py_iter (one_or_many cat_list) ;;
      categories_dict <- foldM note_category categories_dict cats ;;
      Ok (categories_dict, groups_without_category)
    else if is_list categories then
      cats <- py_iter categories ;;
      categories_dict <- foldM note_category categories_dict cats ;;
      Ok (categories_dict, groups_without_category)
    else if is_str categories then Ok state
    else Ok state
  else Ok (categories_dict, S groups_without_category).

Definition no_category : category_item :=
  {| ci_id := VStr "__no_category__"; ci_name := VStr "No Category" |}.

Section Sorted.
(** Python's [sorted(items, key=name)]: the library's, taken as it comes. *)
Variable sorted_by_name : list category_item -> res (list category_item).

Definition get_group_categories (post : transport) (fuel : nat)
    : option (res (list category_item)) :=
  match ElvantoClient.get_all_groups_with_categories post fuel with
  | None => None
  | Some (Raise e) => Some (Raise e)
  | Some (Ok groups) =>
      Some (state <- foldM note_group ([], 0) groups ;;
            categories_list <- sorted_by_name (map snd (fst state)) ;;
            Ok (if (0 <? snd state)%nat
                then no_category :: categories_list
                else categories_list))
  end.
End Sorted.

(** *** [_get_groups_and_service_positions_impl] *)

(** The body of the inner [for cat in cat_list] of the formatting loop. *)
Definition note_category_id (category_ids : list value) (cat : value)
    : res (list value) :=
  if is_dict cat then
    cat_id <- py_get cat "id" VNone ;;
    if truthy cat_id then Ok (category_ids ++ [cat_id]) else Ok category_ids
  else Ok category_ids.

(** From [category_ids = []] to the end of the loop over [cat_list]. *)
Definition carried_category_ids (group : value) : res (list value) :=
  categories <- py_get group "categories" VNone ;;
  if truthy categories then
    cat_list <- People.category_list categories ;;
    cats <- py_iter cat_list ;;
    foldM note_category_id [] cats
  else Ok [].

(** The same, with the fallback on the sentinel. *)
Definition shown_category_ids (group : value) : res (list value) :=
  category_ids <- carried_category_ids group ;;
  match category_ids with
  | [] => Ok [VStr "__no_category__"]
  | _ => Ok category_ids
  end.

Record group_item : Type := {
  gi_id : string;
  gi_name : value;
  gi_member_count : nat;
  gi_category_ids : list value
}.

Record position_item : Type := {
  pi_id : string;
  pi_name : value;
  pi_department : value;
  pi_member_count : nat
}.

(** The body of [for group in groups]. *)
Definition format_group (group_list : list group_item) (group : value)
    : res (list group_item) :=
  id <- py_get group "id" VNone ;;
  if negb (truthy id) then Ok group_list else
  category_ids <- shown_category_ids group ;;
  leaders <- People.get_leaders_from_group group ;;
  id <- py_get group "id" (VStr "") ;;
  name <- py_get group "name" (VStr "Unnamed Group") ;;
  Ok (group_list ++ [{| gi_id := py_str id; gi_name := name;
                        gi_member_count := List.length leaders;
                        gi_category_ids := category_ids |}]).

Definition format_position (entry : hkey * ElvantoClient.position_entry)
    : position_item :=
  let pos_data := snd entry in
  {| pi_id := py_str (ElvantoClient.pe_id pos_data);
     pi_name := ElvantoClient.pe_name pos_data;
     pi_department := ElvantoClient.pe_department pos_data;
     pi_member_count := List.length (ElvantoClient.pe_volunteers pos_data) |}.

(** An entry of the combined list, by its ["type"]. *)
Inductive item : Type :=
| GroupItem (g : group_item)
| ServiceItem (p : position_item).

Record listing : Type := {
  items : list item;
  count : nat;
  groups_count : nat;
  positions_count : nat
}.

Section WithTransport.
Variable post : transport.

(** The first inner [try]: the two fetches and the join, or no group. *)
Definition listed_groups (fuel : nat) : option (list value) :=
  match ElvantoClient.get_all_groups_with_people post fuel with
  | None => None
  | Some (Raise _) => Some []
  | Some (Ok groups_with_people) =>
      match ElvantoClient.get_all_groups_with_categories post fuel with
      | None => None
      | Some (Raise _) => Some []
      | Some (Ok groups_with_categories) =>
          match People.merge_categories groups_with_people
                  groups_with_categories with
          | Ok groups => Some groups
          | Raise _ => Some []
          end
      end
  end.

(** The second inner [try]: every person with departments, or no position. *)
Definition listed_positions (fuel : nat)
    : option ElvantoClient.positions_map :=
  match ElvantoClient.get_all_people_with_departments post fuel false None with
  | None => None
  | Some (Raise _) => Some []
  | Some (Ok people) =>
      match ElvantoClient.extract_volunteer_positions_from_people people with
      | Ok positions => Some positions
      | Raise _ => Some []
      end
  end.

Definition _get_groups_and_service_positions_impl (fuel : nat)
    : option (res listing) :=
  match listed_groups fuel with
  | None => None
  | Some groups =>
      match listed_positions fuel with
      | None => None
      | Some positions =>
          Some (group_list <- foldM format_group [] groups ;;
                let position_list := map format_position positions in
                let combined :=
                  map GroupItem group_list ++ map ServiceItem position_list in
                Ok {| items := combined;
                      count := List.length combined;
                      groups_count := List.length group_list;
                      positions_count := List.length position_list |})
      end
  end.
End WithTransport.

End Endpoints.

(** * elvanto_client.py: positions of a service plan

    [_add_position] and [_add_item_positions] fill, in place, a dict of
    positions keyed by position id.  What they wrote before an exception stays
    written, so they return an [outcome]; the recursion over nested items
    takes fuel. *)

Module ServicePlans.

Record plan_entry : Type := {
  pn_id : string;
  pn_name : value;
  pn_service_type : value;
  pn_volunteers : list hkey
}.

Definition plan_map := list (hkey * plan_entry).

(** [v.get(k1, v.get(k2, default))]: the inner call runs first. *)
Definition get_or (v : value) (k1 k2 : string) (default : value) : res value :=
  inner <- py_get v k2 default ;;
  py_get v k1 inner.

(** The body of both [for volunteer in ...] loops. *)
Definition add_volunteer_id (key : hkey) (positions : plan_map)
    (volunteer : value) : res plan_map :=
  person <- py_get volunteer "person" volunteer ;;
  person_id <- py_get person "id" VNone ;;
  if truthy person_id then
    member <- hash_key person_id ;;
    Ok (update key (fun e => {| pn_id := pn_id e; pn_name := pn_name e;
                                pn_service_type := pn_service_type e;
                                pn_volunteers :=
                                  set_add key_eqb member (pn_volunteers e) |})
               positions)
  else Ok positions.

(** [if position_id not in positions: positions[position_id] = {...}]. *)
Definition new_entry (position_id position_name service_type_name : value)
    : plan_entry :=
  {| pn_id := py_str position_id; pn_name := position_name;
     pn_service_type := service_type_name; pn_volunteers := [] |}.

Definition _add_position (positions : plan_map)
    (position service_type_name : value) : outcome plan_map :=
  match
    (position_id <- py_get position "id" VNone ;;
     position_name <- py_get position "name" (VStr "Unknown Position") ;;
     Ok (position_id, position_name))
  with
  | Raise e => (positions, Some e)
  | Ok (position_id, position_name) =>
      if negb (truthy position_id) then (positions, None) else
      match hash_key position_id with
      | Raise e => (positions, Some e)
      | Ok key =>
          let positions :=
            setdefault key
              (new_entry position_id position_name service_type_name)
              positions in
          match
            (volunteers <- py_get position "volunteers" (VDict []) ;;
             volunteer_list <-
               (if is_dict volunteers
                then py_get volunteers "volunteer" (VList [])
                else if is_list volunteers then Ok volunteers
                else Ok (VList [])) ;;
             py_iter (one_or_many volunteer_list))
          with
          | Raise e => (positions, Some e)
          | Ok volunteer_list =>
              for_each (fun ps volunteer =>
                          atomic ps (add_volunteer_id key ps volunteer))
                       positions volunteer_list
          end
      end
  end.

(** The [if item_type == "heading"] branch. *)
Definition heading_positions (positions : plan_map)
    (item service_type_name : value) : outcome plan_map :=
  match
    (heading_name <- get_or item "heading" "title" (VStr "Volunteers") ;;
     positions_data <- get_or item "positions" "position" (VList []) ;;
     if truthy positions_data then
       positions_data <-
         (if is_dict positions_data
          then py_get positions_data "position" (VList [])
          else Ok positions_data) ;;
       poss <- py_iter (one_or_many positions_data) ;;
       Ok (heading_name, poss)
     else Ok (heading_name, []))
  with
  | Raise e => (positions, Some e)
  | Ok (heading_name, poss) =>
      for_each (fun ps pos =>
                  _add_position ps pos
                    (VStr (py_str service_type_name ++ " - "
                           ++ py_str heading_name)%string))
               positions poss
  end.

(** The [elif item_type in ["position", "role", "volunteer"]] branch. *)
Definition role_position (positions : plan_map)
    (item service_type_name : value) : outcome plan_map :=
  match
    (position_id <- get_or item "id" "position_id" VNone ;;
     position_name <- get_or item "title" "name" (VStr "Position") ;;
     Ok (position_id, position_name))
  with
  | Raise e => (positions, Some e)
  | Ok (position_id, position_name) =>
      if negb (truthy position_id) then (positions, None) else
      match hash_key position_id with
      | Raise e => (positions, Some e)
      | Ok key =>
          let positions :=
            setdefault key
              (new_entry position_id position_name service_type_name)
              positions in
          match
            (volunteers <- get_or item "volunteers" "volunteer" (VList []) ;;
             volunteers <-
               (if is_dict volunteers
                then py_get volunteers "volunteer" (VList [])
                else Ok volunteers) ;;
             py_iter (one_or_many volunteers))
          with
          | Raise e => (positions, Some e)
          | Ok volunteers =>
              for_each (fun ps vol => atomic ps (add_volunteer_id key ps vol))
                       positions volunteers
          end
      end
  end.

(** From [item_type = item.get("type", "")] to the end of the [if]/[elif]. *)
Definition own_positions (positions : plan_map)
    (item service_type_name : value) : outcome plan_map :=
  match py_get item "type" (VStr "") with
  | Raise e => (positions, Some e)
  | Ok item_type =>
      if py_eq_str item_type "heading"
      then heading_positions positions item service_type_name
      else if py_in_strs item_type ["position"; "role"; "volunteer"]
      then role_position positions item service_type_name
      else (positions, None)
  end.

(** The nested items the last loop walks. *)
Definition sub_items_of (item : value) : res (list value) :=
  sub_items <- get_or item "items" "item" (VList []) ;;
  if truthy sub_items then
    sub_items <-
      (if is_dict sub_items
       then py_get sub_items "item" (VList [])
       else Ok sub_items) ;;
    py_iter (one_or_many sub_items)
  else Ok [].

(** A loop whose body may run out of fuel. *)
Fixpoint for_each_fuel {S A} (body : S -> A -> option (outcome S)) (s : S)
    (l : list A) : option (outcome S) :=
  match l with
  | [] => Some (s, None)
  | x :: r =>
      match body s x with
      | None => None
      | Some (s', None) => for_each_fuel body s' r
      | Some (s', Some e) => Some (s', Some e)
      end
  end.

(** [None]: the nesting is deeper than [fuel]. *)
Fixpoint _add_item_positions (fuel : nat) (positions : plan_map)
    (item service_type_name : value) : option (outcome plan_map) :=
  match fuel with
  | O => None
  | S fuel' =>
      match own_positions positions item service_type_name with
      | (positions, Some e) => Some (positions, Some e)
      | (positions, None) =>
          match sub_items_of item with
          | Raise e => Some (positions, Some e)
          | Ok sub_items =>
              for_each_fuel
                (fun ps sub_item =>
                   _add_item_positions fuel' ps sub_item service_type_name)
                positions sub_items
          end
      end
  end.

End ServicePlans.

(** * main.py: the export to a spreadsheet

    The workbook is openpyxl's: [ws.append] takes a row or raises (a value it
    cannot put in a cell, a string with a control character), and [wb.save]
    writes the sheet or raises.  Both are oracles here, over the rows the
    sheet holds so far; they answer with the message of what they raise.  The
    styling of the header row and the column widths change no cell and raise
    nothing. *)

Module Main.

(** [sep.join(parts)]: every part must be a string. *)
Definition join (sep : string) (parts : list value) : res string :=
  strs <- mapM (fun v => match v with
                         | VStr s => Ok s
                         | _ => Raise TypeError
                         end) parts ;;
  Ok (String.concat sep strs).

(** The f-string of a group: its name, then its role in parentheses. *)
Definition group_label (g : value) : res value :=
  name <- py_get g "name" (VStr "Unknown") ;;
  role <- py_get g "role" (VStr "Member") ;;
  Ok (VStr (py_str name ++ " (" ++ py_str role ++ ")")%string).

(** The body of [for person in people_list], up to the list [ws.append]
    receives. *)
Definition export_row (person : value) : res (list value) :=
  firstname <- py_get person "firstname" (VStr "") ;;
  preferred_name <- py_get person "preferred_name" (VStr "") ;;
  lastname <- py_get person "lastname" (VStr "") ;;
  email <- py_get person "email" (VStr "") ;;
  groups <- py_get person "groups" (VList []) ;;
  gs <- py_iter groups ;;
  labels <- mapM group_label gs ;;
  groups_str <- join "; " labels ;;
  service_positions <- py_get person "service_positions" (VList []) ;;
  sps <- py_iter service_positions ;;
  names <- mapM (fun sp => py_get sp "name" (VStr "Unknown")) sps ;;
  positions_str <- join "; " names ;;
  Ok [firstname; preferred_name; lastname; email;
      VStr groups_str; VStr positions_str].

Definition headers : list value :=
  [VStr "First Name"; VStr "Preferred Name"; VStr "Last Name"; VStr "Email";
   VStr "Groups"; VStr "Service Positions"].

Definition sheet := list (list value).

(** What the endpoint answers.  The [except Exception] around its whole body
    turns an exception into status 500: one raised by the code of the
    endpoint, or one raised by the workbook, kept here as its message. *)
Inductive reply : Type :=
| Download (ws : sheet)
| ServerError (e : exn)
| WorkbookError (msg : string).

Section WithWorkbook.
Variable append : sheet -> list value -> option string.
Variable save : sheet -> option string.

(** [for person in people_list] on a sheet that holds [ws], then
    [wb.save]. *)
Fixpoint fill (ws : sheet) (people_list : list value) : reply :=
  match people_list with
  | [] =>
      match save ws with
      | Some msg => WorkbookError msg
      | None => Download ws
      end
  | person :: rest =>
      match export_row person with
      | Raise e => ServerError e
      | Ok row =>
          match append ws row with
          | Some msg => WorkbookError msg
          | None => fill (ws ++ [row]) rest
          end
      end
  end.

(** [export_to_xlsx], from the decoded request body on. *)
Definition export_to_xlsx (data : value) : reply :=
  match py_get data "people" (VList []) with
  | Raise e => ServerError e
  | Ok people_list =>
      match append [] headers with
      | Some msg => WorkbookError msg
      | None =>
          match py_iter people_list with
          | Raise e => ServerError e
          | Ok ps => fill [headers] ps
          end
      end
  end.
End WithWorkbook.

End Main.

(** * The response of the filter endpoint as JSON

    The dict literals of [filter_people], key by key. *)

Definition group_json (g : People.group_ref) : value :=
  VDict [("id", VStr (People.gr_id g)); ("name", People.gr_name g);
         ("role", VStr (People.gr_role g))].

Definition service_position_json (p : People.service_position) : value :=
  VDict [("id", VStr (People.sp_id p)); ("name", VStr (People.sp_name p));
         ("department", People.sp_department p)].

Definition record_json (r : People.export_record) : value :=
  VDict [("id", People.er_id r);
         ("firstname", People.er_firstname r);
         ("preferred_name", People.er_preferred_name r);
         ("lastname", People.er_lastname r);
         ("email", People.er_email r);
         ("groups", VList (map group_json (People.er_groups r)));
         ("service_positions",
          VList (map service_position_json (People.er_service_positions r)))].

Definition response_json (response : People.FilterResponse) : value :=
  VDict [("people", VList (map record_json (People.people response)));
         ("count", VInt (Z.of_nat (People.count response)))].

(** The row of a record: names and email as they are, each group as its name
    and role, each service position as its name. *)
Definition record_row (r : People.export_record) : list value :=
  [People.er_firstname r; People.er_preferred_name r; People.er_lastname r;
   People.er_email r;
   VStr (String.concat "; "
           (map (fun g => (py_str (People.gr_name g) ++ " ("
                           ++ People.gr_role g ++ ")")%string)
                (People.er_groups r)));
   VStr (String.concat "; "
           (map People.sp_name (People.er_service_positions r)))].

(** * What the loops are measured by *)

(** The total a response reports for its collection, as the pagination loop
    reads it. *)
Definition reported_total (collection : string) (result : value) : Z :=
  match py_get result collection (VDict []) with
  | Ok data =>
      match py_get data "total" (VInt 0) with
      | Ok total => ElvantoClient._to_int total 0
      | Raise _ => 0%Z
      end
  | Raise _ => 0%Z
  end.

(** A response whose total is sent as an integer of at most [bound]; where
    the collection or its total is missing, the defaults of the loop make
    it 0. *)
Definition total_within (bound : Z) (collection : string) (result : value)
    : Prop :=
  exists t,
    (data <- py_get result collection (VDict []) ;;
     py_get data "total" (VInt 0)) = Ok (VInt t) /\
    (t <= bound)%Z.

(** A page with its counters as decimal strings. *)
Definition encode_strings (collection item : string) (p : page) : value :=
  VDict [("status", VStr "ok");
         (collection,
          VDict (("total", VStr (str_of_Z (pg_total p)))
                 :: ("per_page", VStr (str_of_Z (pg_per_page p)))
                 :: ("on_this_page", VStr (str_of_Z (pg_on_this_page p)))
                 :: match pg_items p with
                    | Missing => []
                    | Many l => [(item, VList l)]
                    | One d => [(item, VDict d)]
                    end))].

(** The value of a decimal numeral read from the left. *)
Fixpoint uint_value (acc : Z) (d : Decimal.uint) : Z :=
  match d with
  | Decimal.Nil => acc
  | Decimal.D0 r => uint_value (acc * 10 + 0) r
  | Decimal.D1 r => uint_value (acc * 10 + 1) r
  | Decimal.D2 r => uint_value (acc * 10 + 2) r
  | Decimal.D3 r => uint_value (acc * 10 + 3) r
  | Decimal.D4 r => uint_value (acc * 10 + 4) r
  | Decimal.D5 r => uint_value (acc * 10 + 5) r
  | Decimal.D6 r => uint_value (acc * 10 + 6) r
  | Decimal.D7 r => uint_value (acc * 10 + 7) r
  | Decimal.D8 r => uint_value (acc * 10 + 8) r
  | Decimal.D9 r => uint_value (acc * 10 + 9) r
  end.

(** The number of decimal digits of an integer. *)
Definition digits (z : Z) : nat := String.length (str_of_Z (Z.abs z)).

(** Counters that [int] reads from their decimal strings: none has more than
    4300 digits. *)
Definition readable_counters (p : page) : Prop :=
  (digits (pg_total p) <= max_str_digits)%nat /\
  (digits (pg_per_page p) <= max_str_digits)%nat /\
  (digits (pg_on_this_page p) <= max_str_digits)%nat.

(** Two answers that are the same, or the same page with its counters once as
    integers and once as decimal strings of at most 4300 digits. *)
Definition same_but_counters (collection item : string)
    (o o' : http_outcome) : Prop :=
  o' = o \/
  exists p, readable_counters p /\
            o = Json (encode collection item p) /\
            o' = Json (encode_strings collection item p).

(** [serve] with the counters of every page as decimal strings. *)
Definition serve_strings (collection item : string) (pages : list page)
    (after : http_outcome) : transport :=
  fun endpoint data =>
    match data with
    | VDict d =>
        match lookup "page" d with
        | Some (VInt n) =>
            if (1 <=? n)%Z then
              match nth_error pages (Z.to_nat (n - 1)) with
              | Some p => Json (encode_strings collection item p)
              | None => after
              end
            else after
        | _ => after
        end
    | _ => after
    end.

(** What [_make_request] lets through: a result without a status, or a
    mapping whose status is the string "ok". *)
Definition accepted (result : value) : Prop :=
  py_contains result "status" = Ok false \/
  exists d, result = VDict d /\ lookup "status" d = Some (VStr "ok").

(** The items of all pages, in page order. *)
Definition all_items (pages : list page) : list value :=
  List.concat (map (fun p => items_of (pg_items p)) pages).

(** Pages as a server lays out a collection of at least [n] items: no page is
    empty, and every page but the last is full and reports a total of at
    least [n]. *)
Fixpoint laid_out (n : Z) (pages : list page) : bool :=
  match pages with
  | [] => true
  | p :: rest =>
      match items_of (pg_items p) with [] => false | _ => true end
      && match rest with
         | [] => true
         | _ => (pg_per_page p <=? pg_on_this_page p)%Z && (n <=? pg_total p)%Z
         end
      && laid_out n rest
  end.

(** The filter of a fetch on a list of items. *)
Definition kept (keep : option (value -> res bool)) (xs : list value)
    : res (list value) :=
  match keep with
  | Some f => filterM f xs
  | None => Ok xs
  end.

(** An entry as the extractor leaves it: a truthy id, at least one member, at
    least one position id, no position id twice. *)
Definition entry_filled (e : ElvantoClient.position_entry) : Prop :=
  truthy (ElvantoClient.pe_id e) = true /\
  ElvantoClient.pe_volunteers e <> [] /\
  ElvantoClient.pe_position_ids e <> [] /\
  NoDup (ElvantoClient.pe_position_ids e).

Definition filled (s : ElvantoClient.positions_map) : Prop :=
  forall k e, find k s = Some e -> entry_filled e.

(** A record lists every group id it listed before. *)
Definition groups_kept (r r' : People.export_record) : Prop :=
  incl (group_ids_of r) (group_ids_of r').

(** The result mapping as both modes keep it: a key comes once and is the key
    of its record's id, which is truthy; a record lists no group and no
    service position twice. *)
Definition keyed (fp : People.people_map) : Prop :=
  NoDup (map fst fp) /\
  forall k r, In (k, r) fp ->
    hash_key (People.er_id r) = Ok k /\ truthy (People.er_id r) = true /\
    NoDup (group_ids_of r) /\ NoDup (position_ids r).

(** The [categories] of a group hold at least one entry: a mapping whose
    [category] field is truthy (one mapping counting as a list of one), or any
    other truthy value. *)
Definition has_category_entries (categories : value) : bool :=
  match categories with
  | VDict d =>
      truthy (one_or_many (match lookup "category" d with
                           | Some x => x
                           | None => VList []
                           end))
  | _ => truthy categories
  end.

(** One of the ids is in the exclusion list. *)
Definition any_id_in (excluded : list string) (ids : list value) : bool :=
  existsb (fun id => py_in_strs id excluded) ids.

(** The item the categories endpoint makes of a mapping. *)
Definition item_of_mapping (d : dict) : Endpoints.category_item :=
  {| Endpoints.ci_id := match lookup "id" d with
                        | Some x => x
                        | None => VStr ""
                        end;
     Endpoints.ci_name := match lookup "name" d with
                          | Some x => x
                          | None => VStr "Unknown"
                          end |}.

(** The group has no [categories], or a falsy one. *)
Definition lacks_categories (g : value) : bool :=
  match py_get g "categories" VNone with
  | Ok c => negb (truthy c)
  | Raise _ => false
  end.

(** The category dictionary of [get_group_categories]: a key comes once and is
    the key of its item's id; id and name are truthy. *)
Definition categories_keyed
    (categories_dict : list (hkey * Endpoints.category_item)) : Prop :=
  NoDup (map fst categories_dict) /\
  forall k c, In (k, c) categories_dict ->
    hash_key (Endpoints.ci_id c) = Ok k /\
    truthy (Endpoints.ci_id c) = true /\
    truthy (Endpoints.ci_name c) = true.

(** Where a service position of a record with key [k] comes from: it is one of
    the requested ones, named by its id, and a person of the adults-only fetch
    with that key, who passed [should_include_person], holds a position under
    a sub-department of that name. *)
Definition position_from (post : transport) (fuel : nat)
    (request : People.FilterRequest) (k : hkey) (sp : People.service_position)
    : Prop :=
  In (People.sp_id sp) (People.service_position_ids request) /\
  People.sp_name sp = People.sp_id sp /\
  exists fetched p i refs ref,
    ElvantoClient.get_all_people_with_departments post fuel true
      (Some (People.excluded_category_ids request)) = Some (Ok fetched) /\
    In p fetched /\
    ElvantoClient.should_include_person p
      (Some (People.excluded_category_ids request)) = Ok true /\
    py_get p "id" VNone = Ok i /\ truthy i = true /\ hash_key i = Ok k /\
    People.get_person_positions_from_departments p = Ok refs /\
    In ref refs /\ People.pr_id ref = VStr (People.sp_id sp) /\
    People.sp_department sp = People.pr_department ref.

Definition positions_sound (post : transport) (fuel : nat)
    (request : People.FilterRequest) (fp : People.people_map) : Prop :=
  forall k r, In (k, r) fp ->
    forall sp, In sp (People.er_service_positions r) ->
               position_from post fuel request k sp.

(** The [categories] of the last group of the categories fetch that has a
    truthy id with key [key]. *)
Fixpoint last_categories (key : hkey) (groups_with_categories : list value)
    : option value :=
  match groups_with_categories with
  | [] => None
  | g :: rest =>
      match last_categories key rest with
      | Some c => Some c
      | None =>
          match py_get g "id" VNone, py_get g "categories" VNone with
          | Ok id, Ok c =>
              if truthy id then
                match hash_key id with
                | Ok k => if key_eqb key k then Some c else None
                | Raise _ => None
                end
              else None
          | _, _ => None
          end
      end
  end.

(** A group of the people fetch next to what the join makes of it: the same
    group with [categories] set to those of the last group of that id in the
    categories fetch, or the group untouched when there is none. *)
Definition joined_with (groups_with_categories : list value) (g g' : value)
    : Prop :=
  exists id key,
    py_get g "id" VNone = Ok id /\ hash_key id = Ok key /\
    match last_categories key groups_with_categories with
    | Some c =>
        py_get g' "categories" VNone = Ok c /\
        forall k default, String.eqb k "categories" = false ->
                          py_get g' k default = py_get g k default
    | None => g' = g
    end.


(** Where a group entry of a record with key [k] comes from: a requested group
    of the joined fetch that has no excluded category, with the entry's id and
    name, one of whose leaders has a truthy id with that key. *)
Definition group_from (post : transport) (fuel : nat)
    (request : People.FilterRequest) (k : hkey) (gr : People.group_ref)
    : Prop :=
  People.gr_role gr = "Leader" /\
  In (People.gr_id gr) (People.group_ids request) /\
  exists gp gc groups g gid ls p i,
    ElvantoClient.get_all_groups_with_people post fuel = Some (Ok gp) /\
    ElvantoClient.get_all_groups_with_categories post fuel = Some (Ok gc) /\
    People.merge_categories gp gc = Ok groups /\
    In g groups /\
    py_get g "id" (VStr "") = Ok gid /\ People.gr_id gr = py_str gid /\
    py_get g "name" (VStr "Unknown Group") = Ok (People.gr_name gr) /\
    People.group_has_excluded_category g
      (People.excluded_group_category_ids request) = Ok false /\
    People.get_leaders_from_group g = Ok ls /\ In p ls /\
    py_get p "id" VNone = Ok i /\ truthy i = true /\ hash_key i = Ok k.

Definition groups_sound (post : transport) (fuel : nat)
    (request : People.FilterRequest) (fp : People.people_map) : Prop :=
  forall k r, In (k, r) fp ->
    forall gr, In gr (People.er_groups r) -> group_from post fuel request k gr.

(** ** The members of a group

    The people a group record carries: none when [people] is absent or falsy,
    otherwise the entries of its [person] field (one mapping or a list of
    mappings).  [None] marks a record outside the data model. *)

Fixpoint as_mappings (l : list value) : option (list dict) :=
  match l with
  | [] => Some []
  | VDict d :: r =>
      match as_mappings r with
      | Some ds => Some (d :: ds)
      | None => None
      end
  | _ :: _ => None
  end.

Definition members (g : dict) : option (list dict) :=
  match lookup "people" g with
  | None => Some []
  | Some (VDict pd) =>
      match lookup "person" pd with
      | None => Some []
      | Some (VDict d) => Some [d]
      | Some (VList l) => as_mappings l
      | Some _ => None
      end
  | Some v => if truthy v then None else Some []
  end.

(** The members whose position reads "leader" whatever its letter case, in
    order; [None] when a position is there and is not a string. *)
Fixpoint leading (ps : list dict) : option (list dict) :=
  match ps with
  | [] => Some []
  | p :: r =>
      match lookup "position" p with
      | None => leading r
      | Some (VStr s) =>
          match leading r with
          | Some ls => Some (if String.eqb (lower s) "leader" then p :: ls else ls)
          | None => None
          end
      | Some _ => None
      end
  end.

(** ** Service plans *)

(** How deep a value nests lists and mappings. *)
Fixpoint depth (v : value) : nat :=
  match v with
  | VList l => S (fold_right (fun x n => Nat.max (depth x) n) 0%nat l)
  | VDict d =>
      S (fold_right (fun kv n => match kv with
                                 | (_, x) => Nat.max (depth x) n
                                 end) 0%nat d)
  | _ => 0%nat
  end.

(** Every entry of [ps] is still in [ps'], with its id, name and service type
    as they were and no volunteer gone. *)
Definition plan_kept (ps ps' : ServicePlans.plan_map) : Prop :=
  forall k e, find k ps = Some e ->
    exists e', find k ps' = Some e' /\
      ServicePlans.pn_id e' = ServicePlans.pn_id e /\
      ServicePlans.pn_name e' = ServicePlans.pn_name e /\
      ServicePlans.pn_service_type e' = ServicePlans.pn_service_type e /\
      incl (ServicePlans.pn_volunteers e) (ServicePlans.pn_volunteers e').

(** * More sample payloads *)

Module Cases.

(** A server that gives every request the same answer. *)
Definition always (o : http_outcome) : transport := fun _ _ => o.

(** A full page of one archived person, under a total of one. *)
Definition archived_page : page := Sample.full_page [Sample.archived_one] 1 1.

(** A group with one category, one without [categories], and one whose only
    category entry carries no id. *)
Definition categorised_group : value :=
  VDict [("id", VStr "G1");
         ("categories",
          VDict [("category",
                  VList [VDict [("id", VStr "c1"); ("name", VStr "Youth")]])])].

Definition bare_group : value := VDict [("id", VStr "G3")].

Definition unlabelled_group : value :=
  VDict [("id", VStr "G2");
         ("categories", VList [VDict [("name", VStr "Kids")]])].

(** Python's [sorted] by name on items whose names are strings: stable, by
    byte order.  A comparison with a name that is not a string is outside
    this instance. *)
Definition name_leb (a b : Endpoints.category_item) : res bool :=
  match Endpoints.ci_name a, Endpoints.ci_name b with
  | VStr x, VStr y => Ok (String.leb x y)
  | _, _ => Raise TypeError
  end.

Fixpoint insert_by_name (c : Endpoints.category_item)
    (l : list Endpoints.category_item) : res (list Endpoints.category_item) :=
  match l with
  | [] => Ok [c]
  | x :: r =>
      b <- name_leb x c ;;
      if b then r' <- insert_by_name c r ;; Ok (x :: r') else Ok (c :: l)
  end.

Definition sorted_strings (l : list Endpoints.category_item)
    : res (list Endpoints.category_item) :=
  foldM (fun acc c => insert_by_name c acc) [] l.

(** A request for the ushers only. *)
Definition ushers_only : People.FilterRequest :=
  {| People.group_ids := []; People.service_position_ids := ["Ushers"];
     People.excluded_category_ids := [];
     People.excluded_group_category_ids := [] |}.

(** The volunteer [Sample.usher_one] as service-position mode exports her. *)
Definition ann_usher : People.export_record :=
  {| People.er_id := VStr "P1";
     People.er_firstname := VStr "Ann";
     People.er_preferred_name := VStr "";
     People.er_lastname := VStr "";
     People.er_email := VStr "";
     People.er_groups := [];
     People.er_service_positions :=
       [{| People.sp_id := "Ushers"; People.sp_name := "Ushers";
           People.sp_department := VStr "Welcome" |}] |}.

(** The listing against [Sample.both_servers]. *)
Definition both_listing : Endpoints.listing :=
  {| Endpoints.items :=
       [Endpoints.GroupItem
          {| Endpoints.gi_id := "G1"; Endpoints.gi_name := VStr "Youth";
             Endpoints.gi_member_count := 1;
             Endpoints.gi_category_ids := [VStr "__no_category__"] |};
        Endpoints.ServiceItem
          {| Endpoints.pi_id := "Ushers"; Endpoints.pi_name := VStr "Ushers";
             Endpoints.pi_department := VStr "Welcome";
             Endpoints.pi_member_count := 1 |}];
     Endpoints.count := 2;
     Endpoints.groups_count := 1;
     Endpoints.positions_count := 1 |}.

(** [Sample.g1] after the join with [categorised_group]. *)
Definition g1_joined : value :=
  VDict [("id", VStr "G1"); ("name", VStr "Youth");
         ("people",
          VDict [("person",
                  VList [VDict [("id", VStr "P1"); ("position", VStr "Leader")];
                         VDict [("id", VStr "P2"); ("position", VStr "Member")]])]);
         ("categories",
          VDict [("category",
                  VList [VDict [("id", VStr "c1"); ("name", VStr "Youth")]])])].

(** [Sample.g1] after the join with itself: it has no [categories], and the
    join sets the field to [None]. *)
Definition g1_uncategorised : value :=
  VDict [("id", VStr "G1"); ("name", VStr "Youth");
         ("people",
          VDict [("person",
                  VList [VDict [("id", VStr "P1"); ("position", VStr "Leader")];
                         VDict [("id", VStr "P2"); ("position", VStr "Member")]])]);
         ("categories", VNone)].

(** A plan with the position "7", and the same position met again under
    another name with a volunteer. *)
Definition door_plan : ServicePlans.plan_map :=
  [(KStr "7",
    {| ServicePlans.pn_id := "7"; ServicePlans.pn_name := VStr "Door";
       ServicePlans.pn_service_type := VStr "Sunday";
       ServicePlans.pn_volunteers := [KStr "P1"] |})].

Definition door_again : value :=
  VDict [("id", VStr "7"); ("name", VStr "Entrance");
         ("volunteers",
          VDict [("volunteer", VDict [("person", VDict [("id", VStr "P2")])])])].

(** A heading item with one nested role item. *)
Definition nested_item : value :=
  VDict [("type", VStr "heading"); ("heading", VStr "Welcome");
         ("items",
          VDict [("item",
                  VList [VDict [("type", VStr "role"); ("id", VStr "7");
                                ("title", VStr "Door")]])])].

(** A workbook that takes every row and saves. *)
Definition takes_all : Main.sheet -> list value -> option string :=
  fun _ _ => None.

Definition saves : Main.sheet -> option string := fun _ => None.

(** A response with [ann_usher] alone. *)
Definition ann_alone : People.FilterResponse :=
  {| People.people := [ann_usher]; People.count := 1 |}.

End Cases.
(** * Facts about the combinators *)

Arguments lookup : simpl never.
Arguments in_strs : simpl never.

(** A computation that returned: split off its first step, which returned
    [x]. *)
Ltac returned H x :=
  lazymatch type of H with
  | bind ?c _ = Ok _ =>
      destruct c as [x|] eqn:?; [cbn [bind] in * | discriminate H]
  end.

(** A branch on a test: the early return closes with [tac]. *)
Ltac early H tac :=
  lazymatch type of H with
  | (if ?c then _ else _) = Ok _ =>
      destruct c eqn:?; [injection H as <-; tac|]
  end.

Lemma in_strs_In (s : string) (l : list string) : in_strs s l = true <-> In s l.
Proof.
  unfold in_strs. rewrite existsb_exists. split.
  - intros [x [Hx He]]. apply String.eqb_eq in He. now subst.
  - intros H. exists s. split; [assumption | apply String.eqb_refl].
Qed.

Lemma in_strs_false (s : string) (l : list string) : in_strs s l = false <-> ~ In s l.
Proof.
  rewrite <- in_strs_In. destruct (in_strs s l); split; congruence.
Qed.

(** * The inclusion filter *)

Lemma tag_names_mapM (ds : list value) (ns : list string) :
  tag_names ds = Some ns ->
  mapM (fun d => n <- py_get d "name" (VStr "") ;; py_lower n) ds
  = Ok (map lower ns).
Proof.
  revert ns. induction ds as [|d r IH]; intros ns H; simpl in *.
  - injection H as <-. reflexivity.
  - destruct (tag_name d) as [n|] eqn:Hn; [|discriminate].
    destruct (tag_names r) as [ms|] eqn:Hr; [|discriminate].
    injection H as <-. rewrite (IH ms eq_refl).
    destruct d; try discriminate. simpl in *.
    destruct (lookup "name" d) as [[]|]; try discriminate;
      injection Hn as <-; reflexivity.
Qed.

(** What [_is_adult] answers on a record of the data model. *)
Lemma is_adult_tags (person : value) (tags : list string) :
  demographic_tags person = Some tags ->
  ElvantoClient._is_adult person
  = Ok (if in_strs "adults" (map lower tags) then true
        else negb (in_strs "children" (map lower tags))).
Proof.
  intros H. destruct person as [| | | | |p]; try discriminate.
  unfold ElvantoClient._is_adult. simpl in *.
  destruct (lookup "demographics" p) as [dm|] eqn:Hd.
  2:{ injection H as <-. reflexivity. }
  destruct dm as [|b|z|s|l|dm];
    try (simpl in *; match type of H with
                     | (if ?c then _ else _) = _ => destruct c; [discriminate|]
                     end; injection H as <-; reflexivity).
  - injection H as <-. reflexivity.
  - destruct dm as [|kv dm']; [injection H as <-; reflexivity|].
    set (dm := kv :: dm') in *. simpl.
    destruct (lookup "demographic" dm) as [dl|] eqn:Hl.
    2:{ injection H as <-. reflexivity. }
    destruct dl as [|b|z|s|l|d];
      try (simpl in *; match type of H with
                       | (if ?c then _ else _) = _ =>
                           destruct c eqn:Hc; [discriminate|]
                       end; injection H as <-; simpl; try rewrite Hc; reflexivity).
    + injection H as <-. reflexivity.
    + destruct l as [|d l']; [injection H as <-; reflexivity|].
      simpl truthy. cbn [one_or_many is_dict negb py_iter bind].
      rewrite (tag_names_mapM _ _ H). cbn [bind].
      destruct (in_strs "adults" (map lower tags)); [reflexivity|].
      destruct (in_strs "children" (map lower tags)); reflexivity.
    + cbn [one_or_many is_dict truthy negb py_iter bind].
      rewrite (tag_names_mapM [VDict d] tags H). cbn [bind].
      destruct (in_strs "adults" (map lower tags)); [reflexivity|].
      destruct (in_strs "children" (map lower tags)); reflexivity.
Qed.

(** The API layer carries a copy of the client's predicate. *)
Lemma people_is_adult_copy (person : value) :
  People._is_adult person = ElvantoClient._is_adult person.
Proof. reflexivity. Qed.

Lemma people_should_include_copy (person : value) (excl : option (list string)) :
  People.should_include_person person excl
  = ElvantoClient.should_include_person person excl.
Proof. reflexivity. Qed.

(** C4.  The demographic check of the inclusion filter: a person whose
    [demographics] field is absent or empty is adult; on a person with
    demographic tags the check answers adult when the tags have "adults" in any
    letter case (with or without "children"), it answers not adult exactly when
    the tags have "children" and not "adults", and every other tag combination
    is adult.  Both copies of the check agree. *)
Theorem is_adult_demographic_check (person : value) :
  (forall p, person = VDict p ->
     (lookup "demographics" p = None \/
      exists v, lookup "demographics" p = Some v /\ truthy v = false) ->
     ElvantoClient._is_adult person = Ok true) /\
  (forall tags, demographic_tags person = Some tags ->
     (has_tag "adults" tags -> ElvantoClient._is_adult person = Ok true) /\
     (ElvantoClient._is_adult person = Ok false <->
      has_tag "children" tags /\ ~ has_tag "adults" tags) /\
     (~ (has_tag "children" tags /\ ~ has_tag "adults" tags) ->
      ElvantoClient._is_adult person = Ok true)) /\
  People._is_adult person = ElvantoClient._is_adult person.
Proof.
  split; [|split; [|reflexivity]].
  - intros p -> H. unfold ElvantoClient._is_adult, py_get. cbn [bind].
    destruct H as [H | [v [H Hv]]]; rewrite H; [reflexivity|].
    cbn [bind]. rewrite Hv. reflexivity.
  - intros tags H. rewrite (is_adult_tags _ _ H). unfold has_tag.
    destruct (in_strs "adults" (map lower tags)) eqn:Ha;
      destruct (in_strs "children" (map lower tags)) eqn:Hc; cbn [negb];
      first [apply in_strs_In in Ha | apply in_strs_false in Ha];
      first [apply in_strs_In in Hc | apply in_strs_false in Hc].
    + split; [reflexivity | split; [|reflexivity]].
      split; [discriminate | intros [_ Hn]; contradiction].
    + split; [reflexivity | split; [|reflexivity]].
      split; [discriminate | intros [_ Hn]; contradiction].
    + split; [intros Hn; contradiction | split].
      * split; [intros _; split; assumption | reflexivity].
      * intros Hn. exfalso. apply Hn. split; assumption.
    + split; [reflexivity | split; [|reflexivity]].
      split; [discriminate | intros [Hn _]; contradiction].
Qed.

(** A person tagged "Adults" and "Children" is adult; one tagged "Children"
    only is not. *)
Lemma is_adult_demographic_check_witness :
  ElvantoClient._is_adult Sample.adult_and_child = Ok true /\
  (ElvantoClient._is_adult Sample.child_only = Ok false <->
   has_tag "children" ["Children"] /\ ~ has_tag "adults" ["Children"]).
Proof.
  split.
  - apply (proj1 (proj1 (proj2 (is_adult_demographic_check
                                  Sample.adult_and_child))
                    ["Adults"; "Children"] eq_refl)).
    unfold has_tag. simpl. auto.
  - apply (proj1 (proj2 (proj1 (proj2 (is_adult_demographic_check
                                         Sample.child_only))
                           ["Children"] eq_refl))).
Defined.

(** C5.  A person whose [archived] marker is the integer 1, the string "1" or
    a string reading "true" in any letter case is excluded by
    [should_include_person] whatever the exclusion list and the other fields
    are.  The check comes first: the answer is given even for a record on which
    the demographic check, reached later, would raise. *)
Theorem archived_person_is_excluded
    (person : dict) (archived : value) (excluded : option (list string)) :
  lookup "archived" person = Some archived ->
  archived_signal archived ->
  ElvantoClient.should_include_person (VDict person) excluded = Ok false /\
  People.should_include_person (VDict person) excluded = Ok false /\
  (let broken := ("demographics", VDict [("demographic", VStr "Adults")]) in
   ElvantoClient._is_adult (VDict (broken :: person)) = Raise AttributeError /\
   ElvantoClient.should_include_person (VDict (broken :: person)) excluded
   = Ok false).
Proof.
  intros Hl Ha.
  assert (Hgen : forall p, lookup "archived" p = Some archived ->
                 ElvantoClient.should_include_person (VDict p) excluded = Ok false).
  { intros p Hp. unfold ElvantoClient.should_include_person, py_get.
    cbn [bind]. rewrite Hp.
    destruct Ha as [-> | [-> | [s [-> Hs]]]]; try reflexivity.
    cbn [py_str py_eq_int orb]. rewrite Hs.
    cbn [String.eqb]. rewrite orb_true_r. reflexivity. }
  split; [|split; [|split]].
  - apply Hgen, Hl.
  - apply Hgen, Hl.
  - reflexivity.
  - apply Hgen. unfold lookup in *. simpl. exact Hl.
Qed.

Lemma archived_person_is_excluded_witness :
  ElvantoClient.should_include_person (VDict Sample.archived_true) (Some ["c9"])
  = Ok false.
Proof.
  apply (archived_person_is_excluded Sample.archived_true (VStr "True")
           (Some ["c9"]) eq_refl).
  right; right. exists "True". split; reflexivity.
Defined.

(** * The one-or-many handling *)

Lemma foldM_total {S A} (ok : A -> bool) (body : S -> A -> res S) (l : list A) :
  forallb ok l = true ->
  (forall s x, ok x = true -> exists s', body s x = Ok s') ->
  forall s, exists s', foldM body s l = Ok s'.
Proof.
  intros Hl Hb. induction l as [|x r IH]; intros s; simpl.
  - now exists s.
  - simpl in Hl. apply andb_true_iff in Hl as [Hx Hr].
    destruct (Hb s x Hx) as [s1 ->]. simpl. apply IH, Hr.
Qed.

(** Reading a well-shaped item field and walking it. *)
Lemma items_iter (ok : value -> bool) (d : dict) (item : string) :
  items_ok ok (lookup item d) = true ->
  exists xs,
    (v <- py_get (VDict d) item (VList []) ;; py_iter (one_or_many v)) = Ok xs /\
    forallb ok xs = true.
Proof.
  unfold py_get. cbn [bind]. intros H.
  destruct (lookup item d) as [v|]; [|now exists []].
  destruct v as [| | | |l|x]; try discriminate.
  - exists l. split; [reflexivity | exact H].
  - exists [VDict x]. split; [reflexivity|]. simpl in *. now rewrite H.
Qed.

Lemma container_walk {S} (ok : value -> bool) (item : string)
    (body : S -> value -> res S) (field : option value) (default : value)
    (s : S) :
  truthy default = false ->
  container_ok item ok field = true ->
  (forall s x, ok x = true -> exists s', body s x = Ok s') ->
  exists s',
    (let c := match field with Some x => x | None => default end in
     if negb (truthy c) || negb (is_dict c) then Ok s else
     l <- py_get c item (VList []) ;;
     xs <- py_iter (one_or_many l) ;;
     foldM body s xs) = Ok s'.
Proof.
  intros Hd Hc Hb. cbv zeta.
  destruct field as [c|]; [|rewrite Hd; now exists s].
  destruct (negb (truthy c) || negb (is_dict c)) eqn:E; [now exists s|].
  destruct c as [| | | | |d];
    try (simpl in E; rewrite ?orb_true_r in E; discriminate).
  simpl in Hc.
  destruct (items_iter ok d item Hc) as [xs [Hx Hok]].
  unfold bind in Hx |- *.
  destruct (py_get (VDict d) item (VList [])) as [v|]; [|discriminate].
  rewrite Hx. apply (foldM_total ok); assumption.
Qed.

Section WalkTotal.
Context {S : Type}.
Variable visit : value -> value -> S -> value -> res S.
Variables name_ok pos_ok : value -> bool.
Hypothesis visit_total :
  forall dept_name sub_name s pos,
    name_ok sub_name = true -> pos_ok pos = true ->
    exists s', visit dept_name sub_name s pos = Ok s'.

Lemma walk_sub_total (dept_name : value) (s : S) (sub : value) :
  sub_department_ok name_ok pos_ok sub = true ->
  exists s', walk_sub visit dept_name s sub = Ok s'.
Proof.
  intros H. destruct sub as [| | | | |d]; try discriminate.
  simpl in H. apply andb_true_iff in H as [Hn Hp].
  unfold walk_sub. unfold py_get at 1. cbn [bind].
  destruct (lookup "name" d) as [sub_name|]; [|now exists s].
  destruct (negb (truthy sub_name)); [now exists s|].
  unfold py_get at 1. cbn [bind].
  apply (container_walk pos_ok "position" (visit dept_name sub_name)
           (lookup "positions" d) (VDict []) s eq_refl Hp).
  intros s0 x Hx. now apply visit_total.
Qed.

Lemma walk_dept_total (s : S) (dept : value) :
  department_ok name_ok pos_ok dept = true ->
  exists s', walk_dept visit s dept = Ok s'.
Proof.
  intros H. destruct dept as [| | | | |d]; try discriminate.
  simpl in H. unfold walk_dept. unfold py_get at 1 2. cbn [bind].
  apply (container_walk (sub_department_ok name_ok pos_ok) "sub_department"
           (walk_sub visit _) (lookup "sub_departments" d) (VDict []) s
           eq_refl H).
  intros s0 x Hx. now apply walk_sub_total.
Qed.

Lemma walk_departments_total (s : S) (p : dict) :
  departments_ok name_ok pos_ok p = true ->
  exists s', walk_departments visit s (VDict p) = Ok s'.
Proof.
  intros H. unfold walk_departments. unfold py_get at 1. cbn [bind].
  apply (container_walk (department_ok name_ok pos_ok) "department"
           (walk_dept visit) (lookup "departments" p) (VDict []) s eq_refl H).
  intros s0 x Hx. now apply walk_dept_total.
Qed.
End WalkTotal.

Lemma scalar_hash (v : value) : scalar v = true -> exists k, hash_key v = Ok k.
Proof. destruct v; try discriminate; intros _; eexists; reflexivity. Qed.

Lemma add_position_total (person_id dept_name sub_name : value)
    (positions : ElvantoClient.positions_map) (pos : value) :
  scalar person_id = true -> scalar sub_name = true -> is_dict pos = true ->
  exists positions',
    ElvantoClient.add_position person_id dept_name sub_name positions pos
    = Ok positions'.
Proof.
  intros Hp Hs Hpos. destruct pos; try discriminate.
  destruct (scalar_hash _ Hp) as [kp Hkp]. destruct (scalar_hash _ Hs) as [ks Hks].
  unfold ElvantoClient.add_position, py_get. cbn [bind].
  rewrite Hks. cbn [bind]. rewrite Hkp. cbn [bind]. eexists. reflexivity.
Qed.

Lemma is_adult_total (p : dict) :
  demographics_ok p = true ->
  exists b, ElvantoClient._is_adult (VDict p) = Ok b.
Proof.
  unfold demographics_ok. intros H.
  destruct (demographic_tags (VDict p)) as [tags|] eqn:Ht.
  - rewrite (is_adult_tags _ _ Ht). eexists. reflexivity.
  - exists true. unfold ElvantoClient._is_adult, py_get. cbn [bind].
    simpl in Ht. destruct (lookup "demographics" p) as [v|]; [|discriminate].
    destruct v as [|b|z|s|l|dm];
      try (cbn [is_dict negb]; rewrite orb_true_r; reflexivity).
    exfalso. simpl in H.
    destruct (lookup "demographic" dm) as [v|]; [|discriminate].
    destruct v as [|b|z|s|l|d]; try discriminate.
    + induction l as [|x r IH] in Ht, H |- *; [discriminate|].
      simpl in H. apply andb_true_iff in H as [Hx Hr].
      unfold demographic_ok in Hx. simpl in Ht.
      destruct (tag_name x); [|discriminate].
      destruct (tag_names r) eqn:Er; [discriminate|]. now apply IH.
    + simpl in H. unfold demographic_ok in H. simpl in Ht, H.
      destruct (lookup "name" d) as [[]|]; discriminate.
Qed.

Lemma should_include_total (p : dict) (excluded : option (list string)) :
  demographics_ok p = true ->
  exists b, ElvantoClient.should_include_person (VDict p) excluded = Ok b.
Proof.
  intros H. destruct (is_adult_total p H) as [a Ha].
  unfold ElvantoClient.should_include_person, py_get. cbn [bind].
  match goal with |- context [if ?c then Ok false else _] => destruct c end;
    [now exists false|].
  match goal with |- context [if ?c then Ok false else _] => destruct c end;
    [now exists false|].
  rewrite Ha. cbn [bind]. destruct a; eexists; reflexivity.
Qed.

(** * Pagination *)

Lemma make_request_serve_page (collection item : string) (pages : list page)
    (after : http_outcome) (endpoint : string) (fields : list string)
    (n : nat) (p : page) :
  nth_error pages n = Some p ->
  ElvantoClient._make_request (serve collection item pages after) endpoint
    (ElvantoClient.request_data (Z.of_nat (S n)) fields)
  = Ok (encode collection item p).
Proof.
  intros H. unfold ElvantoClient._make_request, ElvantoClient.request_data.
  cbn [truthy]. unfold serve.
  change (lookup "page" _) with (Some (VInt (Z.of_nat (S n)))). cbv iota beta.
  replace (1 <=? Z.of_nat (S n))%Z with true by (symmetry; apply Z.leb_le; lia).
  replace (Z.to_nat (Z.of_nat (S n) - 1)) with n by lia.
  rewrite H. reflexivity.
Qed.

Lemma lookup_here (k : string) (v : value) (d : dict) :
  lookup k ((k, v) :: d) = Some v.
Proof. unfold lookup. now rewrite String.eqb_refl. Qed.

Lemma lookup_skip (k k' : string) (v : value) (d : dict) :
  String.eqb k k' = false -> lookup k ((k', v) :: d) = lookup k d.
Proof. intros H. unfold lookup at 1. rewrite H. reflexivity. Qed.

Lemma plain_groups : plain_names "groups" "group".
Proof. repeat split. Qed.

Lemma plain_people : plain_names "people" "person".
Proof. repeat split. Qed.

(** One round of the loop on a served page. *)
Lemma page_round_encode (post : transport) (collection item : string)
    (keep : option (value -> res bool)) (all : list value) (p : page)
    (ys : list value) :
  plain_names collection item ->
  match keep with
  | Some f => filterM f (items_of (pg_items p))
  | None => Ok (items_of (pg_items p))
  end = Ok ys ->
  ElvantoClient.page_round collection item keep all (encode collection item p)
  = Ok (match items_of (pg_items p) with
        | [] => ElvantoClient.Break all
        | _ =>
            if (pg_on_this_page p <? pg_per_page p)%Z
               || (pg_total p <=? Z.of_nat (List.length (all ++ ys)))%Z
            then ElvantoClient.Break (all ++ ys)
            else ElvantoClient.Next (all ++ ys)
        end).
Proof.
  intros (Hc & Ht & Hp & Ho) Hk.
  unfold ElvantoClient.page_round, encode, py_get. cbn [bind].
  rewrite (lookup_skip collection "status" _ _ Hc), lookup_here.
  cbn [truthy negb].
  rewrite (lookup_skip item "total" _ _ Ht), (lookup_skip item "per_page" _ _ Hp),
    (lookup_skip item "on_this_page" _ _ Ho).
  change (lookup "total" (("total", ?v) :: _)) with (Some v).
  change (lookup "per_page" (_ :: ("per_page", ?v) :: _)) with (Some v).
  change (lookup "on_this_page" (_ :: _ :: ("on_this_page", ?v) :: _))
    with (Some v).
  destruct (pg_items p) as [|l|d]; cbn [items_of] in *.
  - reflexivity.
  - rewrite lookup_here. destruct l as [|x l]; [reflexivity|].
    cbn [truthy negb one_or_many is_dict py_iter bind].
    destruct keep; rewrite Hk; cbn [bind ElvantoClient._to_int];
      rewrite Z.geb_leb; destruct (_ || _); reflexivity.
  - rewrite lookup_here. destruct d as [|kv d]; [reflexivity|].
    cbn [truthy negb one_or_many is_dict py_iter bind].
    destruct keep; rewrite Hk; cbn [bind ElvantoClient._to_int];
      rewrite Z.geb_leb; destruct (_ || _); reflexivity.
Qed.

Lemma make_request_serve_after (collection item : string) (pages : list page)
    (after : http_outcome) (endpoint : string) (fields : list string) (n : nat) :
  nth_error pages n = None ->
  ElvantoClient._make_request (serve collection item pages after) endpoint
    (ElvantoClient.request_data (Z.of_nat (S n)) fields)
  = ElvantoClient._make_request (fun _ _ => after) endpoint
      (ElvantoClient.request_data (Z.of_nat (S n)) fields).
Proof.
  intros H. unfold ElvantoClient._make_request, ElvantoClient.request_data.
  cbn [truthy]. unfold serve.
  change (lookup "page" _) with (Some (VInt (Z.of_nat (S n)))). cbv iota beta.
  replace (1 <=? Z.of_nat (S n))%Z with true by (symmetry; apply Z.leb_le; lia).
  replace (Z.to_nat (Z.of_nat (S n) - 1)) with n by lia.
  rewrite H. reflexivity.
Qed.

(** Against a server of pages the loop does what [paginate] says, one round
    per listed page; past the last page it does whatever one more round does
    with the server's answer [after]. *)
Lemma fetch_loop_serve (collection item : string) (endpoint : string)
    (fields : list string) (after : http_outcome)
    (done rest : list page) (all : list value) :
  plain_names collection item ->
  ElvantoClient.fetch_loop (serve collection item (done ++ rest) after)
    endpoint fields collection item None
    (S (List.length rest)) (Z.of_nat (S (List.length done))) all
  = match paginate rest all with
    | Stopped a => Some (Ok a)
    | RanOut a =>
        ElvantoClient.fetch_loop (fun _ _ => after)
          endpoint fields collection item None
          1 (Z.of_nat (S (List.length (done ++ rest)))) a
    end.
Proof.
  intros Hn. revert done all.
  induction rest as [|p rest IH]; intros done all.
  - cbn [paginate List.length]. rewrite app_nil_r.
    cbn [ElvantoClient.fetch_loop].
    rewrite make_request_serve_after; [reflexivity|].
    apply nth_error_None. lia.
  - cbn [List.length]. remember (S (List.length rest)) as fuel eqn:Hf.
    cbn [ElvantoClient.fetch_loop paginate].
    rewrite (make_request_serve_page _ _ _ _ _ _ (List.length done) p).
    2:{ rewrite nth_error_app2 by lia. now rewrite Nat.sub_diag. }
    rewrite (page_round_encode (fun _ _ => after) collection item None all p
               (items_of (pg_items p)) Hn eq_refl).
    destruct (items_of (pg_items p)) as [|x xs] eqn:Hi; [reflexivity|].
    cbv zeta.
    destruct ((pg_on_this_page p <? pg_per_page p)%Z
              || (pg_total p <=? Z.of_nat (List.length (all ++ x :: xs)))%Z);
      [reflexivity|].
    subst fuel. specialize (IH (done ++ [p]) (all ++ x :: xs)).
    rewrite <- app_assoc in IH. cbn [app] in IH.
    replace (Z.of_nat (S (List.length done)) + 1)%Z
      with (Z.of_nat (S (List.length (done ++ [p]))))
      by (rewrite length_app; cbn [List.length]; lia).
    exact IH.
Qed.

(** More fuel does not change an answer. *)
Lemma fetch_loop_more_fuel (post : transport) (endpoint : string)
    (fields : list string) (collection item : string)
    (keep : option (value -> res bool)) (fuel extra : nat) (page : Z)
    (all : list value) (r : res (list value)) :
  ElvantoClient.fetch_loop post endpoint fields collection item keep fuel page all
  = Some r ->
  ElvantoClient.fetch_loop post endpoint fields collection item keep
    (fuel + extra) page all = Some r.
Proof.
  revert page all. induction fuel as [|fuel IH]; intros page all H;
    [discriminate|].
  cbn [ElvantoClient.fetch_loop Nat.add] in *.
  destruct (ElvantoClient._make_request post endpoint _) as [result|e];
    [|exact H].
  destruct (ElvantoClient.page_round collection item keep all result)
    as [[a|a]|e]; try exact H.
  now apply IH.
Qed.

(** Against pages followed by empty answers the loop returns what [paginate]
    collected, given a round of fuel per page and one more. *)
Lemma fetch_pages (collection item : string) (endpoint : string)
    (fields : list string) (pages : list page) (fuel : nat) :
  plain_names collection item ->
  List.length pages < fuel ->
  ElvantoClient.fetch_loop (serve collection item pages (no_more collection))
    endpoint fields collection item None fuel 1 []
  = Some (Ok (collected (paginate pages []))).
Proof.
  intros Hn Hf.
  replace fuel with (S (List.length pages) + (fuel - S (List.length pages))) by lia.
  apply fetch_loop_more_fuel.
  pose proof (fetch_loop_serve collection item endpoint fields
                (no_more collection) [] pages [] Hn) as H.
  cbn [app List.length] in H. change (Z.of_nat 1) with 1%Z in H. rewrite H.
  destruct (paginate pages []) as [a|a]; [reflexivity|].
  cbn [ElvantoClient.fetch_loop collected].
  unfold ElvantoClient._make_request, no_more. cbn [truthy ElvantoClient.request_data].
  cbn [py_contains bind].
  change (lookup "status" _) with (Some (VStr "ok")). cbv iota beta.
  unfold py_get at 1. cbn [bind].
  change (lookup "status" _) with (Some (VStr "ok")). cbv iota beta.
  cbn [py_eq_str String.eqb Ascii.eqb Bool.eqb negb].
  unfold ElvantoClient.page_round, py_get. cbn [bind].
  destruct Hn as (Hc & _).
  rewrite (lookup_skip collection "status" _ _ Hc), lookup_here.
  reflexivity.
Qed.

(** C3.  The paginated group fetchers, against any sequence of server pages
    followed by empty answers, request the pages from the first on and return
    what [paginate] collects: the items of each page in page order (a bare
    mapping counting as one item), stopping at once on a page whose item
    collection is empty or missing, and otherwise after the first page whose
    reported count is below the page size or with which the accumulated count
    reaches the reported total.  With a total of 250, a page size of 100 and
    pages of 100, 100 and 50 items the result is the 250 items in page
    order. *)
Theorem get_all_groups_paginates (pages : list page) (fuel : nat) :
  List.length pages < fuel ->
  ElvantoClient.get_all_groups_with_people
    (serve "groups" "group" pages (no_more "groups")) fuel
  = Some (Ok (collected (paginate pages []))) /\
  ElvantoClient.get_all_groups_with_categories
    (serve "groups" "group" pages (no_more "groups")) fuel
  = Some (Ok (collected (paginate pages []))) /\
  (forall a b c : list value,
     List.length a = 100 -> List.length b = 100 -> List.length c = 50 ->
     pages = [ {| pg_items := Many a; pg_total := 250; pg_per_page := 100;
                  pg_on_this_page := 100 |};
               {| pg_items := Many b; pg_total := 250; pg_per_page := 100;
                  pg_on_this_page := 100 |};
               {| pg_items := Many c; pg_total := 250; pg_per_page := 100;
                  pg_on_this_page := 50 |} ] ->
     ElvantoClient.get_all_groups_with_people
       (serve "groups" "group" pages (no_more "groups")) fuel
     = Some (Ok (a ++ b ++ c))).
Proof.
  intros Hf.
  assert (Hp := fetch_pages "groups" "group" "groups/getAll" ["people"] pages
                  fuel plain_groups Hf).
  assert (Hc := fetch_pages "groups" "group" "groups/getAll" ["categories"] pages
                  fuel plain_groups Hf).
  split; [exact Hp | split; [exact Hc|]].
  intros a b c Ha Hb Hc' ->.
  unfold ElvantoClient.get_all_groups_with_people. rewrite Hp.
  do 3 f_equal. cbn [paginate pg_items pg_total pg_per_page pg_on_this_page
                      items_of app].
  destruct a as [|xa a]; [discriminate|].
  destruct b as [|xb b]; [discriminate|].
  destruct c as [|xc c]; [discriminate|].
  cbn [orb Z.ltb Z.compare Pos.compare Pos.compare_cont].
  repeat match goal with
         | |- context [(250 <=? Z.of_nat ?n)%Z] =>
             destruct (Z.leb_spec 250 (Z.of_nat n));
             [exfalso; cbn [List.length app] in *;
              rewrite ?length_app in *; cbn [List.length] in *; lia|]
         end.
  cbn [collected]. now rewrite <- app_assoc.
Qed.

Lemma get_all_groups_paginates_witness :
  ElvantoClient.get_all_groups_with_people
    (serve "groups" "group" Sample.five_in_twos (no_more "groups")) 4
  = Some (Ok (Sample.records [1; 2; 3; 4; 5]%Z)).
Proof.
  apply (get_all_groups_paginates Sample.five_in_twos 4).
  simpl. lia.
Defined.

(** * The people fetcher and its filter *)

Lemma filterM_Forall {A} (keep : A -> res bool) (xs ys : list A) :
  filterM keep xs = Ok ys -> Forall (fun x => keep x = Ok true) ys.
Proof.
  revert ys. induction xs as [|x xs IH]; intros ys H; simpl in H.
  - injection H as <-. constructor.
  - destruct (keep x) as [b|] eqn:Hx; [|discriminate]. simpl in H.
    destruct (filterM keep xs) as [zs|]; [|discriminate]. simpl in H.
    injection H as <-. destruct b; [constructor|]; auto.
Qed.

Lemma page_round_keeps (collection item : string) (keep : value -> res bool)
    (all : list value) (result : value) (r : ElvantoClient.round) :
  ElvantoClient.page_round collection item (Some keep) all result = Ok r ->
  Forall (fun x => keep x = Ok true) all ->
  Forall (fun x => keep x = Ok true) (round_all r).
Proof.
  unfold ElvantoClient.page_round. intros H Hall.
  returned H data. early H ltac:(exact Hall).
  returned H items. early H ltac:(exact Hall).
  returned H xs. returned H ys.
  returned H total. returned H per_page. returned H on_this_page.
  assert (Forall (fun x => keep x = Ok true) (all ++ ys))
    by (apply Forall_app; split; [exact Hall | eapply filterM_Forall; eassumption]).
  destruct (_ || _); injection H as <-; assumption.
Qed.

Lemma fetch_loop_keeps (post : transport) (endpoint : string)
    (fields : list string) (collection item : string)
    (keep : value -> res bool) (fuel : nat) (page : Z)
    (all l : list value) :
  ElvantoClient.fetch_loop post endpoint fields collection item (Some keep)
    fuel page all = Some (Ok l) ->
  Forall (fun x => keep x = Ok true) all ->
  Forall (fun x => keep x = Ok true) l.
Proof.
  revert page all. induction fuel as [|fuel IH]; intros page all H Hall;
    [discriminate|].
  cbn [ElvantoClient.fetch_loop] in H.
  destruct (ElvantoClient._make_request post endpoint _) as [result|e];
    [|discriminate].
  destruct (ElvantoClient.page_round collection item (Some keep) all result)
    as [r|e] eqn:Hr; [|discriminate].
  pose proof (page_round_keeps _ _ _ _ _ _ Hr Hall) as Hk.
  destruct r as [a|a]; cbn [round_all] in Hk.
  - injection H as <-. exact Hk.
  - exact (IH _ _ H Hk).
Qed.

(** C9.  Every person in the list [get_all_people_with_departments] returns
    with [adults_only=True] passes [should_include_person] for the exclusion
    list of the call; with [adults_only=False] the fetch keeps every item of
    every page it reads. *)
Theorem fetched_people_are_included
    (post : transport) (fuel : nat) (excluded : option (list string)) :
  (forall l : list value,
     ElvantoClient.get_all_people_with_departments post fuel true excluded
     = Some (Ok l) ->
     Forall (fun p => ElvantoClient.should_include_person p excluded = Ok true)
            l) /\
  (forall pages : list page,
     ElvantoClient.get_all_people_with_departments
       (serve "people" "person" pages (no_more "people"))
       (S (List.length pages)) false excluded
     = Some (Ok (collected (paginate pages [])))).
Proof.
  split.
  - intros l H. unfold ElvantoClient.get_all_people_with_departments in H.
    exact (fetch_loop_keeps _ _ _ _ _ _ _ _ _ _ H (Forall_nil _)).
  - intros pages. unfold ElvantoClient.get_all_people_with_departments.
    apply fetch_pages; [exact plain_people | lia].
Qed.

Lemma fetched_people_are_included_witness :
  Forall (fun p => ElvantoClient.should_include_person p None = Ok true)
         [Sample.plain_person].
Proof.
  apply (proj1 (fetched_people_are_included
                  (serve "people" "person" Sample.mixed_people
                         (no_more "people"))
                  2 None) [Sample.plain_person]).
  reflexivity.
Defined.

(** * Dicts and sets *)

Lemma key_eqb_eq (a b : hkey) : key_eqb a b = true <-> a = b.
Proof.
  destruct a, b; simpl; split; intros H; try discriminate; try reflexivity.
  - apply Z.eqb_eq in H. now subst.
  - injection H as ->. apply Z.eqb_refl.
  - apply String.eqb_eq in H. now subst.
  - injection H as ->. apply String.eqb_refl.
Qed.

Lemma key_eqb_refl (a : hkey) : key_eqb a a = true.
Proof. now apply key_eqb_eq. Qed.

Lemma key_eqb_neq (a b : hkey) : key_eqb a b = false <-> a <> b.
Proof.
  rewrite <- key_eqb_eq. destruct (key_eqb a b); split; congruence.
Qed.

Section Dicts.
Context {V : Type}.
Implicit Types (m : list (hkey * V)) (k : hkey).

Lemma find_app k m m' :
  find k (m ++ m') = match find k m with Some v => Some v | None => find k m' end.
Proof.
  induction m as [|[k' v] m IH]; simpl; [reflexivity|].
  destruct (key_eqb k k'); [reflexivity | exact IH].
Qed.

Lemma find_update k k' (f : V -> V) m :
  find k (update k' f m)
  = if key_eqb k k' then option_map f (find k m) else find k m.
Proof.
  induction m as [|[k0 v] m IH]; simpl.
  - now destruct (key_eqb k k').
  - destruct (key_eqb k' k0) eqn:E0; simpl.
    + apply key_eqb_eq in E0. subst k0.
      destruct (key_eqb k k'); reflexivity.
    + destruct (key_eqb k k0) eqn:E1.
      * apply key_eqb_eq in E1. subst k0.
        destruct (key_eqb k k') eqn:E2; [|reflexivity].
        apply key_eqb_eq in E2. subst k'. rewrite key_eqb_refl in E0.
        discriminate.
      * exact IH.
Qed.

Lemma find_setdefault k k' (v : V) m :
  find k (setdefault k' v m)
  = match find k m with
    | Some x => Some x
    | None => if key_eqb k k' then Some v else None
    end.
Proof.
  unfold setdefault. destruct (find k' m) as [x|] eqn:E.
  - destruct (find k m) eqn:Ek; [reflexivity|].
    destruct (key_eqb k k') eqn:E2; [|reflexivity].
    apply key_eqb_eq in E2. subst k'. congruence.
  - rewrite find_app. simpl. reflexivity.
Qed.

Lemma find_In k m v : find k m = Some v -> In (k, v) m.
Proof.
  induction m as [|[k' v'] m IH]; simpl; [discriminate|].
  destruct (key_eqb k k') eqn:E.
  - apply key_eqb_eq in E. subst k'. intros [= ->]. now left.
  - intros H. right. now apply IH.
Qed.

Lemma find_None k m : find k m = None -> ~ In k (map fst m).
Proof.
  induction m as [|[k' v'] m IH]; simpl; [tauto|].
  destruct (key_eqb k k') eqn:E; [discriminate|].
  apply key_eqb_neq in E. intros H [H1|H1]; [congruence | now apply IH].
Qed.

Lemma In_find k m v : NoDup (map fst m) -> In (k, v) m -> find k m = Some v.
Proof.
  induction m as [|[k' v'] m IH]; simpl; [tauto|].
  intros Hn [H|H].
  - injection H as -> ->. now rewrite key_eqb_refl.
  - inversion Hn as [|? ? Hk Hm]; subst.
    destruct (key_eqb k k') eqn:E.
    + apply key_eqb_eq in E. subst k'. exfalso. apply Hk.
      now apply (in_map fst) in H.
    + now apply IH.
Qed.

Lemma keys_update k (f : V -> V) m : map fst (update k f m) = map fst m.
Proof.
  induction m as [|[k' v] m IH]; simpl; [reflexivity|].
  destruct (key_eqb k k'); simpl; [reflexivity | now rewrite IH].
Qed.

Lemma keys_setdefault k (v : V) m :
  NoDup (map fst m) -> NoDup (map fst (setdefault k v m)).
Proof.
  intros H. unfold setdefault. destruct (find k m) eqn:E; [exact H|].
  rewrite map_app. simpl.
  apply NoDup_app; [exact H | constructor; [simpl; tauto | constructor] |].
  intros x Hx [<-|[]]. exact (find_None _ _ E Hx).
Qed.

Lemma In_update k (f : V -> V) m k' v' :
  In (k', v') (update k f m) ->
  exists v, In (k', v) m /\ (v' = v \/ (k' = k /\ v' = f v)).
Proof.
  induction m as [|[k0 v0] m IH]; simpl; [tauto|].
  destruct (key_eqb k k0) eqn:E; simpl.
  - apply key_eqb_eq in E. subst k0. intros [H|H].
    + injection H as <- <-. exists v0. split; [now left | now right].
    + exists v'. split; [now right | now left].
  - intros [H|H].
    + injection H as <- <-. exists v0. split; [now left | now left].
    + destruct (IH H) as [v [Hv Hc]]. exists v. split; [now right | exact Hc].
Qed.

Lemma In_setdefault k (v : V) m k' v' :
  In (k', v') (setdefault k v m) -> In (k', v') m \/ (k' = k /\ v' = v).
Proof.
  unfold setdefault. destruct (find k m); [now left|].
  rewrite in_app_iff. simpl. intros [H|[H|[]]]; [now left|].
  injection H as <- <-. now right.
Qed.
End Dicts.

Lemma set_add_In {A} (eqb : A -> A -> bool) (x y : A) (s : list A) :
  In y s -> In y (set_add eqb x s).
Proof.
  unfold set_add. destruct (existsb (eqb x) s); [tauto|].
  rewrite in_app_iff. now left.
Qed.

Lemma set_add_new {A} (eqb : A -> A -> bool) (x : A) (s : list A) :
  (forall a b, eqb a b = true <-> a = b) -> In x (set_add eqb x s).
Proof.
  intros Heq. unfold set_add. destruct (existsb (eqb x) s) eqn:E.
  - apply existsb_exists in E as [y [Hy He]]. apply Heq in He. now subst.
  - rewrite in_app_iff. right. now left.
Qed.

Lemma set_add_NoDup {A} (eqb : A -> A -> bool) (x : A) (s : list A) :
  (forall a b, eqb a b = true <-> a = b) -> NoDup s -> NoDup (set_add eqb x s).
Proof.
  intros Heq Hs. unfold set_add. destruct (existsb (eqb x) s) eqn:E; [exact Hs|].
  apply NoDup_app; [exact Hs | constructor; [simpl; tauto | constructor] |].
  intros y Hy [<-|[]].
  assert (existsb (eqb x) s = true); [|congruence].
  apply existsb_exists. exists x. split; [exact Hy | now apply Heq].
Qed.

(** Adding a member that is there changes nothing. *)
Lemma set_add_twice {A} (eqb : A -> A -> bool) (x : A) (s : list A) :
  (forall a b, eqb a b = true <-> a = b) ->
  set_add eqb x (set_add eqb x s) = set_add eqb x s.
Proof.
  intros Heq. unfold set_add at 1.
  replace (existsb (eqb x) (set_add eqb x s)) with true; [reflexivity|].
  symmetry. apply existsb_exists. exists x.
  split; [now apply set_add_new | now apply Heq].
Qed.

(** * The walk *)

Lemma foldM_app {S A} (body : S -> A -> res S) (s : S) (l l' : list A) :
  foldM body s (l ++ l') = (s' <- foldM body s l ;; foldM body s' l').
Proof.
  revert s. induction l as [|x l IH]; intros s; simpl; [reflexivity|].
  destruct (body s x); simpl; [apply IH | reflexivity].
Qed.

(** Two loops over one list, step by step in a relation. *)
Lemma foldM_rel {S T A} (R : S -> T -> Prop)
    (b1 : S -> A -> res S) (b2 : T -> A -> res T) (l : list A) :
  (forall s t x s', R s t -> b1 s x = Ok s' ->
                    exists t', b2 t x = Ok t' /\ R s' t') ->
  forall s t s', R s t -> foldM b1 s l = Ok s' ->
                 exists t', foldM b2 t l = Ok t' /\ R s' t'.
Proof.
  intros Hb. induction l as [|x l IH]; intros s t s' HR H; simpl in *.
  - injection H as <-. now exists t.
  - destruct (b1 s x) as [s1|] eqn:E; [|discriminate]. simpl in H.
    destruct (Hb _ _ _ _ HR E) as [t1 [-> HR1]]. simpl. exact (IH _ _ _ HR1 H).
  Qed.

Section WalkRel.
Context {S T : Type}.
Variable R : S -> T -> Prop.
Variable v1 : value -> value -> S -> value -> res S.
Variable v2 : value -> value -> T -> value -> res T.
Hypothesis visit_rel :
  forall dn sn s t pos s', R s t -> v1 dn sn s pos = Ok s' ->
                           exists t', v2 dn sn t pos = Ok t' /\ R s' t'.

Lemma walk_sub_rel (dn : value) (s : S) (t : T) (sub : value) (s' : S) :
  R s t -> walk_sub v1 dn s sub = Ok s' ->
  exists t', walk_sub v2 dn t sub = Ok t' /\ R s' t'.
Proof.
  unfold walk_sub. intros HR H.
  returned H sn. early H ltac:(now exists t).
  returned H pd. early H ltac:(now exists t).
  returned H pl. returned H poss.
  apply (foldM_rel R (v1 dn sn) (v2 dn sn) poss (visit_rel dn sn) s t s' HR H).
Qed.

Lemma walk_dept_rel (s : S) (t : T) (dept : value) (s' : S) :
  R s t -> walk_dept v1 s dept = Ok s' ->
  exists t', walk_dept v2 t dept = Ok t' /\ R s' t'.
Proof.
  unfold walk_dept. intros HR H.
  returned H dn. returned H sd. early H ltac:(now exists t).
  returned H sl. returned H subs.
  apply (foldM_rel R (walk_sub v1 dn) (walk_sub v2 dn) subs
             (walk_sub_rel dn) s t s' HR H).
Qed.

Lemma walk_departments_rel (s : S) (t : T) (person : value) (s' : S) :
  R s t -> walk_departments v1 s person = Ok s' ->
  exists t', walk_departments v2 t person = Ok t' /\ R s' t'.
Proof.
  unfold walk_departments. intros HR H.
  returned H ds. early H ltac:(now exists t).
  returned H dl. returned H depts.
  apply (foldM_rel R (walk_dept v1) (walk_dept v2) depts walk_dept_rel
             s t s' HR H).
Qed.
End WalkRel.

Lemma extract_person_walk (positions : ElvantoClient.positions_map)
    (met : list assignment) (person : value)
    (positions' : ElvantoClient.positions_map) :
  built_from positions met ->
  ElvantoClient.extract_person positions person = Ok positions' ->
  exists met', walk_person met person = Ok met' /\ built_from positions' met'.
Proof.
  unfold ElvantoClient.extract_person, walk_person. intros HR H.
  destruct (py_get person "id" VNone) as [pid|]; [|discriminate].
  cbn [bind] in *.
  destruct (negb (truthy pid)); [injection H as <-; now exists met|].
  apply (walk_departments_rel built_from (ElvantoClient.add_position pid)
           (note_assignment pid)) with (s := positions); try assumption.
  clear. intros dn sn s t pos s' HR H. unfold note_assignment.
  eexists. split; [reflexivity|]. unfold built_from in *.
  rewrite foldM_app, HR. cbn [bind foldM]. unfold add_assignment at 1.
  cbn [as_person as_department as_sub_department as_position]. now rewrite H.
Qed.

Lemma extract_walk (people : list value) (out : ElvantoClient.positions_map) :
  ElvantoClient.extract_volunteer_positions_from_people people = Ok out ->
  exists met, assignments people = Ok met /\ built_from out met.
Proof.
  unfold ElvantoClient.extract_volunteer_positions_from_people, assignments.
  apply (foldM_rel built_from ElvantoClient.extract_person walk_person people).
  - intros s t x s'. apply extract_person_walk.
  - reflexivity.
Qed.

(** * The position extractor *)

Import ElvantoClient.

(** What one run of the innermost statements leaves. *)
Lemma add_position_shape (person_id dn sn : value) (s : positions_map)
    (pos : value) (s' : positions_map) :
  add_position person_id dn sn s pos = Ok s' ->
  exists pos_id ks m,
    hash_key sn = Ok ks /\ hash_key person_id = Ok m /\
    s' = update ks
           (fun e => {| pe_id := pe_id e; pe_name := pe_name e;
                        pe_department := pe_department e;
                        pe_position_ids := pe_position_ids e;
                        pe_volunteers := set_add key_eqb m (pe_volunteers e) |})
           (update ks
              (fun e => {| pe_id := pe_id e; pe_name := pe_name e;
                           pe_department := pe_department e;
                           pe_position_ids :=
                             set_add String.eqb pos_id (pe_position_ids e);
                           pe_volunteers := pe_volunteers e |})
              (setdefault ks
                 {| pe_id := sn; pe_name := sn; pe_department := dn;
                    pe_position_ids := []; pe_volunteers := [] |} s)).
Proof.
  unfold add_position. intros H.
  destruct (py_get pos "id" (VStr "")) as [pid|]; [|discriminate].
  cbn [bind] in H.
  destruct (hash_key sn) as [ks|]; [|discriminate]. cbn [bind] in H.
  destruct (hash_key person_id) as [m|]; [|discriminate]. cbn [bind] in H.
  injection H as <-. now exists (py_str pid), ks, m.
Qed.

Lemma add_position_department (person_id dn sn : value) (s : positions_map)
    (pos : value) (s' : positions_map) :
  add_position person_id dn sn s pos = Ok s' ->
  exists ks, hash_key sn = Ok ks /\
    forall k,
      option_map pe_department (find k s')
      = if key_eqb k ks
        then Some (match find k s with
                   | Some e => pe_department e
                   | None => dn
                   end)
        else option_map pe_department (find k s).
Proof.
  intros H. destruct (add_position_shape _ _ _ _ _ _ H)
    as (pos_id & ks & m & Hks & Hm & ->).
  exists ks. split; [exact Hks|]. intros k.
  rewrite !find_update, find_setdefault.
  destruct (key_eqb k ks); destruct (find k s); reflexivity.
Qed.

Lemma fold_add_department (met : list assignment) (s out : positions_map) :
  foldM add_assignment s met = Ok out ->
  forall k,
    option_map pe_department (find k out)
    = match find k s with
      | Some e => Some (pe_department e)
      | None => first_department k met
      end.
Proof.
  revert s. induction met as [|a met IH]; intros s H k; simpl in H.
  - injection H as <-. simpl. now destruct (find k s).
  - destruct (add_assignment s a) as [s1|] eqn:E; [|discriminate].
    cbn [bind] in H. rewrite (IH _ H k).
    destruct (add_position_department _ _ _ _ _ _ E) as (ks & Hks & Hd).
    specialize (Hd k). cbn [first_department]. rewrite Hks.
    destruct (key_eqb k ks).
    + destruct (find k s1) as [e1|]; [|discriminate].
      simpl in Hd. injection Hd as ->. now destruct (find k s).
    + destruct (find k s1), (find k s); simpl in Hd; congruence.
Qed.

(** C1, as the code has it.  When the extraction succeeds, the department of
    every aggregate entry is the parent department name of the first
    assignment of the walk with the entry's sub-department name: an entry is
    written when its key is first met and its department is not written
    again. *)
Theorem department_is_first_write
    (people : list value) (out : positions_map) :
  extract_volunteer_positions_from_people people = Ok out ->
  exists met,
    assignments people = Ok met /\
    forall k e, find k out = Some e ->
                first_department k met = Some (pe_department e).
Proof.
  intros H. destruct (extract_walk _ _ H) as [met [Hm Hb]].
  exists met. split; [exact Hm|]. intros k e He.
  pose proof (fold_add_department _ _ _ Hb k) as Hd.
  rewrite He in Hd. simpl in Hd. congruence.
Qed.

Lemma department_is_first_write_witness :
  exists met,
    assignments Sample.ushers = Ok met /\
    forall k e, find k Sample.ushers_out = Some e ->
                first_department k met = Some (pe_department e).
Proof.
  apply (department_is_first_write Sample.ushers Sample.ushers_out).
  reflexivity.
Defined.

(** C1 as the specification states it, with last-write-wins, fails: "Ushers"
    is met under "Welcome" and then under "Sunday", and the entry keeps
    "Welcome", the department of the first assignment, where last-write-wins
    would leave "Sunday". *)
Lemma department_is_not_last_write :
  exists out met e,
    extract_volunteer_positions_from_people Sample.ushers = Ok out /\
    assignments Sample.ushers = Ok met /\
    find (KStr "Ushers") out = Some e /\
    last_department (KStr "Ushers") met = Some (VStr "Sunday") /\
    pe_department e = VStr "Welcome" /\
    Some (pe_department e) <> last_department (KStr "Ushers") met.
Proof.
  eexists. eexists. eexists.
  split; [vm_compute; reflexivity|].
  split; [vm_compute; reflexivity|].
  split; [vm_compute; reflexivity|].
  split; [vm_compute; reflexivity|].
  split; [reflexivity | vm_compute; discriminate].
Qed.

(** ** Entries, keys and member sets *)

Lemma add_position_entries (person_id dn sn : value) (s : positions_map)
    (pos : value) (s' : positions_map) :
  entries_ok s -> add_position person_id dn sn s pos = Ok s' -> entries_ok s'.
Proof.
  intros [Hk He] H.
  destruct (add_position_shape _ _ _ _ _ _ H) as (pos_id & ks & m & Hks & Hm & ->).
  split.
  - rewrite !keys_update. now apply keys_setdefault.
  - intros k e Hin.
    apply In_update in Hin as (e1 & Hin & Hc1).
    apply In_update in Hin as (e2 & Hin & Hc2).
    assert (P2 : pe_id e2 = pe_name e2 /\ hash_key (pe_id e2) = Ok k /\
                 NoDup (pe_volunteers e2)).
    { apply In_setdefault in Hin as [Hin | [-> ->]]; [exact (He _ _ Hin)|].
      cbn [pe_id pe_name pe_volunteers]. repeat split; [exact Hks | constructor]. }
    assert (P1 : pe_id e1 = pe_name e1 /\ hash_key (pe_id e1) = Ok k /\
                 NoDup (pe_volunteers e1)).
    { destruct Hc2 as [-> | [_ ->]]; [exact P2 | exact P2]. }
    destruct Hc1 as [-> | [_ ->]]; [exact P1|].
    destruct P1 as (Q1 & Q2 & Q3). cbn [pe_id pe_name pe_volunteers].
    repeat split; try assumption.
    apply set_add_NoDup; [apply key_eqb_eq | exact Q3].
Qed.

Lemma fold_add_entries (met : list assignment) (s out : positions_map) :
  entries_ok s -> foldM add_assignment s met = Ok out -> entries_ok out.
Proof.
  revert s. induction met as [|a met IH]; intros s Hs H; simpl in H.
  - now injection H as <-.
  - destruct (add_assignment s a) as [s1|] eqn:E; [|discriminate].
    cbn [bind] in H. apply (IH s1); [|exact H].
    exact (add_position_entries _ _ _ _ _ _ Hs E).
Qed.

Lemma add_position_holds (person_id dn sn : value) (s : positions_map)
    (pos : value) (s' : positions_map) :
  add_position person_id dn sn s pos = Ok s' ->
  (exists ks m, hash_key sn = Ok ks /\ hash_key person_id = Ok m /\
                holds ks m s') /\
  (forall k m, holds k m s -> holds k m s').
Proof.
  intros H.
  destruct (add_position_shape _ _ _ _ _ _ H) as (pos_id & ks & m & Hks & Hm & ->).
  split.
  - exists ks, m. split; [exact Hks | split; [exact Hm|]].
    unfold holds. rewrite !find_update, key_eqb_refl, find_setdefault.
    rewrite key_eqb_refl.
    destruct (find ks s); eexists; (split; [reflexivity|]);
      cbn [pe_volunteers]; apply set_add_new; apply key_eqb_eq.
  - intros k m' (e & He & Hin). unfold holds.
    rewrite !find_update, find_setdefault, He.
    destruct (key_eqb k ks); eexists; (split; [reflexivity|]);
      cbn [option_map pe_volunteers]; try assumption.
    now apply set_add_In.
Qed.

Lemma fold_add_holds_keep (met : list assignment) (s out : positions_map)
    (k m : hkey) :
  foldM add_assignment s met = Ok out -> holds k m s -> holds k m out.
Proof.
  revert s. induction met as [|a met IH]; intros s H Hh; simpl in H.
  - now injection H as <-.
  - destruct (add_assignment s a) as [s1|] eqn:E; [|discriminate].
    cbn [bind] in H. apply (IH s1 H).
    now apply (proj2 (add_position_holds _ _ _ _ _ _ E)).
Qed.

Lemma fold_add_holds (met : list assignment) (s out : positions_map)
    (a : assignment) :
  foldM add_assignment s met = Ok out -> In a met ->
  exists ks m, hash_key (as_sub_department a) = Ok ks /\
               hash_key (as_person a) = Ok m /\ holds ks m out.
Proof.
  revert s. induction met as [|b met IH]; intros s H Hin; [destruct Hin|].
  simpl in H. destruct (add_assignment s b) as [s1|] eqn:E; [|discriminate].
  cbn [bind] in H. destruct Hin as [-> | Hin]; [|exact (IH _ H Hin)].
  destruct (proj1 (add_position_holds _ _ _ _ _ _ E)) as (ks & m & Hks & Hm & Hh).
  exists ks, m. split; [exact Hks | split; [exact Hm|]].
  exact (fold_add_holds_keep _ _ _ _ _ H Hh).
Qed.

(** ** From the people to the walk *)

Lemma walk_person_grows (met : list assignment) (p : value)
    (met' : list assignment) :
  walk_person met p = Ok met' -> incl met met'.
Proof.
  unfold walk_person. intros H.
  destruct (py_get p "id" VNone) as [i|]; [|discriminate]. cbn [bind] in H.
  destruct (negb (truthy i)); [injection H as <-; apply incl_refl|].
  destruct (walk_departments_rel (fun s (_ : unit) => incl met s)
              (note_assignment i) (fun _ _ t _ => Ok t)) with
    (s := met) (t := tt) (person := p) (s' := met') as [_ [_ Hi]];
    try assumption; [|apply incl_refl].
  intros dn sn s t pos s' Hs Hn. unfold note_assignment in Hn.
  injection Hn as <-. exists t. split; [reflexivity|].
  now apply incl_appl.
Qed.

Lemma foldM_walk_grows (people : list value) (met met' : list assignment) :
  foldM walk_person met people = Ok met' -> incl met met'.
Proof.
  revert met. induction people as [|p people IH]; intros met H; simpl in H.
  - injection H as <-. apply incl_refl.
  - destruct (walk_person met p) as [m1|] eqn:E; [|discriminate].
    cbn [bind] in H.
    exact (incl_tran (walk_person_grows _ _ _ E) (IH _ H)).
Qed.

Lemma walk_person_assigned (met : list assignment) (p i : value) (sub : string)
    (met' : list assignment) :
  walk_person met p = Ok met' -> assigned p i sub ->
  exists a, In a met' /\ as_person a = i /\ as_sub_department a = VStr sub.
Proof.
  intros H (Hi & Ht & refs & r & Hr & Hin & Hsub).
  unfold walk_person in H. rewrite Hi in H. cbn [bind] in H.
  rewrite Ht in H. cbn [negb] in H.
  unfold People.get_person_positions_from_departments in Hr.
  destruct (walk_departments_rel
              (fun (rs : list People.position_ref) (t : list assignment) =>
                 forall r, In r rs ->
                   exists a, In a t /\ as_person a = i /\
                             as_sub_department a = People.pr_id r)
              People.append_position (note_assignment i))
    with (s := @nil People.position_ref) (t := met) (person := p) (s' := refs)
    as [t' [Ht' HR]]; try assumption.
  - intros dn sn s t pos s' HR Ha. unfold People.append_position in Ha.
    injection Ha as <-. unfold note_assignment. eexists. split; [reflexivity|].
    intros r0 Hr0. apply in_app_iff in Hr0 as [Hr0 | [<- | []]].
    + destruct (HR _ Hr0) as (a & Ha & Hp). exists a.
      split; [apply in_app_iff; now left | exact Hp].
    + eexists. split; [apply in_app_iff; right; now left|].
      split; reflexivity.
  - intros r0 [].
  - rewrite H in Ht'. injection Ht' as <-.
    destruct (HR _ Hin) as (a & Ha & Hp & Hs). exists a.
    split; [exact Ha | split; [exact Hp | congruence]].
Qed.

Lemma assignments_cover (people : list value) (met0 met : list assignment)
    (p i : value) (sub : string) :
  foldM walk_person met0 people = Ok met -> In p people -> assigned p i sub ->
  exists a, In a met /\ as_person a = i /\ as_sub_department a = VStr sub.
Proof.
  revert met0. induction people as [|q people IH]; intros met0 H Hin Ha;
    [destruct Hin|].
  simpl in H. destruct (walk_person met0 q) as [m1|] eqn:E; [|discriminate].
  cbn [bind] in H. destruct Hin as [-> | Hin]; [|exact (IH _ H Hin Ha)].
  destruct (walk_person_assigned _ _ _ _ _ E Ha) as (a & Hin & Hp).
  exists a. split; [exact (foldM_walk_grows _ _ _ H a Hin) | exact Hp].
Qed.

(** C6, as the code has it.  When the extraction succeeds and two people of
    the input each hold a position of a sub-department named [sub] (under
    whatever departments), the output has one entry keyed [sub] and no other
    with that key, and its member set holds both ids; a member set holds no id
    twice; and the id and the name of every entry are the sub-department name
    it is keyed by. *)
Theorem one_entry_per_sub_department
    (people : list value) (out : positions_map)
    (p1 p2 i1 i2 : value) (sub : string) :
  extract_volunteer_positions_from_people people = Ok out ->
  In p1 people -> In p2 people ->
  assigned p1 i1 sub -> assigned p2 i2 sub ->
  (exists e,
     find (KStr sub) out = Some e /\
     (forall e', In (KStr sub, e') out -> e' = e) /\
     member i1 e /\ member i2 e) /\
  (forall k e, In (k, e) out ->
     NoDup (pe_volunteers e) /\
     pe_id e = pe_name e /\ hash_key (pe_id e) = Ok k) /\
  (forall m s, set_add key_eqb m (set_add key_eqb m s) = set_add key_eqb m s).
Proof.
  intros H Hp1 Hp2 Ha1 Ha2.
  destruct (extract_walk _ _ H) as [met [Hm Hb]].
  assert (Hok : entries_ok out).
  { apply (fold_add_entries met [] out); [|exact Hb].
    split; [constructor | intros k e []]. }
  destruct Hok as [Hkeys Hent].
  destruct (assignments_cover _ _ _ _ _ _ Hm Hp1 Ha1) as (a1 & Hin1 & Hq1 & Hs1).
  destruct (assignments_cover _ _ _ _ _ _ Hm Hp2 Ha2) as (a2 & Hin2 & Hq2 & Hs2).
  destruct (fold_add_holds _ _ _ _ Hb Hin1) as (k1 & m1 & Hk1 & Hm1 & e1 & He1 & Hv1).
  destruct (fold_add_holds _ _ _ _ Hb Hin2) as (k2 & m2 & Hk2 & Hm2 & e2 & He2 & Hv2).
  rewrite Hs1 in Hk1. rewrite Hs2 in Hk2. cbn [hash_key] in Hk1, Hk2.
  injection Hk1 as <-. injection Hk2 as <-.
  rewrite He1 in He2. injection He2 as <-.
  split; [|split].
  - exists e1. split; [exact He1 | split; [|split]].
    + intros e' He'. apply (In_find _ _ _ Hkeys) in He'. congruence.
    + exists m1. subst i1. now split.
    + exists m2. subst i2. now split.
  - intros k e Hin. destruct (Hent _ _ Hin) as (Q1 & Q2 & Q3). now repeat split.
  - intros m s. apply set_add_twice. apply key_eqb_eq.
Qed.

Lemma one_entry_per_sub_department_witness :
  exists e,
    find (KStr "Ushers") Sample.ushers_out = Some e /\
    (forall e', In (KStr "Ushers", e') Sample.ushers_out -> e' = e) /\
    member (VStr "P1") e /\ member (VStr "P2") e.
Proof.
  apply (one_entry_per_sub_department Sample.ushers Sample.ushers_out
           Sample.usher_one Sample.usher_two (VStr "P1") (VStr "P2") "Ushers").
  - reflexivity.
  - now left.
  - right. now left.
  - split; [reflexivity | split; [reflexivity|]].
    eexists. eexists. split; [vm_compute; reflexivity|].
    split; [now left | reflexivity].
  - split; [reflexivity | split; [reflexivity|]].
    eexists. eexists. split; [vm_compute; reflexivity|].
    split; [now left | reflexivity].
Defined.

(** C6 as the specification states it fails: a person who carries the
    sub-department "Ushers" with no position in it is not in the member set of
    the entry. *)
Lemma sub_department_without_position_is_skipped :
  exists out e,
    extract_volunteer_positions_from_people
      [Sample.usher_one; Sample.usher_without_position] = Ok out /\
    find (KStr "Ushers") out = Some e /\
    member (VStr "P1") e /\ ~ member (VStr "P3") e.
Proof.
  eexists. eexists.
  split; [vm_compute; reflexivity|].
  split; [vm_compute; reflexivity|].
  split.
  - exists (KStr "P1"). split; [reflexivity | now left].
  - intros (m & Hm & Hin). cbn [hash_key] in Hm. injection Hm as <-.
    destruct Hin as [Hin | []]. discriminate.
Qed.

(** * No exception on well-shaped records *)

Lemma extract_person_total (s : positions_map) (person : value) :
  person_ok person = true -> exists s', extract_person s person = Ok s'.
Proof.
  intros H. destruct person as [| | | | |p]; try discriminate.
  simpl in H. apply andb_true_iff in H as [Hi Hd].
  unfold extract_person. unfold py_get at 1. cbn [bind].
  set (i := match lookup "id" p with Some x => x | None => VNone end).
  assert (Hs : scalar i = true).
  { subst i. destruct (lookup "id" p); [exact Hi | reflexivity]. }
  destruct (negb (truthy i)); [now exists s|].
  apply (walk_departments_total _ scalar is_dict); [|exact Hd].
  intros dn sn s0 pos Hsn Hpos. now apply add_position_total.
Qed.

(** * Container fields that are passed over *)

Lemma passed_over_test (field : option value) (default : value) :
  truthy default = false ->
  passed_over field = true ->
  negb (truthy (match field with Some x => x | None => default end))
  || negb (is_dict (match field with Some x => x | None => default end))
  = true.
Proof.
  intros Hd H. destruct field as [c|]; [exact H|].
  now rewrite Hd.
Qed.

Lemma is_adult_passed_over (p : dict) :
  passed_over (lookup "demographics" p) = true ->
  ElvantoClient._is_adult (VDict p) = Ok true.
Proof.
  intros H. unfold ElvantoClient._is_adult. unfold py_get at 1. cbn [bind].
  now rewrite (passed_over_test _ (VDict []) eq_refl H).
Qed.

Section WalkShapes.
Context {S : Type}.
Variable visit : value -> value -> S -> value -> res S.

Lemma walk_departments_passed_over (st : S) (p : dict) :
  passed_over (lookup "departments" p) = true ->
  walk_departments visit st (VDict p) = Ok st.
Proof.
  intros H. unfold walk_departments. unfold py_get at 1. cbn [bind].
  now rewrite (passed_over_test _ (VDict []) eq_refl H).
Qed.

Lemma walk_dept_passed_over (st : S) (d : dict) :
  passed_over (lookup "sub_departments" d) = true ->
  walk_dept visit st (VDict d) = Ok st.
Proof.
  intros H. unfold walk_dept. unfold py_get at 1 2. cbn [bind].
  now rewrite (passed_over_test _ (VDict []) eq_refl H).
Qed.

Lemma walk_sub_passed_over (dept_name : value) (st : S) (sub : dict) :
  passed_over (lookup "positions" sub) = true ->
  walk_sub visit dept_name st (VDict sub) = Ok st.
Proof.
  intros H. unfold walk_sub. unfold py_get at 1. cbn [bind].
  destruct (negb (truthy _)); [reflexivity|].
  unfold py_get at 1. cbn [bind].
  now rewrite (passed_over_test _ (VDict []) eq_refl H).
Qed.

(** * Bare strings in item fields *)

Lemma chars_nonempty (s : string) :
  s <> "" -> exists c r, chars s = VStr c :: r.
Proof.
  destruct s as [|a s]; [congruence|]. intros _.
  unfold chars. cbn [list_ascii_of_string characters].
  destruct (characters (list_ascii_of_string s)) as [|t ts].
  - now exists (String a ""), [].
  - destruct (continues _); eexists; eexists; reflexivity.
Qed.

Lemma lookup_truthy (item : string) (d : dict) (v : value) :
  lookup item d = Some v -> truthy (VDict d) = true.
Proof. destruct d; [discriminate | reflexivity]. Qed.

Lemma walk_departments_bare_string (st : S) (p dp : dict) :
  lookup "departments" p = Some (VDict dp) ->
  bare_string "department" dp ->
  walk_departments visit st (VDict p) = Raise AttributeError.
Proof.
  intros Hp (s & Hs & Hne).
  destruct (chars_nonempty s Hne) as (c & r & Hc).
  unfold walk_departments, py_get. cbn [bind]. rewrite Hp.
  rewrite (lookup_truthy _ _ _ Hs). cbn [negb orb is_dict]. rewrite Hs.
  cbn [one_or_many is_dict py_iter bind]. rewrite Hc. reflexivity.
Qed.

Lemma walk_departments_null (st : S) (p dp : dict) :
  lookup "departments" p = Some (VDict dp) ->
  lookup "department" dp = Some VNone ->
  walk_departments visit st (VDict p) = Raise TypeError.
Proof.
  intros Hp Hs.
  unfold walk_departments, py_get. cbn [bind]. rewrite Hp.
  rewrite (lookup_truthy _ _ _ Hs). cbn [negb orb is_dict]. rewrite Hs.
  reflexivity.
Qed.

Lemma walk_dept_bare_string (st : S) (d sd : dict) :
  lookup "sub_departments" d = Some (VDict sd) ->
  bare_string "sub_department" sd ->
  walk_dept visit st (VDict d) = Raise AttributeError.
Proof.
  intros Hp (s & Hs & Hne).
  destruct (chars_nonempty s Hne) as (c & r & Hc).
  unfold walk_dept, py_get. cbn [bind]. rewrite Hp.
  rewrite (lookup_truthy _ _ _ Hs). cbn [negb orb is_dict]. rewrite Hs.
  cbn [one_or_many is_dict py_iter bind]. rewrite Hc. reflexivity.
Qed.

(** Under a named sub-department the characters of a bare string reach
    [visit]. *)
Lemma walk_sub_bare_string (dept_name : value) (st : S) (sub pd : dict)
    (n : value) (s : string) :
  lookup "name" sub = Some n -> truthy n = true ->
  lookup "positions" sub = Some (VDict pd) ->
  lookup "position" pd = Some (VStr s) ->
  walk_sub visit dept_name st (VDict sub)
  = foldM (visit dept_name n) st (chars s).
Proof.
  intros Hn Ht Hp Hs.
  unfold walk_sub, py_get. cbn [bind]. rewrite Hn, Ht, Hp.
  rewrite (lookup_truthy _ _ _ Hs). cbn [negb orb is_dict]. rewrite Hs.
  reflexivity.
Qed.
End WalkShapes.

Lemma is_adult_bare_string (p dm : dict) :
  lookup "demographics" p = Some (VDict dm) ->
  bare_string "demographic" dm ->
  ElvantoClient._is_adult (VDict p) = Raise AttributeError.
Proof.
  intros Hp (s & Hs & Hne).
  destruct (chars_nonempty s Hne) as (c & r & Hc).
  unfold ElvantoClient._is_adult, py_get. cbn [bind]. rewrite Hp.
  rewrite (lookup_truthy _ _ _ Hs). cbn [negb orb is_dict]. rewrite Hs.
  assert (truthy (VStr s) = true) as Ht
    by (destruct s; [congruence | reflexivity]).
  cbn [bind one_or_many is_dict]. rewrite Ht.
  cbn [negb py_iter bind]. rewrite Hc. reflexivity.
Qed.

Lemma should_include_after_is_adult (p : dict)
    (excluded : option (list string)) (e : exn) :
  ElvantoClient._is_adult (VDict p) = Raise e ->
  ElvantoClient.should_include_person (VDict p) excluded = Ok false \/
  ElvantoClient.should_include_person (VDict p) excluded = Raise e.
Proof.
  intros Ha.
  enough (forall r,
            ElvantoClient.should_include_person (VDict p) excluded = r ->
            r = Ok false \/ r = Raise e) as H by exact (H _ eq_refl).
  intros r E. unfold ElvantoClient.should_include_person in E.
  unfold py_get at 1 in E. cbn [bind] in E.
  match type of E with
  | context [if ?c then Ok false else _] => destruct c
  end; [left; now symmetry|].
  unfold py_get at 1 in E. cbn [bind] in E.
  match type of E with
  | context [if ?c then Ok false else _] => destruct c
  end; [left; now symmetry|].
  rewrite Ha in E. right. now symmetry.
Qed.

Lemma append_positions (dept_name sub_name : value)
    (l : list value) (refs : list People.position_ref) :
  foldM (People.append_position dept_name sub_name) refs l
  = Ok (refs ++ map (fun _ => {| People.pr_id := sub_name;
                                 People.pr_name := sub_name;
                                 People.pr_department := dept_name |}) l).
Proof.
  revert refs. induction l as [|x l IH]; intros refs; cbn [foldM map].
  - now rewrite app_nil_r.
  - unfold People.append_position at 1. cbn [bind].
    rewrite IH, <- app_assoc. reflexivity.
Qed.

(** C2, as the code has it.  The one-or-many step reads a missing item field
    as no item, a mapping as one item and a list as its items, and does
    nothing to any other value; a container field that is
    missing, empty, None or not a mapping is passed over.  Both copies of
    [should_include_person] return on a person whose [demographic] items are
    mappings with string names.  The API-layer walk returns when the
    [department] and [sub_department] items are mappings and every [position]
    field is missing, a mapping or a list of anything; the client extractor
    returns on people that are mappings with scalar ids when, besides, the
    sub-department names are scalars and the positions are mappings; the
    demographics play no part in either.  A bare string that is not empty is
    walked character by character: as [demographic] it makes [_is_adult] raise
    [AttributeError], so that [should_include_person] answers false from an
    earlier check or raises; as [department] it makes both walks raise
    [AttributeError]; as [sub_department] it makes the walk of that department
    raise it; as [position] under a named sub-department it makes the client
    extractor raise it in the walk of that sub-department, while the API-layer
    walk, which never reads a position, lists one item per character.  A null
    [department] field makes both walks raise [TypeError]. *)
Theorem well_shaped_people_do_not_raise :
  (forall p excluded,
     demographics_ok p = true ->
     exists b,
       ElvantoClient.should_include_person (VDict p) excluded = Ok b /\
       People.should_include_person (VDict p) excluded = Ok b) /\
  (forall p,
     departments_ok any_value any_value p = true ->
     exists refs,
       People.get_person_positions_from_departments (VDict p) = Ok refs) /\
  (forall people,
     forallb person_ok people = true ->
     exists out, extract_volunteer_positions_from_people people = Ok out) /\
  ((forall d item,
      lookup item d = None ->
      (v <- py_get (VDict d) item (VList []) ;; py_iter (one_or_many v))
      = Ok []) /\
   (forall d, py_iter (one_or_many (VDict d)) = Ok [VDict d]) /\
   (forall l, py_iter (one_or_many (VList l)) = Ok l) /\
   (forall v, is_dict v = false -> one_or_many v = v)) /\
  ((forall p,
      passed_over (lookup "demographics" p) = true ->
      ElvantoClient._is_adult (VDict p) = Ok true /\
      People._is_adult (VDict p) = Ok true) /\
   (forall (S : Type) (visit : value -> value -> S -> value -> res S) st,
      (forall p,
         passed_over (lookup "departments" p) = true ->
         walk_departments visit st (VDict p) = Ok st) /\
      (forall d,
         passed_over (lookup "sub_departments" d) = true ->
         walk_dept visit st (VDict d) = Ok st) /\
      (forall dept_name sub,
         passed_over (lookup "positions" sub) = true ->
         walk_sub visit dept_name st (VDict sub) = Ok st))) /\
  (forall p dm,
     lookup "demographics" p = Some (VDict dm) ->
     bare_string "demographic" dm ->
     ElvantoClient._is_adult (VDict p) = Raise AttributeError /\
     People._is_adult (VDict p) = Raise AttributeError /\
     forall excluded,
       (ElvantoClient.should_include_person (VDict p) excluded = Ok false /\
        People.should_include_person (VDict p) excluded = Ok false) \/
       (ElvantoClient.should_include_person (VDict p) excluded
        = Raise AttributeError /\
        People.should_include_person (VDict p) excluded
        = Raise AttributeError)) /\
  (forall p dp,
     lookup "departments" p = Some (VDict dp) ->
     (bare_string "department" dp ->
      People.get_person_positions_from_departments (VDict p)
      = Raise AttributeError /\
      forall positions i,
        lookup "id" p = Some i -> truthy i = true ->
        extract_person positions (VDict p) = Raise AttributeError) /\
     (lookup "department" dp = Some VNone ->
      People.get_person_positions_from_departments (VDict p)
      = Raise TypeError /\
      forall positions i,
        lookup "id" p = Some i -> truthy i = true ->
        extract_person positions (VDict p) = Raise TypeError)) /\
  (forall (S : Type) (visit : value -> value -> S -> value -> res S) st d sd,
     lookup "sub_departments" d = Some (VDict sd) ->
     bare_string "sub_department" sd ->
     walk_dept visit st (VDict d) = Raise AttributeError) /\
  (forall sub pd n s dept_name,
     lookup "name" sub = Some n -> truthy n = true ->
     lookup "positions" sub = Some (VDict pd) ->
     lookup "position" pd = Some (VStr s) ->
     (s <> "" ->
      forall person_id positions,
        walk_sub (add_position person_id) dept_name positions (VDict sub)
        = Raise AttributeError) /\
     forall refs,
       walk_sub People.append_position dept_name refs (VDict sub)
       = Ok (refs ++ map (fun _ => {| People.pr_id := n;
                                      People.pr_name := n;
                                      People.pr_department := dept_name |})
                         (chars s))).
Proof.
  split; [|split; [|split; [|split; [|split; [|split; [|split; [|split]]]]]]].
  - intros p excluded H.
    destruct (should_include_total p excluded H) as [b Hb].
    exists b. split; [exact Hb|].
    exact (eq_trans (people_should_include_copy _ _) Hb).
  - intros p H. unfold People.get_person_positions_from_departments.
    apply (walk_departments_total _ any_value any_value); [|exact H].
    intros dn sn s pos _ _. eexists. reflexivity.
  - intros people H. unfold extract_volunteer_positions_from_people.
    apply (foldM_total person_ok); [exact H|].
    intros s x. apply extract_person_total.
  - split; [|split; [|split]]; try reflexivity.
    + intros d item H. unfold py_get. cbn [bind]. now rewrite H.
    + intros v Hv. unfold one_or_many. now rewrite Hv.
  - split.
    + intros p H. pose proof (is_adult_passed_over p H) as Ha.
      split; [exact Ha|]. exact (eq_trans (people_is_adult_copy _) Ha).
    + intros S visit st. split; [|split].
      * intros p. apply walk_departments_passed_over.
      * intros d. apply walk_dept_passed_over.
      * intros dn sub. apply walk_sub_passed_over.
  - intros p dm Hp Hb. pose proof (is_adult_bare_string p dm Hp Hb) as Ha.
    split; [exact Ha|].
    split; [exact (eq_trans (people_is_adult_copy _) Ha)|].
    intros excluded.
    destruct (should_include_after_is_adult p excluded _ Ha) as [H | H];
      [left | right];
      (split; [exact H|exact (eq_trans (people_should_include_copy _ _) H)]).
  - intros p dp Hp. split.
    + intros Hb. split.
      * now apply walk_departments_bare_string with (dp := dp).
      * intros positions i Hi Ht. unfold extract_person.
        unfold py_get at 1. cbn [bind]. rewrite Hi, Ht. cbn [negb].
        now apply walk_departments_bare_string with (dp := dp).
    + intros Hn. split.
      * now apply walk_departments_null with (dp := dp).
      * intros positions i Hi Ht. unfold extract_person.
        unfold py_get at 1. cbn [bind]. rewrite Hi, Ht. cbn [negb].
        now apply walk_departments_null with (dp := dp).
  - intros S visit st d sd Hd Hb.
    now apply walk_dept_bare_string with (sd := sd).
  - intros sub pd n s dn Hn Ht Hp Hs. split.
    + intros Hne person_id positions.
      rewrite (walk_sub_bare_string _ dn positions sub pd n s Hn Ht Hp Hs).
      destruct (chars_nonempty s Hne) as (c & r & ->). reflexivity.
    + intros refs.
      rewrite (walk_sub_bare_string _ dn refs sub pd n s Hn Ht Hp Hs).
      apply append_positions.
Qed.

Lemma well_shaped_people_do_not_raise_witness :
  exists out, extract_volunteer_positions_from_people Sample.ushers = Ok out.
Proof.
  apply (proj1 (proj2 (proj2 well_shaped_people_do_not_raise)) Sample.ushers).
  reflexivity.
Defined.

(** C2 as the specification states it fails: an item field that is a bare
    string is walked character by character and the first character has no
    [get]; an item field that is null cannot be walked at all. *)
Lemma scalar_item_field_raises :
  should_include_person Sample.bare_string_demographic None
  = Raise AttributeError /\
  People.get_person_positions_from_departments Sample.bare_string_department
  = Raise AttributeError /\
  extract_volunteer_positions_from_people [Sample.bare_string_department]
  = Raise AttributeError /\
  extract_volunteer_positions_from_people [Sample.null_department]
  = Raise TypeError.
Proof. repeat split. Qed.

(** * The filter endpoint *)

Import People.

Lemma same_identity_refl (r : export_record) : same_identity r r.
Proof. repeat split. Qed.

Lemma same_identity_trans (r1 r2 r3 : export_record) :
  same_identity r1 r2 -> same_identity r2 r3 -> same_identity r1 r3.
Proof.
  intros (A1 & A2 & A3 & A4 & A5) (B1 & B2 & B3 & B4 & B5).
  repeat split; congruence.
Qed.

Lemma positions_appended_refl (r : export_record) : positions_appended r r.
Proof.
  split; [apply same_identity_refl | split; [reflexivity|split]].
  - exists []. now rewrite app_nil_r.
  - tauto.
Qed.

Lemma positions_appended_trans (r1 r2 r3 : export_record) :
  positions_appended r1 r2 -> positions_appended r2 r3 ->
  positions_appended r1 r3.
Proof.
  intros (A1 & A2 & [a Ha] & A4) (B1 & B2 & [b Hb] & B4).
  split; [exact (same_identity_trans _ _ _ A1 B1) | split; [congruence|split]].
  - exists (a ++ b). rewrite Hb, Ha. now rewrite app_assoc.
  - tauto.
Qed.

Lemma groups_only_refl (r : export_record) : groups_only r r.
Proof. split; [apply same_identity_refl | reflexivity]. Qed.

Lemma groups_only_trans (r1 r2 r3 : export_record) :
  groups_only r1 r2 -> groups_only r2 r3 -> groups_only r1 r3.
Proof.
  intros (A1 & A2) (B1 & B2).
  split; [exact (same_identity_trans _ _ _ A1 B1) | congruence].
Qed.

Section Frames.
Variable change : export_record -> export_record -> Prop.
Hypothesis change_refl : forall r, change r r.
Hypothesis change_trans :
  forall r1 r2 r3, change r1 r2 -> change r2 r3 -> change r1 r3.

Lemma frame_refl (fp : people_map) : frame change fp fp.
Proof. intros k r H. exists r. split; [exact H | apply change_refl]. Qed.

Lemma frame_trans (fp1 fp2 fp3 : people_map) :
  frame change fp1 fp2 -> frame change fp2 fp3 -> frame change fp1 fp3.
Proof.
  intros H12 H23 k r H. destruct (H12 _ _ H) as (r2 & H2 & C2).
  destruct (H23 _ _ H2) as (r3 & H3 & C3).
  exists r3. split; [exact H3 | exact (change_trans _ _ _ C2 C3)].
Qed.

Lemma frame_setdefault (k : hkey) (r : export_record) (fp : people_map) :
  frame change fp (setdefault k r fp).
Proof.
  intros k' r' H. exists r'. rewrite find_setdefault, H.
  split; [reflexivity | apply change_refl].
Qed.

Lemma frame_update (k : hkey) (f : export_record -> export_record)
    (fp : people_map) :
  (forall r, change r (f r)) -> frame change fp (update k f fp).
Proof.
  intros Hf k' r' H. rewrite find_update, H.
  destruct (key_eqb k' k); eexists; (split; [reflexivity|]);
    [apply Hf | apply change_refl].
Qed.

(** A loop whose every round keeps the frame keeps it, however it ends. *)
Lemma for_each_frame {A} (body : people_map -> A -> outcome people_map)
    (l : list A) :
  (forall fp x, frame change fp (fst (body fp x))) ->
  forall fp, frame change fp (fst (for_each body fp l)).
Proof.
  intros Hb. induction l as [|x l IH]; intros fp; simpl.
  - apply frame_refl.
  - specialize (Hb fp x). destruct (body fp x) as [fp1 [e|]]; simpl in *.
    + exact Hb.
    + exact (frame_trans _ _ _ Hb (IH fp1)).
Qed.

Lemma atomic_frame (fp : people_map) (c : res people_map) :
  (forall fp', c = Ok fp' -> frame change fp fp') ->
  frame change fp (fst (atomic fp c)).
Proof.
  intros H. destruct c as [fp'|e]; simpl; [now apply H | apply frame_refl].
Qed.
End Frames.

Lemma add_service_position_appends (p : service_position) (r : export_record) :
  positions_appended r (add_service_position p r).
Proof.
  split; [repeat split | split; [reflexivity|]].
  unfold add_service_position, position_ids. cbn [er_service_positions].
  destruct (existsb _ _) eqn:E.
  - split; [exists []; now rewrite app_nil_r | tauto].
  - split; [now exists [p]|]. intros Hn. rewrite map_app. simpl.
    apply NoDup_app; [exact Hn | constructor; [simpl; tauto | constructor] |].
    intros x Hx [<-|[]]. apply in_map_iff in Hx as (q & Hq & Hin).
    assert (existsb (fun p' => String.eqb (sp_id p') (sp_id p))
                    (er_service_positions r) = true); [|congruence].
    apply existsb_exists. exists q. split; [exact Hin|].
    rewrite Hq. apply String.eqb_refl.
Qed.

Lemma add_group_keeps_positions (g : group_ref) (r : export_record) :
  groups_only r (add_group g r).
Proof. split; [repeat split | reflexivity]. Qed.

Lemma fold_update_frame (k : hkey) (l : list service_position)
    (m : people_map) :
  frame positions_appended m
    (fold_left (fun fp pos => update k (add_service_position pos) fp) l m).
Proof.
  revert m. induction l as [|x l IH]; intros m; cbn [fold_left].
  - apply frame_refl, positions_appended_refl.
  - apply (frame_trans positions_appended positions_appended_trans _
             (update k (add_service_position x) m)); [|apply IH].
    apply frame_update;
      [apply positions_appended_refl | apply add_service_position_appends].
Qed.

Lemma add_volunteer_frame (request : FilterRequest) (fp : people_map)
    (person : value) (fp' : people_map) :
  add_volunteer request fp person = Ok fp' ->
  frame positions_appended fp fp'.
Proof.
  unfold add_volunteer. intros H.
  destruct (py_get person "id" VNone) as [i|]; [|discriminate]. cbn [bind] in H.
  destruct (negb (truthy i));
    [injection H as <-; apply frame_refl, positions_appended_refl|].
  destruct (get_person_positions_from_departments person) as [refs|];
    [|discriminate].
  cbn [bind] in H.
  destruct (matched_positions (service_position_ids request) refs)
    as [|q matched];
    [injection H as <-; apply frame_refl, positions_appended_refl|].
  destruct (hash_key i) as [k|]; [|discriminate]. cbn [bind] in H.
  injection H as <-.
  apply (frame_trans positions_appended positions_appended_trans _
           (setdefault k (new_record i person) fp)).
  - apply frame_setdefault, positions_appended_refl.
  - apply (fold_update_frame k (q :: matched)).
Qed.

Lemma add_leader_frame (group_id : string) (group_name : value)
    (fp : people_map) (person : value) (fp' : people_map) :
  add_leader group_id group_name fp person = Ok fp' ->
  frame groups_only fp fp'.
Proof.
  unfold add_leader. intros H.
  destruct (py_get person "id" VNone) as [i|]; [|discriminate]. cbn [bind] in H.
  destruct (negb (truthy i));
    [injection H as <-; apply frame_refl, groups_only_refl|].
  destruct (hash_key i) as [k|]; [|discriminate]. cbn [bind] in H.
  injection H as <-.
  apply (frame_trans groups_only groups_only_trans _
           (setdefault k (new_record i person) fp)).
  - apply frame_setdefault, groups_only_refl.
  - apply frame_update; [apply groups_only_refl | apply add_group_keeps_positions].
Qed.

Lemma process_group_frame (request : FilterRequest) (fp : people_map)
    (group : value) :
  frame groups_only fp (fst (process_group request fp group)).
Proof.
  unfold process_group.
  match goal with
  | |- context [match ?c with _ => _ end] =>
      destruct c as [[[[gid gname] leaders]|]|e]
  end;
    try (apply frame_refl, groups_only_refl).
  apply for_each_frame; [apply groups_only_refl | apply groups_only_trans |].
  intros fp0 x. apply atomic_frame; [apply groups_only_refl|].
  intros fp' H. exact (add_leader_frame _ _ _ _ _ H).
Qed.

Lemma group_task_frame (post : transport) (fuel : nat) (request : FilterRequest)
    (fp fp' : people_map) (e : option exn) :
  group_task post fuel request fp = Some (fp', e) -> frame groups_only fp fp'.
Proof.
  unfold group_task. intros H.
  destruct (get_all_groups_with_people post fuel) as [[gp|]|]; try discriminate.
  2:{ injection H as <- <-. apply frame_refl, groups_only_refl. }
  destruct (get_all_groups_with_categories post fuel) as [[gc|]|];
    try discriminate.
  2:{ injection H as <- <-. apply frame_refl, groups_only_refl. }
  destruct (merge_categories gp gc) as [groups|].
  2:{ injection H as <- <-. apply frame_refl, groups_only_refl. }
  injection H as H.
  pose proof (for_each_frame groups_only groups_only_refl groups_only_trans
                (process_group request) groups
                (process_group_frame request) fp) as Hf.
  rewrite H in Hf. exact Hf.
Qed.

Lemma service_task_frame (post : transport) (fuel : nat)
    (request : FilterRequest) (fp fp' : people_map) (e : option exn) :
  service_task post fuel request fp = Some (fp', e) ->
  frame positions_appended fp fp'.
Proof.
  unfold service_task. intros H.
  destruct (get_all_people_with_departments post fuel true _) as [[ps|]|];
    try discriminate.
  2:{ injection H as <- <-. apply frame_refl, positions_appended_refl. }
  injection H as H.
  pose proof (for_each_frame positions_appended positions_appended_refl
                positions_appended_trans
                (fun fp person => atomic fp (add_volunteer request fp person)) ps)
    as Hf.
  specialize (Hf (fun fp0 x =>
                    atomic_frame positions_appended positions_appended_refl fp0 _
                      (fun fp1 H1 => add_volunteer_frame _ _ _ _ H1)) fp).
  rewrite H in Hf. exact Hf.
Qed.

(** C10.  Whatever service-position mode does to the result mapping, and
    however it ends, a record that was in the mapping is still there with its
    id, names and email and its groups list as they were, and with service
    positions appended to the ones it had, no position id coming twice.
    Whatever group-leader mode does, a record that was in the mapping is still
    there with its id, names and email and its service positions as they
    were. *)
Theorem modes_keep_each_others_part
    (post : transport) (fuel : nat) (request : FilterRequest)
    (fp fp' : people_map) (e : option exn) :
  (service_task post fuel request fp = Some (fp', e) ->
   frame positions_appended fp fp') /\
  (group_task post fuel request fp = Some (fp', e) ->
   frame groups_only fp fp').
Proof.
  split; [apply service_task_frame | apply group_task_frame].
Qed.

(** ** Group-leader mode *)

Lemma filterM_In {A} (keep : A -> res bool) (xs ys : list A) (y : A) :
  filterM keep xs = Ok ys -> In y ys -> In y xs /\ keep y = Ok true.
Proof.
  revert ys. induction xs as [|x xs IH]; intros ys H Hin; simpl in H.
  - injection H as <-. destruct Hin.
  - destruct (keep x) as [b|] eqn:Hx; [|discriminate]. cbn [bind] in H.
    destruct (filterM keep xs) as [zs|]; [|discriminate]. cbn [bind] in H.
    injection H as <-. destruct b.
    + destruct Hin as [<- | Hin]; [split; [now left | exact Hx]|].
      destruct (IH _ eq_refl Hin). split; [now right | assumption].
    + destruct (IH _ eq_refl Hin). split; [now right | assumption].
Qed.

Lemma is_leader_role (p : value) : is_leader p = Ok true -> leader_role p.
Proof.
  unfold is_leader, leader_role. intros H.
  destruct (py_get p "position" (VStr "")) as [v|]; [|discriminate].
  cbn [bind] in H. destruct v as [| | |s| |]; try discriminate.
  cbn [py_lower bind] in H. injection H as H. apply String.eqb_eq in H.
  now exists s.
Qed.

Lemma leaders_are_members (g : value) (ls : list value) (p : value) :
  get_leaders_from_group g = Ok ls -> In p ls ->
  group_member g p /\ leader_role p.
Proof.
  unfold get_leaders_from_group, group_member. intros H Hin.
  destruct (py_get g "people" (VDict [])) as [pd|] eqn:Hpd; [|discriminate].
  cbn [bind] in H.
  destruct (negb (truthy pd)); [injection H as <-; destruct Hin|].
  destruct (py_get pd "person" (VList [])) as [persons|] eqn:Hpp;
    [|discriminate].
  cbn [bind] in H.
  destruct (py_iter (one_or_many persons)) as [ps|] eqn:Hps; [|discriminate].
  cbn [bind] in H. destruct (filterM_In _ _ _ _ H Hin) as [Hm Hl].
  split; [|exact (is_leader_role _ Hl)].
  exists pd, persons, ps. now repeat split.
Qed.

Lemma lookup_dict_set_other (k k' : string) (v : value) (d : dict) :
  String.eqb k k' = false -> lookup k (dict_set k' v d) = lookup k d.
Proof.
  intros Hk. induction d as [|[k0 v0] d IH]; simpl.
  - unfold lookup. now rewrite Hk.
  - destruct (String.eqb k' k0) eqn:E.
    + apply String.eqb_eq in E. subst k0. unfold lookup.
      now rewrite Hk.
    + unfold lookup in *. destruct (String.eqb k k0); [reflexivity | exact IH].
Qed.

Lemma joined_get (g g' : value) (k : string) (default : value) :
  joined g g' -> String.eqb k "categories" = false ->
  py_get g' k default = py_get g k default.
Proof.
  intros [-> | (d & c & -> & ->)] Hk; [reflexivity|].
  unfold py_get. now rewrite lookup_dict_set_other.
Qed.

Lemma merge_categories_joined (gp gc groups : list value) (g' : value) :
  merge_categories gp gc = Ok groups -> In g' groups ->
  exists g, In g gp /\ joined g g'.
Proof.
  unfold merge_categories. intros H.
  destruct (foldM index_categories [] gc) as [by_id|]; [|discriminate].
  cbn [bind] in H. revert g'.
  assert (Hgen : forall acc out,
             foldM (merge_group by_id) acc gp = Ok out ->
             forall g', In g' out ->
                        In g' acc \/ exists g, In g gp /\ joined g g').
  { clear H. induction gp as [|x gp IH]; intros acc out H g' Hin; simpl in H.
    - injection H as <-. now left.
    - destruct (merge_group by_id acc x) as [acc1|] eqn:E; [|discriminate].
      cbn [bind] in H. destruct (IH _ _ H _ Hin) as [Ha | (g & Hg & Hj)].
      + unfold merge_group in E.
        destruct (py_get x "id" VNone) as [i|]; [|discriminate].
        cbn [bind] in E. destruct (hash_key i) as [k|]; [|discriminate].
        cbn [bind] in E.
        assert (Hc : In g' acc \/ joined x g').
        { destruct (find k by_id) as [c|]; [destruct x|];
            injection E as <-; apply in_app_iff in Ha as [Ha | [<- | []]];
            try (now left); right; try (now left).
          right. now exists d, c. }
        destruct Hc as [Hc | Hc]; [now left|].
        right. exists x. split; [now left | exact Hc].
      + right. exists g. split; [now right | exact Hj]. }
  intros g' Hin. destruct (Hgen _ _ H _ Hin) as [[] | Hg]. exact Hg.
Qed.

Lemma add_leader_only_leaders (request : FilterRequest) (groups : list value)
    (g p : value) (group_id : string) (group_name : value)
    (fp fp' : people_map) :
  In g groups -> requested request g -> In group_id (group_ids request) ->
  group_member g p -> leader_role p ->
  only_leaders request groups fp ->
  add_leader group_id group_name fp p = Ok fp' ->
  only_leaders request groups fp'.
Proof.
  intros Hg Hr Hid Hm Hl Hfp H. unfold add_leader in H.
  destruct (py_get p "id" VNone) as [i|] eqn:Hi; [|discriminate].
  cbn [bind] in H. destruct (negb (truthy i)); [now injection H as <-|].
  destruct (hash_key i) as [k|]; [|discriminate]. cbn [bind] in H.
  injection H as <-. intros k' r' Hin.
  apply In_update in Hin as (r0 & Hin & Hc).
  assert (H0 : (exists g p, In g groups /\ requested request g /\
                            group_member g p /\ leader_role p /\
                            py_get p "id" VNone = Ok (er_id r0)) /\
               (forall gr, In gr (er_groups r0) ->
                           gr_role gr = "Leader" /\
                           In (gr_id gr) (group_ids request))).
  { apply In_setdefault in Hin as [Hin | [_ ->]]; [exact (Hfp _ _ Hin)|].
    split; [now exists g, p | intros gr []]. }
  destruct Hc as [-> | [_ ->]]; [exact H0|].
  destruct H0 as [H1 H2]. split; [exact H1|].
  unfold add_group. cbn [er_groups]. intros gr Hgr.
  destruct (existsb _ _); [now apply H2|].
  apply in_app_iff in Hgr as [Hgr | [<- | []]]; [now apply H2|].
  now split.
Qed.

Lemma process_group_only_leaders (request : FilterRequest)
    (groups : list value) (g : value) (fp : people_map) :
  In g groups -> only_leaders request groups fp ->
  only_leaders request groups (fst (process_group request fp g)).
Proof.
  intros Hg Hfp. unfold process_group.
  destruct (py_get g "id" (VStr "")) as [id|] eqn:Hid; [|exact Hfp].
  cbn [bind].
  destruct (in_strs (py_str id) (group_ids request)) eqn:Hreq; [|exact Hfp].
  cbn [negb]. apply in_strs_In in Hreq.
  destruct (group_has_excluded_category g _) as [[|]|]; try exact Hfp.
  cbn [bind].
  destruct (py_get g "name" (VStr "Unknown Group")) as [name|]; [|exact Hfp].
  cbn [bind].
  destruct (get_leaders_from_group g) as [leaders|] eqn:Hl; [|exact Hfp].
  cbn [bind].
  assert (Hall : forall p, In p leaders -> group_member g p /\ leader_role p)
    by (intros p; apply leaders_are_members; exact Hl).
  clear Hl. revert fp Hfp.
  induction leaders as [|p leaders IH]; intros fp Hfp; [exact Hfp|].
  cbn [for_each].
  destruct (add_leader (py_str id) name fp p) as [fp1|e] eqn:E;
    cbn [atomic]; [|exact Hfp].
  apply IH; [intros q Hq; apply Hall; now right|].
  destruct (Hall p (or_introl eq_refl)) as [Hm Hr].
  apply (add_leader_only_leaders request groups g p (py_str id) name fp fp1);
    try assumption.
  now exists id.
Qed.

Lemma for_each_only_leaders (request : FilterRequest) (groups : list value)
    (l : list value) (fp : people_map) :
  incl l groups -> only_leaders request groups fp ->
  only_leaders request groups (fst (for_each (process_group request) fp l)).
Proof.
  revert fp. induction l as [|g l IH]; intros fp Hl Hfp; [exact Hfp|].
  cbn [for_each].
  pose proof (process_group_only_leaders request groups g fp
                (Hl g (or_introl eq_refl)) Hfp) as H1.
  destruct (process_group request fp g) as [fp1 [e|]]; [exact H1|].
  apply IH; [intros x Hx; apply Hl; now right | exact H1].
Qed.

Lemma only_leaders_joined (request : FilterRequest) (gp groups : list value)
    (fp : people_map) :
  (forall g', In g' groups -> exists g, In g gp /\ joined g g') ->
  only_leaders request groups fp -> only_leaders request gp fp.
Proof.
  intros Hj Hfp k r Hin. destruct (Hfp _ _ Hin) as [(g' & p & Hg & Hr & Hm & Hl & Hi) H2].
  split; [|exact H2].
  destruct (Hj _ Hg) as (g & Hgp & Hjg). exists g, p.
  split; [exact Hgp | split; [|split; [|now split]]].
  - destruct Hr as (id & Hid & Hin'). exists id.
    rewrite <- (joined_get g g' "id" (VStr "") Hjg eq_refl). now split.
  - destruct Hm as (pd & ps' & ps & H1 & H3 & H4 & H5). exists pd, ps', ps.
    rewrite <- (joined_get g g' "people" (VDict []) Hjg eq_refl).
    now repeat split.
Qed.

Lemma group_task_only_leaders (post : transport) (fuel : nat)
    (request : FilterRequest) (fp : people_map) (e : option exn) :
  group_task post fuel request [] = Some (fp, e) ->
  fp = [] \/
  exists gp, get_all_groups_with_people post fuel = Some (Ok gp) /\
             only_leaders request gp fp.
Proof.
  unfold group_task. intros H.
  destruct (get_all_groups_with_people post fuel) as [[gp|]|]; try discriminate.
  2:{ injection H as <- <-. now left. }
  destruct (get_all_groups_with_categories post fuel) as [[gc|]|];
    try discriminate.
  2:{ injection H as <- <-. now left. }
  destruct (merge_categories gp gc) as [groups|] eqn:Hm.
  2:{ injection H as <- <-. now left. }
  injection H as H. right. exists gp. split; [reflexivity|].
  apply (only_leaders_joined request gp groups).
  - intros g'. apply (merge_categories_joined gp gc groups g' Hm).
  - pose proof (for_each_only_leaders request groups groups []
                  (incl_refl _)) as Hf.
    rewrite H in Hf. apply Hf. intros k r [].
Qed.

(** C7.  With no service position requested, every person in the response of
    the filter endpoint is a member of a requested group whose position reads
    "leader" in some letter case, and lists its groups with the role "Leader".
    For a group G1 with a person P1 of position "Leader" and a person P2 of
    position "Member" and a request for G1, the response is the one record of
    P1 with the one group entry of G1, its name and the role "Leader". *)
Theorem only_group_leaders_are_exported
    (post : transport) (fuel : nat) (request : FilterRequest)
    (response : FilterResponse) :
  service_position_ids request = [] ->
  filter_people post fuel request = Some response ->
  (forall r, In r (people response) ->
     (exists gp g p,
        get_all_groups_with_people post fuel = Some (Ok gp) /\
        In g gp /\ requested request g /\ group_member g p /\
        leader_role p /\ py_get p "id" VNone = Ok (er_id r)) /\
     (forall gr, In gr (er_groups r) ->
        gr_role gr = "Leader" /\ In (gr_id gr) (group_ids request))) /\
  (forall name,
     filter_people (Sample.group_server [Sample.g1 name]) 2
                   (Sample.leaders_of ["G1"])
     = Some {| people := [Sample.p1_leader name]; count := 1 |}).
Proof.
  intros Hs H. split; [|intros name; reflexivity].
  unfold filter_people in H. rewrite Hs in H.
  destruct (group_ids request) as [|gid gids] eqn:Hg.
  - injection H as <-. intros r [].
  - destruct (group_task post fuel request []) as [[fp e]|] eqn:Ht;
      [|discriminate].
    cbn [option_map fst] in H. injection H as <-. cbn [people].
    intros r Hin. apply in_map_iff in Hin as ([k r'] & <- & Hin).
    destruct (group_task_only_leaders _ _ _ _ _ Ht) as [-> | (gp & Hgp & Hol)];
      [destruct Hin|].
    destruct (Hol _ _ Hin) as [(g & p & H1) H2].
    rewrite Hg in H2. split; [now exists gp, g, p | exact H2].
Qed.

Lemma only_group_leaders_are_exported_witness :
  (exists gp g p,
      get_all_groups_with_people
        (Sample.group_server [Sample.g1 (VStr "Youth")]) 2 = Some (Ok gp) /\
      In g gp /\ requested (Sample.leaders_of ["G1"]) g /\
      group_member g p /\ leader_role p /\
      py_get p "id" VNone = Ok (er_id (Sample.p1_leader (VStr "Youth")))) /\
  (forall gr, In gr (er_groups (Sample.p1_leader (VStr "Youth"))) ->
      gr_role gr = "Leader" /\
      In (gr_id gr) (group_ids (Sample.leaders_of ["G1"]))).
Proof.
  apply (proj1 (only_group_leaders_are_exported
                  (Sample.group_server [Sample.g1 (VStr "Youth")]) 2
                  (Sample.leaders_of ["G1"])
                  {| people := [Sample.p1_leader (VStr "Youth")]; count := 1 |}
                  eq_refl eq_refl)
           (Sample.p1_leader (VStr "Youth")) (or_introl eq_refl)).
Defined.

Lemma modes_keep_each_others_part_witness :
  frame positions_appended Sample.after_groups Sample.after_positions.
Proof.
  apply (proj1 (modes_keep_each_others_part Sample.both_servers 2
                  Sample.leaders_and_ushers
                  Sample.after_groups Sample.after_positions None)).
  reflexivity.
Defined.

(** ** Failures *)

Lemma fetch_loop_aborts (post : transport) (endpoint : string)
    (fields : list string) (collection item : string)
    (keep : option (value -> res bool)) (fuel : nat) (page : Z)
    (all : list value) (e : exn) :
  _make_request post endpoint (request_data page fields) = Raise e ->
  fetch_loop post endpoint fields collection item keep (S fuel) page all
  = Some (Raise e).
Proof. intros H. cbn [fetch_loop]. now rewrite H. Qed.

Lemma make_request_transport_error (post : transport) (endpoint : string)
    (page : Z) (fields : list string) (msg : string) :
  post endpoint (request_data page fields) = TransportError msg ->
  _make_request post endpoint (request_data page fields)
  = Raise (Exception_ ("Request failed: " ++ msg)%string).
Proof.
  intros H. unfold _make_request.
  change (truthy (request_data page fields)) with true. cbv iota.
  now rewrite H.
Qed.

Lemma make_request_status_error (post : transport) (endpoint : string)
    (page : Z) (fields : list string) (d : dict) (s : value) :
  post endpoint (request_data page fields) = Json (VDict d) ->
  lookup "status" d = Some s -> py_eq_str s "ok" = false ->
  exists e, _make_request post endpoint (request_data page fields) = Raise e.
Proof.
  intros H Hs Hok. unfold _make_request.
  change (truthy (request_data page fields)) with true. cbv iota.
  rewrite H. unfold py_contains, py_get at 1. rewrite Hs. cbn [bind].
  rewrite Hok. cbn [negb].
  destruct (py_get (VDict d) "error" (VDict [])) as [err|]; cbn [bind];
    [|eexists; reflexivity].
  destruct (py_get err "message" _); cbn [bind]; eexists; reflexivity.
Qed.

(** C8, as the code has it.  In [filter_people] a failing group fetch leaves
    the response that service-position mode alone gives, and a failing people
    fetch the response that group-leader mode alone gives.  A failure later
    in a sub-task is caught as well: the response is built from the mapping
    as the two sub-tasks left it, and every record group-leader mode wrote is
    in it with its groups.  Within a fetch, a transport failure or a status
    other than "ok" on any page makes the fetch raise, whatever it had
    accumulated; so does a transport failure after a run of full pages. *)
Theorem sub_task_failures_are_contained
    (post : transport) (fuel : nat) (request : FilterRequest) :
  (forall e,
     get_all_groups_with_people post fuel = Some (Raise e) \/
     (exists gp, get_all_groups_with_people post fuel = Some (Ok gp) /\
                 get_all_groups_with_categories post fuel = Some (Raise e)) ->
     filter_people post fuel request
     = filter_people post fuel (without_groups request)) /\
  (forall e,
     get_all_people_with_departments post fuel true
       (Some (excluded_category_ids request)) = Some (Raise e) ->
     filter_people post fuel request
     = filter_people post fuel (without_positions request)) /\
  (forall fp1 e1 fp2 e2,
     group_ids request <> [] -> service_position_ids request <> [] ->
     group_task post fuel request [] = Some (fp1, e1) ->
     service_task post fuel request fp1 = Some (fp2, e2) ->
     filter_people post fuel request
     = Some {| people := map snd fp2; count := List.length (map snd fp2) |} /\
     frame positions_appended fp1 fp2) /\
  (forall endpoint fields collection item keep rounds page all,
     (forall msg,
        post endpoint (request_data page fields) = TransportError msg ->
        fetch_loop post endpoint fields collection item keep (S rounds) page all
        = Some (Raise (Exception_ ("Request failed: " ++ msg)%string))) /\
     (forall d s,
        post endpoint (request_data page fields) = Json (VDict d) ->
        lookup "status" d = Some s -> py_eq_str s "ok" = false ->
        exists e,
          fetch_loop post endpoint fields collection item keep (S rounds) page all
          = Some (Raise e))) /\
  (forall pages all msg,
     paginate pages [] = RanOut all ->
     get_all_groups_with_people
       (serve "groups" "group" pages (TransportError msg))
       (S (List.length pages))
     = Some (Raise (Exception_ ("Request failed: " ++ msg)%string))).
Proof.
  split; [|split; [|split; [|split]]].
  - intros e H. unfold filter_people. cbn [without_groups group_ids].
    destruct (group_ids request); [reflexivity|].
    unfold group_task.
    destruct H as [-> | (gp & -> & ->)]; reflexivity.
  - intros e H. unfold filter_people.
    cbn [without_positions group_ids service_position_ids].
    change (group_task post fuel (without_positions request) [])
      with (group_task post fuel request []).
    assert (Hs : forall fp,
               match service_position_ids request with
               | [] => Some fp
               | _ => option_map fst (service_task post fuel request fp)
               end = Some fp).
    { intros fp. destruct (service_position_ids request); [reflexivity|].
      unfold service_task. now rewrite H. }
    destruct (group_ids request); [now rewrite Hs|].
    destruct (group_task post fuel request []) as [[fp e']|]; [|reflexivity].
    cbn [option_map fst]. now rewrite Hs.
  - intros fp1 e1 fp2 e2 Hg Hs H1 H2. split.
    + unfold filter_people.
      destruct (group_ids request); [congruence|].
      rewrite H1. cbn [option_map fst].
      destruct (service_position_ids request); [congruence|].
      rewrite H2. reflexivity.
    + exact (service_task_frame _ _ _ _ _ _ H2).
  - intros endpoint fields collection item keep rounds page all. split.
    + intros msg H. apply fetch_loop_aborts.
      now apply make_request_transport_error.
    + intros d s H Hs Hok.
      destruct (make_request_status_error _ _ _ _ _ _ H Hs Hok) as [e He].
      exists e. now apply fetch_loop_aborts.
  - intros pages all msg Hp. unfold get_all_groups_with_people.
    pose proof (fetch_loop_serve "groups" "group" "groups/getAll" ["people"]
                  (TransportError msg) [] pages [] plain_groups) as H.
    cbn [app List.length] in H. change (Z.of_nat 1) with 1%Z in H.
    rewrite H, Hp. reflexivity.
Qed.

Lemma sub_task_failures_are_contained_witness :
  filter_people Sample.groups_down 2 Sample.leaders_and_ushers
  = filter_people Sample.groups_down 2
      (without_groups Sample.leaders_and_ushers).
Proof.
  apply (proj1 (sub_task_failures_are_contained Sample.groups_down 2
                  Sample.leaders_and_ushers)
           (Exception_ "Request failed: timeout")).
  left. reflexivity.
Defined.

(** C8 as the specification states it fails: group G1 is merged, then the
    null position in group G2 raises; the failure is caught, and the group
    sub-result is not empty but holds the leader of G1. *)
Lemma failed_sub_task_keeps_what_it_merged :
  group_task (Sample.group_server
                [Sample.g1 (VStr "Youth"); Sample.g2_null_position])
             2 (Sample.leaders_of ["G1"; "G2"]) []
  = Some (Sample.after_groups, Some AttributeError) /\
  filter_people (Sample.group_server
                   [Sample.g1 (VStr "Youth"); Sample.g2_null_position])
                2 (Sample.leaders_of ["G1"; "G2"])
  = Some {| people := [Sample.p1_leader (VStr "Youth")]; count := 1 |}.
Proof. repeat split. Qed.

(** * Reading numbers *)

Lemma parse_digits_uint (d : Decimal.uint) (acc : Z) (after : bool) :
  d <> Decimal.Nil ->
  parse_digits acc after (list_ascii_of_string (NilEmpty.string_of_uint d))
  = Some (uint_value acc d).
Proof.
  revert acc after.
  induction d as [|d IH|d IH|d IH|d IH|d IH|d IH|d IH|d IH|d IH|d IH];
    intros acc after Hn; [congruence| | | | | | | | | |];
    cbn [NilEmpty.string_of_uint list_ascii_of_string parse_digits];
    (destruct d; [reflexivity | apply IH; discriminate ..]).
Qed.

Lemma uint_value_acc (d : Decimal.uint) (acc : positive) :
  uint_value (Zpos acc) d = Zpos (Pos.of_uint_acc d acc).
Proof.
  revert acc. induction d; intros acc; cbn [uint_value Pos.of_uint_acc];
    [reflexivity|..];
    rewrite <- IHd; f_equal; lia.
Qed.

Lemma uint_value_of_uint (d : Decimal.uint) :
  uint_value 0 d = Z.of_N (Pos.of_uint d).
Proof.
  induction d; cbn [uint_value Pos.of_uint]; [reflexivity| exact IHd |..];
    cbn [Z.mul Z.add Z.of_N]; apply uint_value_acc.
Qed.

Lemma lstrip_id (l : list ascii) :
  Forall (fun c => is_space c = false) l -> lstrip l = l.
Proof. intros H. destruct H as [|c r Hc _]; [reflexivity|]. cbn. now rewrite Hc. Qed.

Lemma strip_id (l : list ascii) :
  Forall (fun c => is_space c = false) l -> strip l = l.
Proof.
  intros H. unfold strip. rewrite (lstrip_id l H).
  rewrite lstrip_id by now apply Forall_rev.
  apply rev_involutive.
Qed.

Lemma uint_no_space (d : Decimal.uint) :
  Forall (fun c => is_space c = false)
         (list_ascii_of_string (NilEmpty.string_of_uint d)).
Proof.
  induction d; cbn [NilEmpty.string_of_uint list_ascii_of_string];
    constructor; auto.
Qed.

Lemma digit_plain (c : ascii) :
  is_digit c = true \/ c = "-"%char ->
  decimal_ascii (String c "") = c /\ is_continuation c = false /\
  is_space c = false.
Proof.
  intros [H | ->]; [|repeat split].
  destruct c as [[] [] [] [] [] [] [] []]; vm_compute in H;
    try discriminate H; repeat split.
Qed.

(** A string of digits and signs is read byte by byte. *)
Lemma characters_plain (l : list ascii) :
  Forall (fun c => is_digit c = true \/ c = "-"%char) l ->
  map decimal_ascii (characters l) = l.
Proof.
  induction 1 as [|c r Hc Hr IH]; [reflexivity|].
  cbn [characters].
  destruct (digit_plain c Hc) as (Hd & _ & _).
  destruct (characters r) as [|t ts] eqn:E.
  - cbn [map] in *. now rewrite Hd, <- IH.
  - destruct r as [|c' r']; [discriminate IH|].
    apply Forall_inv in Hr. destruct (digit_plain c' Hr) as (_ & Hn & _).
    cbn [continues]. rewrite Hn.
    change (map decimal_ascii (String c "" :: t :: ts))
      with (decimal_ascii (String c "") :: map decimal_ascii (t :: ts)).
    now rewrite Hd, IH.
Qed.

Lemma plain_no_space (l : list ascii) :
  Forall (fun c => is_digit c = true \/ c = "-"%char) l ->
  Forall (fun c => is_space c = false) l.
Proof.
  intros H. eapply Forall_impl; [|exact H].
  intros c Hc. now destruct (digit_plain c Hc) as (_ & _ & ?).
Qed.

Lemma uint_digits (d : Decimal.uint) :
  Forall (fun c => is_digit c = true)
         (list_ascii_of_string (NilEmpty.string_of_uint d)).
Proof.
  induction d; cbn [NilEmpty.string_of_uint list_ascii_of_string];
    constructor; auto.
Qed.

Lemma filter_digits (l : list ascii) :
  Forall (fun c => is_digit c = true) l -> filter is_digit l = l.
Proof.
  induction 1 as [|c r Hc _ IH]; [reflexivity|].
  cbn [filter]. now rewrite Hc, IH.
Qed.

Lemma length_list_ascii (s : string) :
  List.length (list_ascii_of_string s) = String.length s.
Proof. induction s; cbn; congruence. Qed.

(** The digits of a positive number, as [int] reads them back. *)
Lemma parse_limited_pos (p : positive) :
  (digits (Zpos p) <= max_str_digits)%nat ->
  parse_limited (list_ascii_of_string (NilEmpty.string_of_uint (Pos.to_uint p)))
  = Some (Zpos p).
Proof.
  intros Hl. unfold parse_limited.
  pose proof (DecimalPos.Unsigned.to_uint_nonnil p) as Hn.
  pose proof (DecimalPos.Unsigned.of_to p) as Hp.
  pose proof (parse_digits_uint (Pos.to_uint p) 0 false Hn) as Hd.
  rewrite uint_value_of_uint, Hp in Hd. cbn [Z.of_N] in Hd.
  rewrite filter_digits by apply uint_digits.
  rewrite length_list_ascii.
  unfold digits, str_of_Z in Hl. cbn [Z.abs Z.to_int NilZero.string_of_int] in Hl.
  replace (NilZero.string_of_uint (Pos.to_uint p))
    with (NilEmpty.string_of_uint (Pos.to_uint p)) in Hl
    by (destruct (Pos.to_uint p); [congruence | reflexivity ..]).
  apply Nat.ltb_ge in Hl. now rewrite Hl.
Qed.

Lemma int_of_str_of_Z (z : Z) :
  (digits z <= max_str_digits)%nat -> int_of_str (str_of_Z z) = Some z.
Proof.
  intros Hl. unfold int_of_str, str_of_Z.
  destruct z as [|p|p]; [reflexivity| |].
  - cbn [Z.to_int NilZero.string_of_int].
    pose proof (DecimalPos.Unsigned.to_uint_nonnil p) as Hn.
    pose proof (parse_limited_pos p Hl) as Hd.
    assert (Forall (fun c => is_digit c = true \/ c = "-"%char)
              (list_ascii_of_string
                 (NilEmpty.string_of_uint (Pos.to_uint p)))) as Hs
      by (eapply Forall_impl; [|apply uint_digits]; intros c Hc; now left).
    replace (NilZero.string_of_uint (Pos.to_uint p))
      with (NilEmpty.string_of_uint (Pos.to_uint p))
      by (destruct (Pos.to_uint p); [congruence | reflexivity ..]).
    rewrite characters_plain by exact Hs.
    rewrite strip_id by now apply plain_no_space.
    destruct (Pos.to_uint p); [congruence|..]; exact Hd.
  - cbn [Z.to_int NilZero.string_of_int].
    pose proof (DecimalPos.Unsigned.to_uint_nonnil p) as Hn.
    pose proof (parse_limited_pos p Hl) as Hd.
    assert (Forall (fun c => is_digit c = true \/ c = "-"%char)
              (list_ascii_of_string
                 (String "-" (NilEmpty.string_of_uint (Pos.to_uint p))))) as Hs.
    { cbn [list_ascii_of_string]. constructor; [now right|].
      eapply Forall_impl; [|apply uint_digits]. intros c Hc. now left. }
    replace (NilZero.string_of_uint (Pos.to_uint p))
      with (NilEmpty.string_of_uint (Pos.to_uint p))
      by (destruct (Pos.to_uint p); [congruence | reflexivity ..]).
    rewrite characters_plain by exact Hs.
    rewrite strip_id by now apply plain_no_space.
    cbn [list_ascii_of_string].
    change (Ascii.eqb "-" "-") with true. cbv iota.
    rewrite Hd. reflexivity.
Qed.

Lemma page_round_strings (collection item : string)
    (keep : option (value -> res bool)) (all : list value) (p : page) :
  plain_names collection item ->
  readable_counters p ->
  ElvantoClient.page_round collection item keep all
    (encode_strings collection item p)
  = ElvantoClient.page_round collection item keep all (encode collection item p).
Proof.
  intros (Hc & Ht & Hp & Ho) (Rt & Rp & Ro).
  unfold ElvantoClient.page_round, encode, encode_strings, py_get. cbn [bind].
  pose proof (fun v d => lookup_skip collection "status" v d Hc) as Lc.
  pose proof (fun v d => lookup_skip item "total" v d Ht) as Lt.
  pose proof (fun v d => lookup_skip item "per_page" v d Hp) as Lp.
  pose proof (fun v d => lookup_skip item "on_this_page" v d Ho) as Lo.
  rewrite !Lc, !lookup_here. cbn [truthy negb].
  rewrite !Lt, !Lp, !Lo.
  change (lookup "total" (("total", ?v) :: _)) with (Some v).
  change (lookup "per_page" (_ :: ("per_page", ?v) :: _)) with (Some v).
  change (lookup "on_this_page" (_ :: _ :: ("on_this_page", ?v) :: _))
    with (Some v).
  destruct (pg_items p) as [|l|d].
  - reflexivity.
  - rewrite !lookup_here. destruct l as [|x l]; [reflexivity|].
    cbn [truthy negb one_or_many is_dict py_iter bind].
    destruct (match keep with Some f => filterM f (x :: l) | None => Ok (x :: l) end);
      [|reflexivity].
    cbn [bind ElvantoClient._to_int]. now rewrite !int_of_str_of_Z.
  - rewrite !lookup_here. destruct d as [|kv d]; [reflexivity|].
    cbn [truthy negb one_or_many is_dict py_iter bind].
    destruct (match keep with Some f => filterM f _ | None => Ok _ end);
      [|reflexivity].
    cbn [bind ElvantoClient._to_int]. now rewrite !int_of_str_of_Z.
Qed.

Lemma make_request_encode (post : transport) (endpoint : string) (data : value)
    (collection item : string) (p : page) :
  String.eqb collection "status" = false ->
  (post endpoint (if truthy data then data else VDict [])
   = Json (encode collection item p) ->
   ElvantoClient._make_request post endpoint data
   = Ok (encode collection item p)) /\
  (post endpoint (if truthy data then data else VDict [])
   = Json (encode_strings collection item p) ->
   ElvantoClient._make_request post endpoint data
   = Ok (encode_strings collection item p)).
Proof.
  intros Hc. split; intros H; unfold ElvantoClient._make_request; rewrite H;
    reflexivity.
Qed.

(** X2.  The three paginated fetchers cannot tell a server that sends [total],
    [per_page] and [on_this_page] as decimal strings of at most 4300 digits
    from one that sends them as integers: with the same items on every page
    they make the same requests and end with the same result, for any filter
    and any number of rounds. *)
Theorem counters_may_be_strings (post post' : transport)
    (collection item : string) :
  plain_names collection item ->
  (forall endpoint data,
     same_but_counters collection item (post endpoint data)
                       (post' endpoint data)) ->
  forall endpoint fields keep fuel page all,
    ElvantoClient.fetch_loop post' endpoint fields collection item keep
      fuel page all
    = ElvantoClient.fetch_loop post endpoint fields collection item keep
        fuel page all.
Proof.
  intros Hn Hs endpoint fields keep fuel.
  induction fuel as [|fuel IH]; intros page all; [reflexivity|].
  cbn [ElvantoClient.fetch_loop].
  destruct (Hs endpoint
              (if truthy (ElvantoClient.request_data page fields)
               then ElvantoClient.request_data page fields else VDict []))
    as [E | (p & Hr & E & E')].
  - assert (ElvantoClient._make_request post' endpoint
              (ElvantoClient.request_data page fields)
            = ElvantoClient._make_request post endpoint
                (ElvantoClient.request_data page fields)) as ->
      by (unfold ElvantoClient._make_request; now rewrite E).
    destruct (ElvantoClient._make_request post endpoint _); [|reflexivity].
    destruct (ElvantoClient.page_round _ _ _ _ _) as [[got|got]|]; auto.
  - destruct Hn as (Hc & Hrest).
    rewrite (proj1 (make_request_encode post endpoint
                      (ElvantoClient.request_data page fields)
                      collection item p Hc) E).
    rewrite (proj2 (make_request_encode post' endpoint
                      (ElvantoClient.request_data page fields)
                      collection item p Hc) E').
    rewrite (page_round_strings _ _ _ _ _ (conj Hc Hrest) Hr).
    destruct (ElvantoClient.page_round _ _ _ _ _) as [[got|got]|]; auto.
Qed.

Lemma counters_may_be_strings_witness :
  ElvantoClient.get_all_groups_with_people
    (serve_strings "groups" "group" Sample.five_in_twos (no_more "groups")) 4
  = ElvantoClient.get_all_groups_with_people
      (serve "groups" "group" Sample.five_in_twos (no_more "groups")) 4.
Proof.
  apply (counters_may_be_strings
           (serve "groups" "group" Sample.five_in_twos (no_more "groups"))
           (serve_strings "groups" "group" Sample.five_in_twos
                          (no_more "groups"))
           "groups" "group" plain_groups).
  intros endpoint data. unfold serve, serve_strings.
  destruct data as [| | | | |d]; try (left; reflexivity).
  destruct (lookup "page" d) as [[| |n| | |]|]; try (left; reflexivity).
  destruct (1 <=? n)%Z; [|left; reflexivity].
  destruct (nth_error Sample.five_in_twos (Z.to_nat (n - 1))) as [p|] eqn:E;
    [|left; reflexivity].
  right. exists p. split; [|split; reflexivity].
  apply nth_error_In in E.
  destruct E as [<- | [<- | [<- | []]]]; repeat split; vm_compute; lia.
Defined.

(** * What a request returns *)

Lemma make_request_json (post : transport) (endpoint : string)
    (data result : value) :
  ElvantoClient._make_request post endpoint data = Ok result ->
  post endpoint (if truthy data then data else VDict []) = Json result.
Proof.
  unfold ElvantoClient._make_request.
  destruct (post endpoint _) as [m|m|v]; try discriminate.
  intros H. returned H has_status. destruct has_status.
  - returned H status. destruct (negb (py_eq_str status "ok")).
    + returned H err. returned H msg. discriminate.
    + congruence.
  - congruence.
Qed.

(** X3.  [_make_request] returns exactly the decoded answer of the server, and
    only when that answer has no [status] or is a mapping whose status is the
    string "ok": a result it returns is never an error response. *)
Theorem make_request_returns_accepted_answers (post : transport)
    (endpoint : string) (data result : value) :
  ElvantoClient._make_request post endpoint data = Ok result <->
  post endpoint (if truthy data then data else VDict []) = Json result /\
  accepted result.
Proof.
  split.
  - intros H. split; [now apply make_request_json|].
    unfold ElvantoClient._make_request in H.
    destruct (post endpoint _) as [m|m|v]; try discriminate.
    destruct (py_contains v "status") as [[|]|] eqn:Ec; cbn [bind] in H;
      try discriminate.
    + destruct v; try discriminate. cbn [py_get bind] in H.
      right. exists d. unfold py_contains in Ec.
      destruct (lookup "status" d) as [s|] eqn:El; [|discriminate].
      destruct (py_eq_str s "ok") eqn:Es; cbn [negb] in H.
      * destruct s; try discriminate Es. cbn [py_eq_str] in Es.
        apply String.eqb_eq in Es. subst. split; congruence.
      * returned H msg. discriminate.
    + left. congruence.
  - intros (H & Ha). unfold ElvantoClient._make_request. rewrite H.
    destruct Ha as [Ha | (d & -> & Hs)].
    + now rewrite Ha.
    + cbn [py_contains py_get bind]. rewrite Hs. reflexivity.
Qed.

Lemma make_request_returns_accepted_answers_witness :
  ElvantoClient._make_request (Cases.always (no_more "groups"))
    "groups/getAll" VNone
  = Ok (VDict [("status", VStr "ok"); ("groups", VDict [])]).
Proof.
  apply (proj2 (make_request_returns_accepted_answers
                  (Cases.always (no_more "groups")) "groups/getAll" VNone
                  (VDict [("status", VStr "ok"); ("groups", VDict [])]))).
  split; [reflexivity|]. right. eexists. split; reflexivity.
Defined.

(** * How long the loops run *)

Lemma iter_one_or_many_nonempty (items : value) (xs : list value) :
  truthy items = true -> py_iter (one_or_many items) = Ok xs -> xs <> [].
Proof.
  destruct items as [| | |s|l|d]; cbn [truthy one_or_many is_dict py_iter];
    try discriminate.
  - intros Ht [= <-].
    assert (s <> "") as Hs by (intros ->; discriminate Ht).
    destruct (chars_nonempty s Hs) as (c & r & ->). discriminate.
  - destruct l; [discriminate|]. intros _ [= <-]. discriminate.
  - intros _ [= <-]. discriminate.
Qed.

(** A round that goes on has added an item and is still below the total the
    response reported. *)
Lemma page_round_next (collection item : string) (all : list value)
    (result : value) (all' : list value) :
  ElvantoClient.page_round collection item None all result
  = Ok (ElvantoClient.Next all') ->
  (List.length all < List.length all')%nat /\
  (Z.of_nat (List.length all') < reported_total collection result)%Z.
Proof.
  unfold ElvantoClient.page_round, reported_total. intros H.
  returned H data. destruct (negb (truthy data)); [discriminate|].
  returned H items. destruct (negb (truthy items)) eqn:Hi; [discriminate|].
  returned H xs. cbn [bind] in H.
  returned H total. returned H per_page. returned H on_this_page.
  destruct (_ || _) eqn:Ec in H; [discriminate|]. injection H as <-.
  apply orb_false_iff in Ec as (_ & Ec).
  rewrite Z.geb_leb in Ec. apply Z.leb_gt in Ec.
  split; [|exact Ec].
  rewrite length_app.
  assert (xs <> []) as Hx.
  { apply (iter_one_or_many_nonempty items); [|assumption].
    now apply negb_false_iff in Hi. }
  destruct xs; [congruence|]. cbn [List.length]. lia.
Qed.

Lemma fetch_loop_bounded (post : transport) (endpoint : string)
    (fields : list string) (collection item : string) (bound : Z) :
  (forall e d v, post e d = Json v -> (reported_total collection v <= bound)%Z) ->
  forall fuel page all,
    (bound <= Z.of_nat (List.length all) + Z.of_nat fuel)%Z ->
    ElvantoClient.fetch_loop post endpoint fields collection item None
      (S fuel) page all <> None.
Proof.
  intros Hb fuel. induction fuel as [|fuel IH]; intros page all Hf;
    cbn [ElvantoClient.fetch_loop];
    destruct (ElvantoClient._make_request post endpoint _) as [result|]
      eqn:Er; try discriminate;
    apply make_request_json in Er; apply Hb in Er;
    destruct (ElvantoClient.page_round collection item None all result)
      as [[got|got]|] eqn:Ep; try discriminate;
    apply page_round_next in Ep as (Hl & Ht).
  - lia.
  - apply IH. lia.
Qed.

Lemma total_within_reported (bound : Z) (collection : string)
    (result : value) :
  total_within bound collection result ->
  (reported_total collection result <= bound)%Z.
Proof.
  intros (t & H & Hb). unfold reported_total.
  destruct (py_get result collection (VDict [])) as [data|]; [|discriminate].
  cbn [bind] in H. now rewrite H.
Qed.

(** X4.  An unfiltered fetch ends: if every response carries its total as an
    integer of at most [bound] (a collection or a total that is missing
    counting as 0), each of the two group fetchers, and the people fetcher
    without the adults filter, has returned or raised after at most
    [bound + 1] requests. *)
Theorem unfiltered_fetch_ends_within_total (post : transport) (bound : Z) :
  (forall e d v, post e d = Json v ->
     total_within bound "groups" v /\ total_within bound "people" v) ->
  ElvantoClient.get_all_groups_with_people post (S (Z.to_nat bound)) <> None /\
  ElvantoClient.get_all_groups_with_categories post (S (Z.to_nat bound))
  <> None /\
  forall excluded,
    ElvantoClient.get_all_people_with_departments post (S (Z.to_nat bound))
      false excluded <> None.
Proof.
  intros Hb. repeat split; [| |intros excluded];
    apply fetch_loop_bounded with (bound := bound);
    try (intros e d v H; apply total_within_reported; now apply (Hb e d v));
    cbn [List.length]; lia.
Qed.

Lemma unfiltered_fetch_ends_within_total_witness :
  ElvantoClient.get_all_groups_with_people
    (Cases.always
       (Json (encode "groups" "group"
                (Sample.full_page (Sample.records [1; 2]%Z) 5 2)))) 6
  <> None.
Proof.
  refine (proj1 (unfiltered_fetch_ends_within_total
                   (Cases.always
                      (Json (encode "groups" "group"
                               (Sample.full_page (Sample.records [1; 2]%Z) 5 2))))
                   5 _)).
  intros e d v H. injection H as <-.
  split; [exists 5%Z | exists 0%Z]; (split; [reflexivity | lia]).
Defined.

Lemma filterM_app {A} (keep : A -> res bool) (a b : list A) :
  filterM keep (a ++ b)
  = (x <- filterM keep a ;; y <- filterM keep b ;; Ok (x ++ y)).
Proof.
  induction a as [|h a IH]; cbn [app filterM bind].
  - now destruct (filterM keep b).
  - destruct (keep h) as [c|]; [|reflexivity]. cbn [bind]. rewrite IH.
    destruct (filterM keep a); [|reflexivity]. cbn [bind].
    destruct (filterM keep b); [|reflexivity]. cbn [bind].
    now destruct c.
Qed.

Lemma filterM_length {A} (keep : A -> res bool) (xs ys : list A) :
  filterM keep xs = Ok ys -> (List.length ys <= List.length xs)%nat.
Proof.
  revert ys. induction xs as [|x xs IH]; intros ys H; cbn [filterM] in H.
  - injection H as <-. reflexivity.
  - returned H c. returned H zs. injection H as <-.
    specialize (IH zs eq_refl). destruct c; cbn [List.length]; lia.
Qed.

Lemma kept_app (keep : option (value -> res bool)) (a b : list value) :
  kept keep (a ++ b) = (x <- kept keep a ;; y <- kept keep b ;; Ok (x ++ y)).
Proof. destruct keep; [apply filterM_app | reflexivity]. Qed.

Lemma kept_length (keep : option (value -> res bool)) (xs ys : list value) :
  kept keep xs = Ok ys -> (List.length ys <= List.length xs)%nat.
Proof.
  destruct keep; [apply filterM_length | intros [= <-]; reflexivity].
Qed.

(** A round on a served page whose filter raises. *)
Lemma page_round_encode_raise (collection item : string)
    (keep : option (value -> res bool)) (all : list value) (p : page) (e : exn) :
  plain_names collection item ->
  items_of (pg_items p) <> [] ->
  kept keep (items_of (pg_items p)) = Raise e ->
  ElvantoClient.page_round collection item keep all (encode collection item p)
  = Raise e.
Proof.
  intros (Hc & Ht & Hp & Ho) Hi Hk.
  unfold ElvantoClient.page_round, encode, py_get. cbn [bind].
  rewrite (lookup_skip collection "status" _ _ Hc), lookup_here.
  cbn [truthy negb].
  destruct (pg_items p) as [|l|d]; cbn [items_of] in *.
  - congruence.
  - rewrite (lookup_skip item "total" _ _ Ht),
      (lookup_skip item "per_page" _ _ Hp),
      (lookup_skip item "on_this_page" _ _ Ho), lookup_here.
    destruct l as [|x l]; [congruence|].
    cbn [truthy negb one_or_many is_dict py_iter bind].
    unfold kept in Hk. destruct keep; [|discriminate]. now rewrite Hk.
  - rewrite (lookup_skip item "total" _ _ Ht),
      (lookup_skip item "per_page" _ _ Hp),
      (lookup_skip item "on_this_page" _ _ Ho), lookup_here.
    destruct d as [|kv d]; [congruence|].
    cbn [truthy negb one_or_many is_dict py_iter bind].
    unfold kept in Hk. destruct keep; [|discriminate]. now rewrite Hk.
Qed.

Lemma make_request_no_more (endpoint : string) (data : value)
    (collection item : string) (keep : option (value -> res bool))
    (all : list value) :
  String.eqb collection "status" = false ->
  exists result,
    ElvantoClient._make_request (fun _ _ => no_more collection) endpoint data
    = Ok result /\
    ElvantoClient.page_round collection item keep all result
    = Ok (ElvantoClient.Break all).
Proof.
  intros Hc. eexists. split; [reflexivity|].
  unfold ElvantoClient.page_round, py_get. cbn [bind].
  rewrite (lookup_skip collection "status" _ _ Hc), lookup_here.
  reflexivity.
Qed.

(** Against laid-out pages the loop reads every page. *)
Lemma fetch_loop_laid_out (collection item : string) (endpoint : string)
    (fields : list string) (keep : option (value -> res bool)) (n : Z)
    (rest done : list page) (all : list value) :
  plain_names collection item ->
  laid_out n rest = true ->
  (Z.of_nat (List.length all) + Z.of_nat (List.length (all_items rest)) <= n)%Z ->
  ElvantoClient.fetch_loop (serve collection item (done ++ rest)
                                  (no_more collection))
    endpoint fields collection item keep
    (S (List.length rest)) (Z.of_nat (S (List.length done))) all
  = Some (ys <- kept keep (all_items rest) ;; Ok (all ++ ys)).
Proof.
  intros Hn. revert done all.
  induction rest as [|p rest IH]; intros done all Hl Hb.
  - cbn [List.length]. rewrite app_nil_r. cbn [ElvantoClient.fetch_loop].
    rewrite make_request_serve_after by (apply nth_error_None; lia).
    destruct (make_request_no_more endpoint
                (ElvantoClient.request_data
                   (Z.of_nat (S (List.length done))) fields)
                collection item keep all (proj1 Hn)) as (r & -> & ->).
    unfold all_items. cbn [map List.concat]. destruct keep; cbn [kept filterM bind];
      now rewrite app_nil_r.
  - cbn [List.length]. remember (S (List.length rest)) as fuel eqn:Hf.
    cbn [ElvantoClient.fetch_loop].
    rewrite (make_request_serve_page _ _ _ _ _ _ (List.length done) p).
    2:{ rewrite nth_error_app2 by lia. now rewrite Nat.sub_diag. }
    cbn [laid_out] in Hl.
    apply andb_true_iff in Hl as (Hl & Hr).
    apply andb_true_iff in Hl as (Hi & Hfull).
    assert (items_of (pg_items p) <> []) as Hne
      by (destruct (items_of (pg_items p)); [discriminate | discriminate]).
    unfold all_items in *. cbn [map List.concat] in *.
    fold (all_items rest) in *.
    rewrite kept_app. rewrite length_app in Hb.
    destruct (kept keep (items_of (pg_items p))) as [ys|e] eqn:Hk.
    + rewrite (page_round_encode (fun _ _ => no_more collection)
                 collection item keep all p ys Hn Hk).
      cbn [bind].
      pose proof (kept_length _ _ _ Hk) as Hy.
      specialize (IH (done ++ [p]) (all ++ ys) Hr).
      rewrite <- app_assoc in IH. cbn [app] in IH.
      replace (Z.of_nat (S (List.length (done ++ [p]))))
        with (Z.of_nat (S (List.length done)) + 1)%Z in IH
        by (rewrite length_app; cbn [List.length]; lia).
      assert (ElvantoClient.fetch_loop
                (serve collection item (done ++ p :: rest) (no_more collection))
                endpoint fields collection item keep fuel
                (Z.of_nat (S (List.length done)) + 1) (all ++ ys)
              = Some (zs <- kept keep (all_items rest) ;; Ok (all ++ ys ++ zs)))
        as Hnext.
      { subst fuel. rewrite IH.
        - destruct (kept keep (all_items rest)); cbn [bind];
            [now rewrite app_assoc | reflexivity].
        - rewrite length_app. lia. }
      destruct (items_of (pg_items p)) as [|x xs] eqn:Ei; [congruence|].
      cbv zeta.
      destruct ((pg_on_this_page p <? pg_per_page p)%Z
                || (pg_total p <=? Z.of_nat (List.length (all ++ ys)))%Z)
        eqn:Estop.
      * destruct rest as [|q rest].
        -- unfold all_items. cbn [map List.concat]. destruct keep;
             cbn [kept filterM bind]; now rewrite app_nil_r.
        -- exfalso. apply andb_true_iff in Hfull as (Hfull & Htot).
           apply Z.leb_le in Hfull, Htot.
           cbn [laid_out] in Hr.
           apply andb_true_iff in Hr as (Hr & _).
           apply andb_true_iff in Hr as (Hq & _).
           unfold all_items in Hb. cbn [map List.concat] in Hb.
           rewrite length_app in Hb.
           destruct (items_of (pg_items q)); [discriminate|].
           cbn [List.length] in Hb, Hy. rewrite length_app in Estop.
           apply orb_true_iff in Estop as [Es | Es];
             [apply Z.ltb_lt in Es | apply Z.leb_le in Es]; lia.
      * rewrite Hnext. now destruct (kept keep (all_items rest)).
    + rewrite (page_round_encode_raise collection item keep all p e Hn Hne Hk).
      reflexivity.
Qed.

(** X5.  Nothing is lost against a server that lays its collection out in
    pages: when no page is empty and every page but the last is full and
    reports a total of at least the number of items, the group fetchers return
    the items of all pages in order, and the people fetcher with the adults
    filter returns exactly those of them that pass [should_include_person]
    (or raises what the check raises first). *)
Theorem laid_out_pages_are_read_to_the_end (pages : list page) (fuel : nat) :
  List.length pages < fuel ->
  laid_out (Z.of_nat (List.length (all_items pages))) pages = true ->
  ElvantoClient.get_all_groups_with_people
    (serve "groups" "group" pages (no_more "groups")) fuel
  = Some (Ok (all_items pages)) /\
  ElvantoClient.get_all_groups_with_categories
    (serve "groups" "group" pages (no_more "groups")) fuel
  = Some (Ok (all_items pages)) /\
  forall excluded,
    ElvantoClient.get_all_people_with_departments
      (serve "people" "person" pages (no_more "people")) fuel true excluded
    = Some (filterM (fun p => ElvantoClient.should_include_person p excluded)
                    (all_items pages)).
Proof.
  intros Hf Hl.
  assert (forall collection item endpoint fields keep,
            plain_names collection item ->
            ElvantoClient.fetch_loop
              (serve collection item pages (no_more collection))
              endpoint fields collection item keep fuel 1 []
            = Some (kept keep (all_items pages))) as H.
  { intros collection item endpoint fields keep Hn.
    replace fuel with (S (List.length pages) + (fuel - S (List.length pages)))
      by lia.
    apply fetch_loop_more_fuel.
    pose proof (fetch_loop_laid_out collection item endpoint fields keep
                  _ pages [] [] Hn Hl) as H.
    cbn [app List.length] in H. change (Z.of_nat 1) with 1%Z in H.
    rewrite H by lia. now destruct (kept keep (all_items pages)). }
  repeat split; [| |intros excluded].
  - apply (H "groups" "group" _ _ None plain_groups).
  - apply (H "groups" "group" _ _ None plain_groups).
  - apply (H "people" "person" _ _ (Some _) plain_people).
Qed.

Lemma laid_out_pages_are_read_to_the_end_witness :
  ElvantoClient.get_all_groups_with_people
    (serve "groups" "group" Sample.five_in_twos (no_more "groups")) 4
  = Some (Ok (all_items Sample.five_in_twos)).
Proof.
  refine (proj1 (laid_out_pages_are_read_to_the_end Sample.five_in_twos 4
                   _ eq_refl)).
  cbn. lia.
Defined.

(** X6.  The adults-only people fetch measures the people it kept, not the
    people it read, against the reported total: against a server that answers
    every request with a full, non-empty page of people who are all filtered
    out, under a positive total, it has not returned after any number of
    requests. *)
Theorem adults_fetch_counts_kept_people (post : transport)
    (excluded : option (list string)) :
  (forall e d, exists p,
     post e d = Json (encode "people" "person" p) /\
     items_of (pg_items p) <> [] /\
     filterM (fun x => ElvantoClient.should_include_person x excluded)
             (items_of (pg_items p)) = Ok [] /\
     (pg_per_page p <= pg_on_this_page p)%Z /\
     (0 < pg_total p)%Z) ->
  forall fuel,
    ElvantoClient.get_all_people_with_departments post fuel true excluded
    = None.
Proof.
  intros Hs fuel. unfold ElvantoClient.get_all_people_with_departments.
  generalize 1%Z as page.
  induction fuel as [|fuel IH]; intros page; [reflexivity|].
  cbn [ElvantoClient.fetch_loop].
  destruct (Hs "people/getAll"
              (if truthy (ElvantoClient.request_data page
                            ["departments"; "demographics"])
               then ElvantoClient.request_data page
                      ["departments"; "demographics"]
               else VDict []))
    as (p & Hp & Hi & Hk & Hfull & Htot).
  rewrite (proj1 (make_request_encode post "people/getAll"
                    (ElvantoClient.request_data page
                       ["departments"; "demographics"])
                    "people" "person" p eq_refl) Hp).
  rewrite (page_round_encode post "people" "person" (Some _) [] p []
             plain_people Hk).
  destruct (items_of (pg_items p)); [congruence|].
  cbn [app List.length].
  replace (pg_on_this_page p <? pg_per_page p)%Z with false
    by (symmetry; apply Z.ltb_ge; lia).
  replace (pg_total p <=? Z.of_nat 0)%Z with false
    by (symmetry; apply Z.leb_gt; lia).
  cbn [orb]. apply IH.
Qed.

Lemma adults_fetch_counts_kept_people_witness :
  ElvantoClient.get_all_people_with_departments
    (Cases.always (Json (encode "people" "person" Cases.archived_page)))
    7 true None
  = None.
Proof.
  apply (adults_fetch_counts_kept_people
           (Cases.always (Json (encode "people" "person" Cases.archived_page)))
           None).
  intros e d. exists Cases.archived_page.
  split; [reflexivity|]. split; [discriminate|]. split; [reflexivity|].
  split; [cbn; lia | reflexivity].
Defined.

(** * The walk, with what it knows at a position *)

(** Two walks step by step in a relation, the innermost statements being
    reached under a sub-department whose name is truthy only. *)
Section WalkNamed.
Context {S T : Type}.
Variable R : S -> T -> Prop.
Variable v1 : value -> value -> S -> value -> res S.
Variable v2 : value -> value -> T -> value -> res T.
Hypothesis visit_named :
  forall dn sn s t pos s', truthy sn = true -> R s t ->
                           v1 dn sn s pos = Ok s' ->
                           exists t', v2 dn sn t pos = Ok t' /\ R s' t'.

Lemma walk_sub_named (dn : value) (s : S) (t : T) (sub : value) (s' : S) :
  R s t -> walk_sub v1 dn s sub = Ok s' ->
  exists t', walk_sub v2 dn t sub = Ok t' /\ R s' t'.
Proof.
  unfold walk_sub. intros HR H.
  returned H sn. destruct (negb (truthy sn)) eqn:Hsn;
    [injection H as <-; now exists t|].
  apply negb_false_iff in Hsn.
  returned H pd. early H ltac:(now exists t).
  returned H pl. returned H poss.
  apply (foldM_rel R (v1 dn sn) (v2 dn sn) poss
           (fun s t x s' => visit_named dn sn s t x s' Hsn) s t s' HR H).
Qed.

Lemma walk_dept_named (s : S) (t : T) (dept : value) (s' : S) :
  R s t -> walk_dept v1 s dept = Ok s' ->
  exists t', walk_dept v2 t dept = Ok t' /\ R s' t'.
Proof.
  unfold walk_dept. intros HR H.
  returned H dn. returned H sd. early H ltac:(now exists t).
  returned H sl. returned H subs.
  apply (foldM_rel R (walk_sub v1 dn) (walk_sub v2 dn) subs
             (walk_sub_named dn) s t s' HR H).
Qed.

Lemma walk_departments_named (s : S) (t : T) (person : value) (s' : S) :
  R s t -> walk_departments v1 s person = Ok s' ->
  exists t', walk_departments v2 t person = Ok t' /\ R s' t'.
Proof.
  unfold walk_departments. intros HR H.
  returned H ds. early H ltac:(now exists t).
  returned H dl. returned H depts.
  apply (foldM_rel R (walk_dept v1) (walk_dept v2) depts walk_dept_named
             s t s' HR H).
Qed.
End WalkNamed.

(** Where an assignment of the walk comes from. *)
Lemma walk_person_source (met : list assignment) (p : value)
    (met' : list assignment) :
  walk_person met p = Ok met' ->
  forall a, In a met' ->
    In a met \/
    (py_get p "id" VNone = Ok (as_person a) /\
     truthy (as_person a) = true /\
     truthy (as_sub_department a) = true /\
     exists refs r,
       People.get_person_positions_from_departments p = Ok refs /\
       In r refs /\ People.pr_id r = as_sub_department a /\
       People.pr_department r = as_department a).
Proof.
  unfold walk_person. intros H.
  destruct (py_get p "id" VNone) as [i|] eqn:Ei; [|discriminate].
  cbn [bind] in H.
  destruct (negb (truthy i)) eqn:Et; [injection H as <-; now left|].
  apply negb_false_iff in Et.
  destruct (walk_departments_named
              (fun (t : list assignment) (rs : list People.position_ref) =>
                 forall a, In a t ->
                   In a met \/
                   (as_person a = i /\ truthy (as_sub_department a) = true /\
                    exists r, In r rs /\
                              People.pr_id r = as_sub_department a /\
                              People.pr_department r = as_department a))
              (note_assignment i) People.append_position)
    with (s := met) (t := @nil People.position_ref) (person := p) (s' := met')
    as [refs [Hr HR]]; try assumption.
  - intros dn sn s t pos s' Hsn HR Ha. unfold note_assignment in Ha.
    injection Ha as <-. unfold People.append_position.
    eexists. split; [reflexivity|].
    intros a Hin. apply in_app_iff in Hin as [Hin | [<- | []]].
    + destruct (HR _ Hin) as [Hm | (Hp & Hs & r & Hr & Hid)]; [now left|].
      right. split; [exact Hp|]. split; [exact Hs|].
      exists r. split; [apply in_app_iff; now left | exact Hid].
    + right. cbn [as_person as_sub_department as_department].
      split; [reflexivity|]. split; [exact Hsn|].
      eexists. split; [apply in_app_iff; right; now left|].
      split; reflexivity.
  - intros a Hin. now left.
  - intros a Hin.
    destruct (HR _ Hin) as [Hm | (Hp & Hs & r & Hrin & Hid)]; [now left|].
    right. subst i. repeat split; try assumption.
    exists refs, r. repeat split; try assumption; apply Hid.
Qed.

Lemma assignments_source (people : list value) (met0 met : list assignment) :
  foldM walk_person met0 people = Ok met ->
  forall a, In a met ->
    In a met0 \/
    exists p, In p people /\
      py_get p "id" VNone = Ok (as_person a) /\
      truthy (as_person a) = true /\
      truthy (as_sub_department a) = true /\
      exists refs r,
        People.get_person_positions_from_departments p = Ok refs /\
        In r refs /\ People.pr_id r = as_sub_department a /\
        People.pr_department r = as_department a.
Proof.
  revert met0. induction people as [|q people IH]; intros met0 H a Hin;
    cbn [foldM] in H.
  - injection H as <-. now left.
  - returned H m1. destruct (IH _ H a Hin) as [Hm | (p & Hp & Hrest)].
    + destruct (walk_person_source _ _ _ Heqr a Hm) as [H0 | Hq]; [now left|].
      right. exists q. split; [now left | exact Hq].
    + right. exists p. split; [now right | exact Hrest].
Qed.

(** * What an entry of the extractor holds *)


Lemma set_add_nonempty {A} (eqb : A -> A -> bool) (x : A) (s : list A) :
  (forall a b, eqb a b = true <-> a = b) -> set_add eqb x s <> [].
Proof.
  intros He H. pose proof (set_add_new eqb x s He) as Hin.
  rewrite H in Hin. destruct Hin.
Qed.

Lemma string_eqb_eq (a b : string) : String.eqb a b = true <-> a = b.
Proof. apply String.eqb_eq. Qed.

(** The entry a key has after the innermost statements ran. *)
Lemma add_position_find (person_id dn sn : value)
    (s : ElvantoClient.positions_map) (pos : value)
    (s' : ElvantoClient.positions_map) :
  ElvantoClient.add_position person_id dn sn s pos = Ok s' ->
  exists pos_id ks m,
    hash_key sn = Ok ks /\ hash_key person_id = Ok m /\
    forall k,
      find k s'
      = if key_eqb k ks
        then let e := match find ks s with
                      | Some e => e
                      | None =>
                          {| ElvantoClient.pe_id := sn;
                             ElvantoClient.pe_name := sn;
                             ElvantoClient.pe_department := dn;
                             ElvantoClient.pe_position_ids := [];
                             ElvantoClient.pe_volunteers := [] |}
                      end in
             Some {| ElvantoClient.pe_id := ElvantoClient.pe_id e;
                     ElvantoClient.pe_name := ElvantoClient.pe_name e;
                     ElvantoClient.pe_department := ElvantoClient.pe_department e;
                     ElvantoClient.pe_position_ids :=
                       set_add String.eqb pos_id
                               (ElvantoClient.pe_position_ids e);
                     ElvantoClient.pe_volunteers :=
                       set_add key_eqb m (ElvantoClient.pe_volunteers e) |}
        else find k s.
Proof.
  intros H. destruct (add_position_shape _ _ _ _ _ _ H)
    as (pos_id & ks & m & Hks & Hm & ->).
  exists pos_id, ks, m. split; [exact Hks|]. split; [exact Hm|].
  intros k. rewrite !find_update, find_setdefault.
  destruct (key_eqb k ks) eqn:Ek; [|now destruct (find k s)].
  apply key_eqb_eq in Ek. subst k. destruct (find ks s); reflexivity.
Qed.

Lemma add_position_filled (person_id dn sn : value) (s : positions_map)
    (pos : value) (s' : positions_map) :
  truthy sn = true -> filled s ->
  add_position person_id dn sn s pos = Ok s' -> filled s'.
Proof.
  intros Hsn Hs H k e Hk.
  destruct (add_position_find _ _ _ _ _ _ H) as (pos_id & ks & m & _ & _ & Hf).
  rewrite Hf in Hk. destruct (key_eqb k ks); [|exact (Hs _ _ Hk)].
  cbv zeta in Hk. injection Hk as <-. unfold entry_filled.
  cbn [pe_id pe_volunteers pe_position_ids].
  split; [|split; [|split]].
  - destruct (find ks s) as [e0|] eqn:E0; [apply (Hs _ _ E0) | exact Hsn].
  - apply set_add_nonempty, key_eqb_eq.
  - apply set_add_nonempty, string_eqb_eq.
  - apply set_add_NoDup; [apply string_eqb_eq|].
    destruct (find ks s) as [e0|] eqn:E0; [apply (Hs _ _ E0) | constructor].
Qed.

Lemma fold_add_filled (met : list assignment) (s out : positions_map) :
  Forall (fun a => truthy (as_sub_department a) = true) met ->
  filled s -> foldM add_assignment s met = Ok out -> filled out.
Proof.
  revert s. induction met as [|a met IH]; intros s Ha Hs H; cbn [foldM] in H.
  - now injection H as <-.
  - returned H s1. inversion Ha as [|? ? Ht Hr]; subst.
    apply (IH s1 Hr); [|exact H].
    unfold add_assignment in Heqr. exact (add_position_filled _ _ _ _ _ _ Ht Hs Heqr).
Qed.

Lemma entries_ok_nil : entries_ok [].
Proof. split; [constructor | intros k e []]. Qed.

Lemma extracted_filled (people : list value) (out : positions_map)
    (k : hkey) (e : position_entry) :
  extract_volunteer_positions_from_people people = Ok out ->
  In (k, e) out -> entry_filled e /\ pe_id e = pe_name e.
Proof.
  intros H Hin. destruct (extract_walk _ _ H) as (met & Hm & Hb).
  pose proof (fold_add_entries met [] out entries_ok_nil Hb) as (Hnd & Hok).
  split; [|apply (Hok k e Hin)].
  apply (fold_add_filled met [] out) with (k := k); try assumption.
  - apply Forall_forall. intros a Ha.
    destruct (assignments_source people [] met Hm a Ha)
      as [[] | (p & _ & _ & _ & Hs & _)].
    exact Hs.
  - intros k0 e0 H0. discriminate.
  - now apply In_find.
Qed.

(** X7.  Every entry the position extractor returns is filled: its id (the
    sub-department name) is truthy, it has at least one member and at least one
    position id, and no position id twice.  A sub-department never yields an
    empty entry. *)
Theorem extracted_entries_are_filled (people : list value)
    (out : positions_map) (k : hkey) (e : position_entry) :
  extract_volunteer_positions_from_people people = Ok out ->
  In (k, e) out -> entry_filled e.
Proof. intros H Hin. exact (proj1 (extracted_filled _ _ _ _ H Hin)). Qed.

Lemma extracted_entries_are_filled_witness :
  exists e, In (KStr "Ushers", e) Sample.ushers_out /\ entry_filled e.
Proof.
  eexists. split; [now left|].
  apply (extracted_entries_are_filled Sample.ushers Sample.ushers_out
           (KStr "Ushers")); [reflexivity | now left].
Defined.





(** * Who the two modes export *)

Lemma for_each_atomic {S A} (f : S -> A -> res S) (l : list A) (s s' : S) :
  for_each (fun s x => atomic s (f s x)) s l = (s', None) ->
  foldM f s l = Ok s'.
Proof.
  revert s. induction l as [|x l IH]; intros s H; cbn [for_each foldM] in *.
  - now injection H as <-.
  - destruct (f s x) as [s1|e]; cbn [atomic bind] in *; [now apply IH|].
    discriminate.
Qed.

Lemma matched_positions_In (ids : list string) (refs : list position_ref)
    (r : position_ref) (s : string) :
  In r refs -> pr_id r = VStr s -> In s ids ->
  In {| sp_id := s; sp_name := s; sp_department := pr_department r |}
     (matched_positions ids refs).
Proof.
  intros Hin Hid Hs. induction refs as [|q refs IH]; [destruct Hin|].
  cbn [matched_positions]. destruct Hin as [-> | Hin].
  - rewrite Hid. apply in_strs_In in Hs. rewrite Hs. now left.
  - specialize (IH Hin). destruct (pr_id q); try exact IH.
    destruct (in_strs s0 ids); [now right | exact IH].
Qed.

Lemma add_service_position_listed (p : service_position) (r : export_record) :
  In (sp_id p) (position_ids (add_service_position p r)) /\
  incl (position_ids r) (position_ids (add_service_position p r)).
Proof.
  unfold add_service_position, position_ids. cbn [er_service_positions].
  destruct (existsb _ _) eqn:E.
  - split; [|apply incl_refl].
    apply existsb_exists in E as (q & Hq & Heq).
    apply String.eqb_eq in Heq. rewrite <- Heq. now apply in_map.
  - rewrite map_app. split; [apply in_app_iff; right; now left|].
    now apply incl_appl.
Qed.

Lemma fold_update_listed (k : hkey) (l : list service_position)
    (m : people_map) (r0 : export_record) :
  find k m = Some r0 ->
  exists r,
    find k (fold_left (fun fp pos => update k (add_service_position pos) fp) l m)
    = Some r /\
    incl (position_ids r0) (position_ids r) /\
    forall p, In p l -> In (sp_id p) (position_ids r).
Proof.
  revert m r0. induction l as [|x l IH]; intros m r0 H0; cbn [fold_left].
  - exists r0. split; [exact H0|]. split; [apply incl_refl | intros p []].
  - destruct (IH (update k (add_service_position x) m)
                 (add_service_position x r0)) as (r & Hr & Hi & Hl).
    { rewrite find_update, key_eqb_refl, H0. reflexivity. }
    destruct (add_service_position_listed x r0) as (Hx & Hx0).
    exists r. split; [exact Hr|]. split.
    + exact (incl_tran Hx0 Hi).
    + intros p [<- | Hp]; [now apply Hi | now apply Hl].
Qed.

Lemma add_volunteer_exports (request : FilterRequest) (fp fp' : people_map)
    (p i : value) (m : hkey) (refs : list position_ref) (r : position_ref)
    (s : string) :
  add_volunteer request fp p = Ok fp' ->
  py_get p "id" VNone = Ok i -> truthy i = true -> hash_key i = Ok m ->
  get_person_positions_from_departments p = Ok refs ->
  In r refs -> pr_id r = VStr s -> In s (service_position_ids request) ->
  exists rec, find m fp' = Some rec /\ In s (position_ids rec).
Proof.
  unfold add_volunteer. intros H Hi Ht Hm Hr Hin Hid Hs.
  rewrite Hi in H. cbn [bind] in H. rewrite Ht in H. cbn [negb] in H.
  rewrite Hr in H. cbn [bind] in H.
  pose proof (matched_positions_In _ _ _ _ Hin Hid Hs) as Hmatch.
  destruct (matched_positions (service_position_ids request) refs)
    as [|q matched]; [destruct Hmatch|].
  rewrite Hm in H. cbn [bind] in H. injection H as <-.
  assert (exists r0, find m (setdefault m (new_record i p) fp) = Some r0)
    as (r0 & H0).
  { rewrite find_setdefault, key_eqb_refl. destruct (find m fp); eauto. }
  destruct (fold_update_listed m (q :: matched) _ r0 H0) as (rec & Hrec & _ & Hl).
  exists rec. split; [exact Hrec|]. exact (Hl _ Hmatch).
Qed.

Lemma positions_appended_incl (r r' : export_record) :
  positions_appended r r' -> incl (position_ids r) (position_ids r').
Proof.
  intros (_ & _ & (added & Ha) & _). unfold position_ids. rewrite Ha, map_app.
  now apply incl_appl.
Qed.

Lemma fold_add_volunteer_frame (request : FilterRequest) (l : list value)
    (fp fp' : people_map) :
  foldM (add_volunteer request) fp l = Ok fp' ->
  frame positions_appended fp fp'.
Proof.
  revert fp. induction l as [|x l IH]; intros fp H; cbn [foldM] in H.
  - injection H as <-. apply frame_refl, positions_appended_refl.
  - returned H fp1.
    exact (frame_trans positions_appended positions_appended_trans _ _ _
             (add_volunteer_frame _ _ _ _ Heqr) (IH _ H)).
Qed.

(** X9.  Service-position mode is complete: when its [try] block ends without
    an exception, every person the adults-only fetch returned who has a truthy
    id and holds a position under a sub-department whose name is one of the
    requested ids has a record in the result, and that record lists the
    position. *)
Theorem position_holders_are_exported (post : transport) (fuel : nat)
    (request : FilterRequest) (fp fp' : people_map) (fetched : list value)
    (p i : value) (m : hkey) (refs : list position_ref) (r : position_ref)
    (s : string) :
  get_all_people_with_departments post fuel true
    (Some (excluded_category_ids request)) = Some (Ok fetched) ->
  service_task post fuel request fp = Some (fp', None) ->
  In p fetched ->
  py_get p "id" VNone = Ok i -> truthy i = true -> hash_key i = Ok m ->
  get_person_positions_from_departments p = Ok refs ->
  In r refs -> pr_id r = VStr s -> In s (service_position_ids request) ->
  exists rec, find m fp' = Some rec /\ In s (position_ids rec).
Proof.
  intros Hf H Hp Hi Ht Hm Hr Hin Hid Hs.
  unfold service_task in H. rewrite Hf in H. injection H as H.
  apply for_each_atomic in H. clear Hf.
  revert fp H. induction fetched as [|q fetched IH]; intros fp H;
    [destruct Hp|].
  cbn [foldM] in H. returned H fp1. destruct Hp as [-> | Hp].
  - destruct (add_volunteer_exports _ _ _ _ _ _ _ _ _ Heqr0 Hi Ht Hm Hr Hin Hid Hs)
      as (rec & Hrec & Hl).
    destruct (fold_add_volunteer_frame _ _ _ _ H _ _ Hrec) as (rec' & Hrec' & Ha).
    exists rec'. split; [exact Hrec'|].
    exact (positions_appended_incl _ _ Ha _ Hl).
  - exact (IH Hp _ H).
Qed.

Lemma position_holders_are_exported_witness :
  exists rec,
    find (KStr "P1") [(KStr "P1", Cases.ann_usher)] = Some rec /\
    In "Ushers" (position_ids rec).
Proof.
  apply (position_holders_are_exported
           (Sample.people_server [Sample.usher_one]) 2 Cases.ushers_only
           [] [(KStr "P1", Cases.ann_usher)] [Sample.usher_one]
           Sample.usher_one (VStr "P1") (KStr "P1")
           [{| pr_id := VStr "Ushers"; pr_name := VStr "Ushers";
               pr_department := VStr "Welcome" |}]
           {| pr_id := VStr "Ushers"; pr_name := VStr "Ushers";
              pr_department := VStr "Welcome" |}
           "Ushers");
    try reflexivity; now left.
Defined.

Lemma groups_kept_refl (r : export_record) : groups_kept r r.
Proof. apply incl_refl. Qed.

Lemma groups_kept_trans (r1 r2 r3 : export_record) :
  groups_kept r1 r2 -> groups_kept r2 r3 -> groups_kept r1 r3.
Proof. apply incl_tran. Qed.

Lemma add_group_listed (g : group_ref) (r : export_record) :
  In (gr_id g) (group_ids_of (add_group g r)) /\ groups_kept r (add_group g r).
Proof.
  unfold add_group, groups_kept, group_ids_of. cbn [er_groups].
  destruct (existsb _ _) eqn:E.
  - split; [|apply incl_refl].
    apply existsb_exists in E as (q & Hq & Heq).
    apply String.eqb_eq in Heq. rewrite <- Heq. now apply in_map.
  - rewrite map_app. split; [apply in_app_iff; right; now left|].
    now apply incl_appl.
Qed.

Lemma add_leader_keeps_groups (group_id : string) (group_name : value)
    (fp : people_map) (person : value) (fp' : people_map) :
  add_leader group_id group_name fp person = Ok fp' ->
  frame groups_kept fp fp'.
Proof.
  unfold add_leader. intros H.
  returned H i.
  destruct (negb (truthy i));
    [injection H as <-; apply frame_refl, groups_kept_refl|].
  returned H k. injection H as <-.
  apply (frame_trans groups_kept groups_kept_trans _
           (setdefault k (new_record i person) fp)).
  - apply frame_setdefault, groups_kept_refl.
  - apply frame_update; [apply groups_kept_refl | apply add_group_listed].
Qed.

Lemma fold_add_leader_keeps_groups (group_id : string) (group_name : value)
    (l : list value) (fp fp' : people_map) :
  foldM (add_leader group_id group_name) fp l = Ok fp' ->
  frame groups_kept fp fp'.
Proof.
  revert fp. induction l as [|x l IH]; intros fp H; cbn [foldM] in H.
  - injection H as <-. apply frame_refl, groups_kept_refl.
  - returned H fp1.
    exact (frame_trans groups_kept groups_kept_trans _ _ _
             (add_leader_keeps_groups _ _ _ _ _ Heqr) (IH _ H)).
Qed.

Lemma process_group_keeps_groups (request : FilterRequest) (fp : people_map)
    (group : value) :
  frame groups_kept fp (fst (process_group request fp group)).
Proof.
  unfold process_group.
  match goal with
  | |- context [match ?c with _ => _ end] =>
      destruct c as [[[[gid gname] leaders]|]|e]
  end;
    try (apply frame_refl, groups_kept_refl).
  apply for_each_frame; [apply groups_kept_refl | apply groups_kept_trans |].
  intros fp0 x. apply atomic_frame; [apply groups_kept_refl|].
  intros fp' H. exact (add_leader_keeps_groups _ _ _ _ _ H).
Qed.

Lemma add_leader_exports (group_id : string) (group_name : value)
    (fp fp' : people_map) (p i : value) (m : hkey) :
  add_leader group_id group_name fp p = Ok fp' ->
  py_get p "id" VNone = Ok i -> truthy i = true -> hash_key i = Ok m ->
  exists rec, find m fp' = Some rec /\ In group_id (group_ids_of rec).
Proof.
  unfold add_leader. intros H Hi Ht Hm.
  rewrite Hi in H. cbn [bind] in H. rewrite Ht in H. cbn [negb] in H.
  rewrite Hm in H. cbn [bind] in H. injection H as <-.
  rewrite find_update, key_eqb_refl, find_setdefault, key_eqb_refl.
  destruct (find m fp) as [r0|]; cbn [option_map]; eexists;
    (split; [reflexivity|]);
    exact (proj1 (add_group_listed
                    {| gr_id := group_id; gr_name := group_name;
                       gr_role := "Leader" |} _)).
Qed.

Lemma fold_add_leader_exports (group_id : string) (group_name : value)
    (ls : list value) (fp fp' : people_map) (p i : value) (m : hkey) :
  foldM (add_leader group_id group_name) fp ls = Ok fp' ->
  In p ls ->
  py_get p "id" VNone = Ok i -> truthy i = true -> hash_key i = Ok m ->
  exists rec, find m fp' = Some rec /\ In group_id (group_ids_of rec).
Proof.
  intros H Hp Hi Ht Hm. revert fp H.
  induction ls as [|q ls IH]; intros fp H; [destruct Hp|].
  cbn [foldM] in H. returned H fp1. destruct Hp as [-> | Hp].
  - destruct (add_leader_exports _ _ _ _ _ _ _ Heqr Hi Ht Hm) as (rec & Hrec & Hl).
    destruct (fold_add_leader_keeps_groups _ _ _ _ _ H _ _ Hrec)
      as (rec' & Hrec' & Hk).
    exists rec'. split; [exact Hrec' | exact (Hk _ Hl)].
  - exact (IH Hp _ H).
Qed.

Lemma process_group_exports (request : FilterRequest) (fp fp' : people_map)
    (g id : value) (ls : list value) (p i : value) (m : hkey) :
  process_group request fp g = (fp', None) ->
  py_get g "id" (VStr "") = Ok id ->
  In (py_str id) (group_ids request) ->
  group_has_excluded_category g (excluded_group_category_ids request)
  = Ok false ->
  get_leaders_from_group g = Ok ls -> In p ls ->
  py_get p "id" VNone = Ok i -> truthy i = true -> hash_key i = Ok m ->
  exists rec, find m fp' = Some rec /\ In (py_str id) (group_ids_of rec).
Proof.
  unfold process_group. intros H Hid Hreq Hex Hls Hp Hi Ht Hm.
  rewrite Hid in H. cbn [bind] in H.
  apply in_strs_In in Hreq. rewrite Hreq in H. cbn [negb] in H.
  rewrite Hex in H. cbn [bind] in H.
  destruct (py_get g "name" (VStr "Unknown Group")) as [name|];
    cbn [bind] in H; [|discriminate].
  rewrite Hls in H. cbn [bind] in H.
  apply for_each_atomic in H.
  exact (fold_add_leader_exports _ _ _ _ _ _ _ _ H Hp Hi Ht Hm).
Qed.

(** X10.  Group-leader mode is complete: when its [try] block ends without an
    exception, every leader with a truthy id of every group of the joined
    fetch that is requested and has no excluded category has a record in the
    result, and that record lists the group.  Nothing is asked of the leader
    beyond the id: group-leader mode does not run [should_include_person]. *)
Theorem leaders_of_requested_groups_are_exported (post : transport)
    (fuel : nat) (request : FilterRequest) (fp fp' : people_map)
    (gp gc groups : list value) (g id : value) (ls : list value)
    (p i : value) (m : hkey) :
  get_all_groups_with_people post fuel = Some (Ok gp) ->
  get_all_groups_with_categories post fuel = Some (Ok gc) ->
  merge_categories gp gc = Ok groups ->
  group_task post fuel request fp = Some (fp', None) ->
  In g groups ->
  py_get g "id" (VStr "") = Ok id ->
  In (py_str id) (group_ids request) ->
  group_has_excluded_category g (excluded_group_category_ids request)
  = Ok false ->
  get_leaders_from_group g = Ok ls -> In p ls ->
  py_get p "id" VNone = Ok i -> truthy i = true -> hash_key i = Ok m ->
  exists rec, find m fp' = Some rec /\ In (py_str id) (group_ids_of rec).
Proof.
  intros Hgp Hgc Hmerge H Hg Hid Hreq Hex Hls Hp Hi Ht Hm.
  unfold group_task in H. rewrite Hgp, Hgc, Hmerge in H. injection H as H.
  clear Hgp Hgc Hmerge. revert fp H.
  induction groups as [|q groups IH]; intros fp H; [destruct Hg|].
  cbn [for_each] in H.
  destruct (process_group request fp q) as [fp1 [e|]] eqn:Eq; [discriminate|].
  destruct Hg as [-> | Hg].
  - destruct (process_group_exports _ _ _ _ _ _ _ _ _ Eq Hid Hreq Hex Hls Hp
                Hi Ht Hm) as (rec & Hrec & Hl).
    pose proof (for_each_frame groups_kept groups_kept_refl groups_kept_trans
                  (process_group request) groups
                  (process_group_keeps_groups request) fp1) as Hf.
    rewrite H in Hf. destruct (Hf _ _ Hrec) as (rec' & Hrec' & Hk).
    exists rec'. split; [exact Hrec' | exact (Hk _ Hl)].
  - exact (IH Hg _ H).
Qed.

Lemma leaders_of_requested_groups_are_exported_witness :
  exists rec,
    find (KStr "P1") Sample.after_groups = Some rec /\
    In "G1" (group_ids_of rec).
Proof.
  apply (leaders_of_requested_groups_are_exported
           (Sample.group_server [Sample.g1 (VStr "Youth")]) 2
           (Sample.leaders_of ["G1"]) [] Sample.after_groups
           [Sample.g1 (VStr "Youth")] [Sample.g1 (VStr "Youth")]
           [Cases.g1_uncategorised] Cases.g1_uncategorised (VStr "G1")
           [VDict [("id", VStr "P1"); ("position", VStr "Leader")]]
           (VDict [("id", VStr "P1"); ("position", VStr "Leader")])
           (VStr "P1") (KStr "P1"));
    try reflexivity; now left.
Defined.

(** * The records of a response *)

Lemma keyed_nil : keyed [].
Proof. split; [constructor | intros k r []]. Qed.

Lemma keyed_setdefault (k : hkey) (i person : value) (fp : people_map) :
  hash_key i = Ok k -> truthy i = true -> keyed fp ->
  keyed (setdefault k (new_record i person) fp).
Proof.
  intros Hk Ht (Hn & Hr). split; [now apply keys_setdefault|].
  intros k' r' Hin. apply In_setdefault in Hin as [Hin | [-> ->]];
    [now apply Hr|].
  cbn [new_record er_id]. unfold group_ids_of, position_ids.
  cbn [new_record er_groups er_service_positions map].
  repeat split; try assumption; constructor.
Qed.

Lemma keyed_update (k : hkey) (f : export_record -> export_record)
    (fp : people_map) :
  (forall r, er_id (f r) = er_id r /\
             (NoDup (group_ids_of r) -> NoDup (group_ids_of (f r))) /\
             (NoDup (position_ids r) -> NoDup (position_ids (f r)))) ->
  keyed fp -> keyed (update k f fp).
Proof.
  intros Hf (Hn & Hr). split; [now rewrite keys_update|].
  intros k' r' Hin. apply In_update in Hin as (r & Hin & [-> | [-> ->]]);
    [now apply Hr|].
  destruct (Hr _ _ Hin) as (Hh & Ht & Hg & Hp).
  destruct (Hf r) as (-> & Hg' & Hp'). auto.
Qed.

Lemma add_group_NoDup (g : group_ref) (r : export_record) :
  NoDup (group_ids_of r) -> NoDup (group_ids_of (add_group g r)).
Proof.
  unfold add_group, group_ids_of. cbn [er_groups].
  destruct (existsb _ _) eqn:E; [tauto|].
  intros Hn. rewrite map_app. cbn [map].
  apply NoDup_app; [exact Hn | constructor; [intros [] | constructor] |].
  intros x Hx [<-|[]]. apply in_map_iff in Hx as (q & Hq & Hin).
  assert (existsb (fun g' => String.eqb (gr_id g') (gr_id g)) (er_groups r)
          = true); [|congruence].
  apply existsb_exists. exists q. split; [exact Hin|].
  rewrite Hq. apply String.eqb_refl.
Qed.

Lemma add_leader_keyed (group_id : string) (group_name : value)
    (fp : people_map) (person : value) (fp' : people_map) :
  add_leader group_id group_name fp person = Ok fp' -> keyed fp -> keyed fp'.
Proof.
  unfold add_leader. intros H Hk.
  returned H i. destruct (negb (truthy i)) eqn:Et; [now injection H as <-|].
  apply negb_false_iff in Et.
  returned H k. injection H as <-.
  apply keyed_update; [|now apply keyed_setdefault].
  intros r. split; [reflexivity|]. split; [apply add_group_NoDup | tauto].
Qed.

Lemma fold_update_keyed (k : hkey) (l : list service_position)
    (fp : people_map) :
  keyed fp ->
  keyed (fold_left (fun fp pos => update k (add_service_position pos) fp) l fp).
Proof.
  revert fp. induction l as [|x l IH]; intros fp Hk; cbn [fold_left];
    [exact Hk|].
  apply IH, keyed_update; [|exact Hk].
  intros r. split; [reflexivity|]. split; [tauto|].
  apply (add_service_position_appends x r).
Qed.

Lemma add_volunteer_keyed (request : FilterRequest) (fp : people_map)
    (person : value) (fp' : people_map) :
  add_volunteer request fp person = Ok fp' -> keyed fp -> keyed fp'.
Proof.
  unfold add_volunteer. intros H Hk.
  returned H i. destruct (negb (truthy i)) eqn:Et; [now injection H as <-|].
  apply negb_false_iff in Et.
  returned H refs.
  destruct (matched_positions (service_position_ids request) refs)
    as [|q matched]; [now injection H as <-|].
  returned H k. injection H as <-.
  apply (fold_update_keyed k (q :: matched)). now apply keyed_setdefault.
Qed.

Lemma for_each_inv {S A} (P : S -> Prop) (body : S -> A -> outcome S)
    (l : list A) :
  (forall s x, P s -> P (fst (body s x))) ->
  forall s, P s -> P (fst (for_each body s l)).
Proof.
  intros Hb. induction l as [|x l IH]; intros s Hs; cbn [for_each];
    [exact Hs|].
  specialize (Hb s x Hs). destruct (body s x) as [s1 [e|]]; cbn [fst] in *;
    [exact Hb | now apply IH].
Qed.

Lemma atomic_inv {S} (P : S -> Prop) (s : S) (c : res S) :
  P s -> (forall s', c = Ok s' -> P s') -> P (fst (atomic s c)).
Proof. intros Hs H. destruct c; cbn; auto. Qed.

Lemma process_group_keyed (request : FilterRequest) (fp : people_map)
    (group : value) :
  keyed fp -> keyed (fst (process_group request fp group)).
Proof.
  unfold process_group. intros Hk.
  match goal with
  | |- context [match ?c with _ => _ end] =>
      destruct c as [[[[gid gname] leaders]|]|e]
  end; try exact Hk.
  apply for_each_inv; [|exact Hk].
  intros s x Hs. apply atomic_inv; [exact Hs|].
  intros s' H. exact (add_leader_keyed _ _ _ _ _ H Hs).
Qed.

Lemma group_task_keyed (post : transport) (fuel : nat) (request : FilterRequest)
    (fp fp' : people_map) (e : option exn) :
  group_task post fuel request fp = Some (fp', e) -> keyed fp -> keyed fp'.
Proof.
  unfold group_task. intros H Hk.
  destruct (get_all_groups_with_people post fuel) as [[gp|]|]; try discriminate.
  2:{ now injection H as <- <-. }
  destruct (get_all_groups_with_categories post fuel) as [[gc|]|];
    try discriminate.
  2:{ now injection H as <- <-. }
  destruct (merge_categories gp gc) as [groups|].
  2:{ now injection H as <- <-. }
  injection H as H.
  pose proof (for_each_inv keyed (process_group request) groups
                (process_group_keyed request) fp Hk) as Hf.
  now rewrite H in Hf.
Qed.

Lemma service_task_keyed (post : transport) (fuel : nat)
    (request : FilterRequest) (fp fp' : people_map) (e : option exn) :
  service_task post fuel request fp = Some (fp', e) -> keyed fp -> keyed fp'.
Proof.
  unfold service_task. intros H Hk.
  destruct (get_all_people_with_departments post fuel true _) as [[ps|]|];
    try discriminate.
  2:{ now injection H as <- <-. }
  injection H as H.
  pose proof (for_each_inv keyed
                (fun fp person => atomic fp (add_volunteer request fp person)) ps)
    as Hf.
  specialize (Hf (fun s x Hs =>
                    atomic_inv keyed s _ Hs
                      (fun s' H1 => add_volunteer_keyed _ _ _ _ H1 Hs)) fp Hk).
  now rewrite H in Hf.
Qed.

Lemma NoDup_map_Ok {A} (l : list A) :
  NoDup l -> NoDup (map (@Ok A) l).
Proof.
  induction 1 as [|x l Hx Hn IH]; cbn [map]; constructor; [|exact IH].
  intros Hin. apply in_map_iff in Hin as (y & [= ->] & Hy). contradiction.
Qed.

(** X11.  A response of [filter_people] lists a person once: the ids of its
    records are truthy and pairwise distinct as dictionary keys, [count] is the
    number of records, and no record lists a group id or a service-position id
    twice, whichever modes ran and however they ended. *)
Theorem response_lists_each_person_once (post : transport) (fuel : nat)
    (request : FilterRequest) (response : FilterResponse) :
  filter_people post fuel request = Some response ->
  count response = List.length (people response) /\
  NoDup (map (fun r => hash_key (er_id r)) (people response)) /\
  forall r, In r (people response) ->
    truthy (er_id r) = true /\
    NoDup (group_ids_of r) /\ NoDup (position_ids r).
Proof.
  unfold filter_people. cbv zeta. intros H.
  assert (exists fp, keyed fp /\
            response = {| people := map snd fp;
                          count := List.length (map snd fp) |})
    as (fp & (Hn & Hr) & ->).
  { match type of H with
    | match ?c with _ => _ end = _ => destruct c as [fp1|] eqn:E1
    end; [|discriminate].
    assert (keyed fp1) as H1.
    { destruct (group_ids request); [injection E1 as <-; apply keyed_nil|].
      destruct (group_task post fuel request []) as [[fp e]|] eqn:Eg;
        [|discriminate].
      injection E1 as <-. exact (group_task_keyed _ _ _ _ _ _ Eg keyed_nil). }
    match type of H with
    | match ?c with _ => _ end = _ => destruct c as [fp2|] eqn:E2
    end; [|discriminate].
    assert (keyed fp2) as H2.
    { destruct (service_position_ids request); [now injection E2 as <-|].
      destruct (service_task post fuel request fp1) as [[fp e]|] eqn:Es;
        [|discriminate].
      injection E2 as <-. exact (service_task_keyed _ _ _ _ _ _ Es H1). }
    exists fp2. split; [exact H2 | now injection H as <-]. }
  cbn [people count]. split; [reflexivity|]. split.
  - rewrite map_map.
    rewrite (map_ext_in _ (fun kr => Ok (fst kr))); [|intros [k r] Hin; apply (Hr k r Hin)].
    rewrite <- map_map. now apply NoDup_map_Ok.
  - intros r Hin. apply in_map_iff in Hin as ([k r'] & <- & Hin).
    apply (Hr k r' Hin).
Qed.

Lemma response_lists_each_person_once_witness :
  NoDup (map (fun r => hash_key (er_id r)) [Sample.p1_leader (VStr "Youth")]).
Proof.
  apply (proj1 (proj2 (response_lists_each_person_once
                         (Sample.group_server [Sample.g1 (VStr "Youth")]) 2
                         (Sample.leaders_of ["G1"])
                         {| people := [Sample.p1_leader (VStr "Youth")];
                            count := 1 |}
                         eq_refl))).
Defined.

(** * Group categories: what is listed and what is excluded *)

Lemma note_category_ids (excluded : list string) (cats : list value)
    (acc : list value) :
  exists ids,
    foldM Endpoints.note_category_id acc cats = Ok (acc ++ ids) /\
    any_excluded excluded cats = Ok (any_id_in excluded ids).
Proof.
  revert acc. induction cats as [|cat cats IH]; intros acc.
  - exists []. split; [cbn; now rewrite app_nil_r | reflexivity].
  - cbn [foldM any_excluded]. unfold Endpoints.note_category_id at 1.
    destruct (is_dict cat) eqn:Ed.
    + destruct cat; try discriminate. cbn [py_get bind].
      destruct (truthy _) eqn:Et; cbn [andb bind].
      * destruct (IH (acc ++ [match lookup "id" d with
                              | Some x => x
                              | None => VNone
                              end])) as (ids & Hf & Ha).
        eexists (_ :: ids). rewrite <- app_assoc in Hf. split; [exact Hf|].
        unfold any_id_in in *. cbn [existsb].
        destruct (py_in_strs _ excluded); [reflexivity | exact Ha].
      * destruct (IH acc) as (ids & Hf & Ha). exists ids. now split.
    + cbn [bind]. destruct (IH acc) as (ids & Hf & Ha). exists ids. now split.
Qed.

Lemma any_id_in_nil (ids : list value) : any_id_in [] ids = false.
Proof. induction ids; [reflexivity | exact IHids]. Qed.

(** What the exclusion test answers, in terms of the ids the listing reads. *)
Lemma excluded_by_ids (g c : value) (ids : list value) (excluded : list string) :
  py_get g "categories" VNone = Ok c ->
  Endpoints.carried_category_ids g = Ok ids ->
  group_has_excluded_category g excluded
  = Ok (any_id_in excluded ids
        || (in_strs "__no_category__" excluded
            && negb (has_category_entries c))).
Proof.
  intros Hc Hi. unfold Endpoints.carried_category_ids in Hi.
  rewrite Hc in Hi. cbn [bind] in Hi.
  unfold group_has_excluded_category.
  destruct excluded as [|x excluded];
    [now rewrite any_id_in_nil|].
  remember (x :: excluded) as excl eqn:Hx. clear Hx x excluded.
  rewrite Hc. cbn [bind].
  destruct (truthy c) eqn:Et; cbn [negb] in *.
  - unfold category_list in *.
    destruct c as [| | | | l | d]; cbn [is_dict is_list py_get bind] in *.
    + discriminate.
    + cbn [has_category_entries]. rewrite Et. cbn [negb andb].
      injection Hi as <-. cbn [py_iter any_excluded bind].
      now destruct (in_strs _ excl).
    + cbn [has_category_entries]. rewrite Et. cbn [negb andb].
      injection Hi as <-. cbn [py_iter any_excluded bind].
      now destruct (in_strs _ excl).
    + cbn [has_category_entries]. rewrite Et. cbn [negb andb].
      injection Hi as <-. cbn [py_iter any_excluded bind].
      now destruct (in_strs _ excl).
    + cbn [has_category_entries]. rewrite Et. cbn [negb andb py_iter bind] in *.
      destruct (note_category_ids excl l []) as (ids' & Hf & Ha).
      rewrite Hi in Hf. injection Hf as ->. rewrite Ha. cbn [app].
      destruct (in_strs _ excl); cbn [bind]; now rewrite orb_false_r.
    + cbn [has_category_entries].
      destruct (py_iter (one_or_many _)) as [cats|] eqn:Ei in Hi;
        [|discriminate].
      cbn [bind] in Hi. rewrite Ei.
      destruct (note_category_ids excl cats []) as (ids' & Hf & Ha).
      rewrite Hi in Hf. injection Hf as ->. cbn [app bind]. rewrite Ha.
      destruct (truthy (one_or_many _)) eqn:Eo.
      * destruct (in_strs _ excl); cbn [negb andb bind];
          now rewrite orb_false_r.
      * assert (cats = []) as ->.
        { destruct (match lookup "category" d with
                    | Some x => x
                    | None => VList []
                    end) as [| | |s|l0|d0]; cbn in Ei, Eo; try discriminate.
          - destruct s; [now injection Ei as <- | discriminate].
          - destruct l0; [now injection Ei as <- | discriminate]. }
        cbn [foldM] in Hi. injection Hi as <-.
        destruct (in_strs _ excl); reflexivity.
  - injection Hi as <-.
    assert (has_category_entries c = false) as ->.
    { destruct c; try exact Et. now destruct d. }
    cbn [negb andb any_id_in existsb orb].
    destruct (in_strs _ excl); reflexivity.
Qed.

Lemma no_entries_no_ids (g c : value) (ids : list value) :
  py_get g "categories" VNone = Ok c ->
  Endpoints.carried_category_ids g = Ok ids ->
  has_category_entries c = false -> ids = [].
Proof.
  intros Hc Hi He. unfold Endpoints.carried_category_ids in Hi.
  rewrite Hc in Hi. cbn [bind] in Hi.
  destruct (truthy c) eqn:Et; [|now injection Hi as <-].
  destruct c as [| | | | l | d]; cbn [has_category_entries] in He;
    try congruence.
  unfold category_list in Hi. cbn [is_dict py_get bind] in Hi.
  destruct (match lookup "category" d with
            | Some x => x
            | None => VList []
            end) as [| | |s|l0|d0]; cbn in Hi, He; try discriminate.
  - destruct s; [now injection Hi as <- | discriminate].
  - destruct l0; [now injection Hi as <- | discriminate].
Qed.

Lemma sentinel_in (excluded : list string) :
  any_id_in excluded [VStr "__no_category__"]
  = in_strs "__no_category__" excluded.
Proof.
  unfold any_id_in, py_in_strs, in_strs. cbn [existsb py_eq_str].
  apply orb_false_r.
Qed.

(** X12.  The exclusion test of the filter agrees with the category ids the
    listing shows for a group, sentinel included, whenever the group has no
    category entry at all or carries at least one category id: the group is
    excluded exactly when one of its shown ids is in the exclusion list. *)
Theorem exclusion_agrees_with_listing (g c : value) (ids : list value)
    (excluded : list string) :
  py_get g "categories" VNone = Ok c ->
  Endpoints.carried_category_ids g = Ok ids ->
  has_category_entries c = false \/ ids <> [] ->
  exists shown,
    Endpoints.shown_category_ids g = Ok shown /\
    group_has_excluded_category g excluded = Ok (any_id_in excluded shown).
Proof.
  intros Hc Hi Hs. rewrite (excluded_by_ids g c ids excluded Hc Hi).
  unfold Endpoints.shown_category_ids. rewrite Hi. cbn [bind].
  destruct (has_category_entries c) eqn:He.
  - destruct Hs as [Hs | Hs]; [discriminate|].
    destruct ids as [|i ids]; [congruence|].
    eexists. split; [reflexivity|].
    cbn [negb]. now rewrite andb_false_r, orb_false_r.
  - rewrite (no_entries_no_ids g c ids Hc Hi He).
    eexists. split; [reflexivity|].
    rewrite sentinel_in. cbn [any_id_in existsb negb orb].
    now rewrite andb_true_r.
Qed.

Lemma exclusion_agrees_with_listing_witness :
  exists shown,
    Endpoints.shown_category_ids Cases.categorised_group = Ok shown /\
    group_has_excluded_category Cases.categorised_group ["c1"]
    = Ok (any_id_in ["c1"] shown).
Proof.
  apply (exclusion_agrees_with_listing Cases.categorised_group
           (VDict [("category",
                    VList [VDict [("id", VStr "c1"); ("name", VStr "Youth")]])])
           [VStr "c1"] ["c1"]).
  - reflexivity.
  - reflexivity.
  - right. discriminate.
Defined.

(** X13.  The two disagree on a group whose categories hold entries none of
    which carries an id (or are a truthy value that is neither a mapping nor a
    list): the listing shows it under the sentinel "__no_category__", and the
    filter never excludes it, the sentinel in the exclusion list or not. *)
Theorem entries_without_id_escape_the_sentinel (g c : value) :
  py_get g "categories" VNone = Ok c ->
  has_category_entries c = true ->
  Endpoints.carried_category_ids g = Ok [] ->
  Endpoints.shown_category_ids g = Ok [VStr "__no_category__"] /\
  forall excluded, group_has_excluded_category g excluded = Ok false.
Proof.
  intros Hc He Hi. split.
  - unfold Endpoints.shown_category_ids. now rewrite Hi.
  - intros excluded. rewrite (excluded_by_ids g c [] excluded Hc Hi), He.
    cbn [any_id_in existsb negb orb]. now rewrite andb_false_r.
Qed.

Lemma entries_without_id_escape_the_sentinel_witness :
  Endpoints.shown_category_ids Cases.unlabelled_group
  = Ok [VStr "__no_category__"] /\
  group_has_excluded_category Cases.unlabelled_group ["__no_category__"]
  = Ok false.
Proof.
  destruct (entries_without_id_escape_the_sentinel Cases.unlabelled_group
              (VList [VDict [("name", VStr "Kids")]])
              eq_refl eq_refl eq_refl) as (Hs & He).
  split; [exact Hs | exact (He ["__no_category__"])].
Defined.

(** * The listing of groups and service positions *)

Lemma truthy_get_default (g : value) (k : string) (v d : value) :
  py_get g k VNone = Ok v -> truthy v = true -> py_get g k d = Ok v.
Proof.
  destruct g; try discriminate. cbn [py_get].
  destruct (lookup k d0); [tauto|]. intros [= <-]. discriminate.
Qed.

Lemma format_group_items (groups : list value)
    (acc gl : list Endpoints.group_item) :
  foldM Endpoints.format_group acc groups = Ok gl ->
  forall item, In item gl ->
    In item acc \/
    (Endpoints.gi_category_ids item <> [] /\
     exists g id ls,
       In g groups /\ py_get g "id" VNone = Ok id /\ truthy id = true /\
       Endpoints.gi_id item = py_str id /\
       Endpoints.shown_category_ids g = Ok (Endpoints.gi_category_ids item) /\
       get_leaders_from_group g = Ok ls /\
       Endpoints.gi_member_count item = List.length ls).
Proof.
  revert acc. induction groups as [|g groups IH]; intros acc H item Hin;
    cbn [foldM] in H.
  - injection H as <-. now left.
  - returned H acc1. destruct (IH _ H item Hin) as [Ha | (Hc & g' & Hg)].
    + unfold Endpoints.format_group in Heqr.
      destruct (py_get g "id" VNone) as [id|] eqn:Eid; [|discriminate].
      cbn [bind] in Heqr.
      destruct (negb (truthy id)) eqn:Et; [injection Heqr as <-; now left|].
      apply negb_false_iff in Et.
      returned Heqr shown. returned Heqr ls.
      rewrite (truthy_get_default g "id" id (VStr "") Eid Et) in Heqr.
      cbn [bind] in Heqr. returned Heqr name. injection Heqr as <-.
      apply in_app_iff in Ha as [Ha | [<- | []]]; [now left|].
      right. cbn [Endpoints.gi_category_ids Endpoints.gi_id
                  Endpoints.gi_member_count].
      split.
      * unfold Endpoints.shown_category_ids in Heqr0.
        destruct (Endpoints.carried_category_ids g) as [[|c cs]|];
          cbn [bind] in Heqr0; try discriminate;
          injection Heqr0 as <-; discriminate.
      * exists g, id, ls. repeat split; try assumption. now left.
    + right. split; [exact Hc|].
      destruct Hg as (id & ls & Hg & Hrest).
      exists g', id, ls. split; [now right | exact Hrest].
Qed.

Lemma listed_positions_filled (post : transport) (fuel : nat)
    (positions : positions_map) (k : hkey) (e : position_entry) :
  Endpoints.listed_positions post fuel = Some positions ->
  In (k, e) positions -> entry_filled e /\ pe_id e = pe_name e.
Proof.
  unfold Endpoints.listed_positions. intros H Hin.
  destruct (get_all_people_with_departments post fuel false None)
    as [[ps|]|]; try discriminate.
  - destruct (extract_volunteer_positions_from_people ps) as [out|] eqn:E;
      injection H as <-; [|destruct Hin].
    exact (extracted_filled _ _ _ _ E Hin).
  - injection H as <-. destruct Hin.
Qed.

(** X14.  What the listing endpoint returns: the group items first, then the
    service-position items, with [count] the sum of the two counts.  Every
    group item comes from a listed group with a truthy id, has at least one
    category id (the sentinel if need be) and counts the leaders of the group,
    not its members; every service-position item has at least one member, a
    truthy name, and that name as its id. *)
Theorem listing_items_are_well_formed (post : transport) (fuel : nat)
    (l : Endpoints.listing) :
  Endpoints._get_groups_and_service_positions_impl post fuel = Some (Ok l) ->
  exists groups gs ps,
    Endpoints.listed_groups post fuel = Some groups /\
    Endpoints.items l
    = map Endpoints.GroupItem gs ++ map Endpoints.ServiceItem ps /\
    Endpoints.groups_count l = List.length gs /\
    Endpoints.positions_count l = List.length ps /\
    Endpoints.count l
    = (Endpoints.groups_count l + Endpoints.positions_count l)%nat /\
    (forall item, In item gs ->
       Endpoints.gi_category_ids item <> [] /\
       exists g id ls,
         In g groups /\ py_get g "id" VNone = Ok id /\ truthy id = true /\
         Endpoints.gi_id item = py_str id /\
         Endpoints.shown_category_ids g = Ok (Endpoints.gi_category_ids item) /\
         get_leaders_from_group g = Ok ls /\
         Endpoints.gi_member_count item = List.length ls) /\
    (forall p, In p ps ->
       (1 <= Endpoints.pi_member_count p)%nat /\
       truthy (Endpoints.pi_name p) = true /\
       Endpoints.pi_id p = py_str (Endpoints.pi_name p)).
Proof.
  unfold Endpoints._get_groups_and_service_positions_impl. intros H.
  destruct (Endpoints.listed_groups post fuel) as [groups|]; [|discriminate].
  destruct (Endpoints.listed_positions post fuel) as [positions|] eqn:Ep;
    [|discriminate].
  injection H as H. returned H gs. injection H as <-.
  exists groups, gs, (map Endpoints.format_position positions).
  cbn [Endpoints.items Endpoints.count Endpoints.groups_count
       Endpoints.positions_count].
  split; [reflexivity|]. split; [reflexivity|]. split; [reflexivity|].
  split; [reflexivity|].
  split; [now rewrite length_app, !length_map|]. split.
  - intros item Hin.
    destruct (format_group_items groups [] gs Heqr item Hin) as [[] | Hi].
    exact Hi.
  - intros p Hin. apply in_map_iff in Hin as ([k e] & <- & Hin).
    destruct (listed_positions_filled _ _ _ _ _ Ep Hin)
      as ((Ht & Hv & _) & Hid).
    unfold Endpoints.format_position.
    cbn [snd Endpoints.pi_member_count Endpoints.pi_name Endpoints.pi_id].
    split; [destruct (pe_volunteers e); [congruence | cbn; lia]|].
    split; [now rewrite <- Hid | now rewrite Hid].
Qed.

Lemma listing_items_are_well_formed_witness :
  exists groups gs ps,
    Endpoints.listed_groups Sample.both_servers 2 = Some groups /\
    Endpoints.items Cases.both_listing
    = map Endpoints.GroupItem gs ++ map Endpoints.ServiceItem ps /\
    Endpoints.groups_count Cases.both_listing = List.length gs /\
    Endpoints.positions_count Cases.both_listing = List.length ps.
Proof.
  destruct (listing_items_are_well_formed Sample.both_servers 2
              Cases.both_listing eq_refl)
    as (groups & gs & ps & Hg & Hi & Hgc & Hpc & _).
  exists groups, gs, ps. repeat split; assumption.
Defined.

(** X15.  The two fetches of the listing fail apart: when the group fetch
    raises (either request), the listing still answers, without group items;
    when the people fetch raises, a listing that answers has no
    service-position item.  A group that cannot be formatted after a
    successful fetch fails the whole listing. *)
Theorem listing_fetches_fail_apart (post : transport) (fuel : nat) :
  (forall e,
     get_all_groups_with_people post fuel = Some (Raise e) \/
     (exists gp, get_all_groups_with_people post fuel = Some (Ok gp) /\
                 get_all_groups_with_categories post fuel = Some (Raise e)) ->
     forall r,
       Endpoints._get_groups_and_service_positions_impl post fuel = Some r ->
       exists l, r = Ok l /\ Endpoints.groups_count l = 0%nat /\
                 Endpoints.count l = Endpoints.positions_count l) /\
  (forall e l,
     get_all_people_with_departments post fuel false None = Some (Raise e) ->
     Endpoints._get_groups_and_service_positions_impl post fuel = Some (Ok l) ->
     Endpoints.positions_count l = 0%nat /\
     Endpoints.count l = Endpoints.groups_count l) /\
  (forall groups positions e,
     Endpoints.listed_groups post fuel = Some groups ->
     Endpoints.listed_positions post fuel = Some positions ->
     foldM Endpoints.format_group [] groups = Raise e ->
     Endpoints._get_groups_and_service_positions_impl post fuel
     = Some (Raise e)).
Proof.
  split; [|split].
  - intros e He r H.
    unfold Endpoints._get_groups_and_service_positions_impl in H.
    assert (Endpoints.listed_groups post fuel = Some []) as Hg.
    { unfold Endpoints.listed_groups.
      destruct He as [-> | (gp & -> & ->)]; reflexivity. }
    rewrite Hg in H.
    destruct (Endpoints.listed_positions post fuel) as [positions|];
      [|discriminate].
    injection H as <-. cbn [foldM bind]. eexists. split; [reflexivity|].
    cbn [Endpoints.groups_count Endpoints.count Endpoints.positions_count
         map app List.length].
    split; [reflexivity | now rewrite !length_map].
  - intros e l He H.
    unfold Endpoints._get_groups_and_service_positions_impl in H.
    destruct (Endpoints.listed_groups post fuel) as [groups|]; [|discriminate].
    unfold Endpoints.listed_positions in H. rewrite He in H.
    injection H as H. returned H gs. injection H as <-.
    cbn [Endpoints.groups_count Endpoints.count Endpoints.positions_count
         map List.length].
    split; [reflexivity | now rewrite app_nil_r, length_map].
  - intros groups positions e Hg Hp Hf.
    unfold Endpoints._get_groups_and_service_positions_impl.
    now rewrite Hg, Hp, Hf.
Qed.

Lemma listing_fetches_fail_apart_witness :
  exists l,
    Endpoints._get_groups_and_service_positions_impl Sample.groups_down 2
    = Some (Ok l) /\
    Endpoints.groups_count l = 0%nat /\
    Endpoints.count l = Endpoints.positions_count l.
Proof.
  destruct (proj1 (listing_fetches_fail_apart Sample.groups_down 2)
              (Exception_ "Request failed: timeout")
              (or_introl eq_refl)
              (Ok {| Endpoints.items :=
                       [Endpoints.ServiceItem
                          {| Endpoints.pi_id := "Ushers";
                             Endpoints.pi_name := VStr "Ushers";
                             Endpoints.pi_department := VStr "Welcome";
                             Endpoints.pi_member_count := 1 |}];
                     Endpoints.count := 1;
                     Endpoints.groups_count := 0;
                     Endpoints.positions_count := 1 |})
              eq_refl) as (l & Hl & Hc).
  exists l. split; [now rewrite <- Hl | exact Hc].
Defined.

(** * The category endpoints *)

Lemma mapM_mappings (ds : list dict) :
  mapM Endpoints.category_item_of (map VDict ds) = Ok (map item_of_mapping ds).
Proof.
  induction ds as [|d ds IH]; [reflexivity|].
  cbn [map mapM]. rewrite IH. reflexivity.
Qed.

(** X16.  The people-categories endpoint answers with an empty list when the
    request fails, for whatever reason; when the response carries a list of
    mappings it answers with one item per mapping, in order, a missing id read
    as the empty string and a missing name as "Unknown"; a single mapping
    counts as a list of one. *)
Theorem categories_endpoint_swallows_request_errors (post : transport) :
  (forall e,
     ElvantoClient._make_request post "people/categories/getAll" (VDict [])
     = Raise e ->
     Endpoints.get_categories post = Ok []) /\
  (forall result data ds,
     ElvantoClient._make_request post "people/categories/getAll" (VDict [])
     = Ok result ->
     py_get result "categories" (VDict []) = Ok data ->
     py_get data "category" (VList []) = Ok (VList (map VDict ds)) ->
     Endpoints.get_categories post = Ok (map item_of_mapping ds)) /\
  (forall result data d,
     ElvantoClient._make_request post "people/categories/getAll" (VDict [])
     = Ok result ->
     py_get result "categories" (VDict []) = Ok data ->
     py_get data "category" (VList []) = Ok (VDict d) ->
     Endpoints.get_categories post = Ok [item_of_mapping d]).
Proof.
  unfold Endpoints.get_categories, ClientLists.get_all_categories,
    ClientLists.fetch_categories.
  split; [|split].
  - intros e ->. reflexivity.
  - intros result data ds -> Hd Hc. cbn [bind]. rewrite Hd. cbn [bind].
    rewrite Hc. cbn [bind one_or_many is_dict py_iter]. apply mapM_mappings.
  - intros result data d -> Hd Hc. cbn [bind]. rewrite Hd. cbn [bind].
    rewrite Hc. cbn [bind one_or_many is_dict py_iter].
    apply (mapM_mappings [d]).
Qed.

Lemma categories_endpoint_swallows_request_errors_witness :
  Endpoints.get_categories (Cases.always (TransportError "timeout")) = Ok [].
Proof.
  apply (proj1 (categories_endpoint_swallows_request_errors
                  (Cases.always (TransportError "timeout")))
           (Exception_ "Request failed: timeout")).
  reflexivity.
Defined.

Lemma set_name_keyed (key : hkey) (cat_id cat_name : value)
    (categories_dict : list (hkey * Endpoints.category_item)) :
  hash_key cat_id = Ok key -> truthy cat_id = true -> truthy cat_name = true ->
  categories_keyed categories_dict ->
  categories_keyed (Endpoints.set_name key cat_id cat_name categories_dict).
Proof.
  intros Hk Hi Hn (Hd & Hc). unfold Endpoints.set_name. split.
  - rewrite keys_update. now apply keys_setdefault.
  - intros k c Hin. apply In_update in Hin as (c0 & Hin & Hc0).
    assert (hash_key (Endpoints.ci_id c0) = Ok k /\
            truthy (Endpoints.ci_id c0) = true /\
            truthy (Endpoints.ci_name c0) = true) as (H1 & H2 & H3).
    { apply In_setdefault in Hin as [Hin | [-> ->]]; [now apply Hc|].
      cbn [Endpoints.ci_id Endpoints.ci_name]. auto. }
    destruct Hc0 as [-> | [-> ->]]; [auto|].
    cbn [Endpoints.ci_id Endpoints.ci_name]. auto.
Qed.

Lemma note_category_keyed (categories_dict dict' : list (hkey * Endpoints.category_item))
    (cat : value) :
  Endpoints.note_category categories_dict cat = Ok dict' ->
  categories_keyed categories_dict -> categories_keyed dict'.
Proof.
  unfold Endpoints.note_category. intros H Hk.
  destruct (is_dict cat); [|now injection H as <-].
  returned H cat_id. returned H cat_name.
  destruct (truthy cat_id && truthy cat_name) eqn:Et; [|now injection H as <-].
  apply andb_true_iff in Et as (Hi & Hn).
  returned H key. injection H as <-. now apply set_name_keyed.
Qed.

Lemma fold_note_category_keyed (cats : list value)
    (categories_dict dict' : list (hkey * Endpoints.category_item)) :
  foldM Endpoints.note_category categories_dict cats = Ok dict' ->
  categories_keyed categories_dict -> categories_keyed dict'.
Proof.
  revert categories_dict. induction cats as [|cat cats IH];
    intros categories_dict H Hk; cbn [foldM] in H.
  - now injection H as <-.
  - returned H d1. apply (IH d1 H). exact (note_category_keyed _ _ _ Heqr Hk).
Qed.

Lemma note_group_keyed (state state' : list (hkey * Endpoints.category_item) * nat)
    (group : value) :
  Endpoints.note_group state group = Ok state' ->
  categories_keyed (fst state) ->
  categories_keyed (fst state') /\
  snd state' = (snd state + if lacks_categories group then 1 else 0)%nat.
Proof.
  unfold Endpoints.note_group, lacks_categories. destruct state as [d n].
  intros H Hk. cbn [fst snd] in *.
  returned H categories.
  destruct (truthy categories) eqn:Et; cbn [negb].
  - rewrite Nat.add_0_r.
    destruct (is_dict categories).
    + returned H cat_list. returned H cats. returned H d1. injection H as <-.
      split; [|reflexivity]. exact (fold_note_category_keyed _ _ _ Heqr2 Hk).
    + destruct (is_list categories).
      * returned H cats. returned H d1. injection H as <-.
        split; [|reflexivity]. exact (fold_note_category_keyed _ _ _ Heqr1 Hk).
      * destruct (is_str categories); injection H as <-; now split.
  - injection H as <-. split; [exact Hk | cbn [snd]; lia].
Qed.

Lemma fold_note_group_keyed (groups : list value)
    (state state' : list (hkey * Endpoints.category_item) * nat) :
  foldM Endpoints.note_group state groups = Ok state' ->
  categories_keyed (fst state) ->
  categories_keyed (fst state') /\
  (0 <? snd state')%nat
  = (0 <? snd state)%nat || existsb lacks_categories groups.
Proof.
  revert state. induction groups as [|g groups IH]; intros state H Hk;
    cbn [foldM] in H.
  - injection H as <-. split; [exact Hk | cbn; now rewrite orb_false_r].
  - returned H s1. destruct (note_group_keyed _ _ _ Heqr Hk) as (Hk1 & Hn1).
    destruct (IH _ H Hk1) as (Hk' & Hn'). split; [exact Hk'|].
    rewrite Hn', Hn1. cbn [existsb].
    destruct (lacks_categories g); cbn [orb].
    + replace (0 <? snd state + 1)%nat with true
        by (symmetry; apply Nat.ltb_lt; lia).
      now rewrite orb_true_r.
    + now rewrite Nat.add_0_r.
Qed.

Lemma insert_by_name_permutes (c : Endpoints.category_item)
    (l l' : list Endpoints.category_item) :
  Cases.insert_by_name c l = Ok l' -> Permutation.Permutation (c :: l) l'.
Proof.
  revert l'. induction l as [|x l IH]; intros l' H; cbn [Cases.insert_by_name] in H.
  - injection H as <-. apply Permutation.Permutation_refl.
  - returned H b. destruct b.
    + returned H r. injection H as <-.
      apply (Permutation.perm_trans (Permutation.perm_swap x c l)).
      apply Permutation.perm_skip. now apply IH.
    + injection H as <-. apply Permutation.Permutation_refl.
Qed.

Lemma sorted_strings_permutes (xs ys : list Endpoints.category_item) :
  Cases.sorted_strings xs = Ok ys -> Permutation.Permutation xs ys.
Proof.
  unfold Cases.sorted_strings.
  assert (forall acc out,
            foldM (fun acc c => Cases.insert_by_name c acc) acc xs = Ok out ->
            Permutation.Permutation (acc ++ xs) out) as Hgen.
  { induction xs as [|x xs IH]; intros acc out H; cbn [foldM] in H.
    - injection H as <-. rewrite app_nil_r. apply Permutation.Permutation_refl.
    - returned H acc1. apply IH in H.
      apply (Permutation.perm_trans
               (Permutation.Permutation_sym
                  (Permutation.Permutation_middle acc xs x))).
      apply (Permutation.perm_trans
               (Permutation.Permutation_app_tail xs
                  (insert_by_name_permutes _ _ _ Heqr))).
      exact H. }
  apply (Hgen []).
Qed.

(** X17.  The group-categories endpoint, for any sort that returns its input
    rearranged: the answer is the sentinel item "No Category", present exactly
    when some fetched group has no (or a falsy) [categories], followed by
    category items whose ids and names are truthy and whose ids are pairwise
    distinct as dictionary keys. *)
Theorem group_categories_are_listed_once
    (sorted_by_name : list Endpoints.category_item ->
                      res (list Endpoints.category_item))
    (post : transport) (fuel : nat) (groups : list value)
    (l : list Endpoints.category_item) :
  (forall xs ys, sorted_by_name xs = Ok ys ->
                 Permutation.Permutation xs ys) ->
  get_all_groups_with_categories post fuel = Some (Ok groups) ->
  Endpoints.get_group_categories sorted_by_name post fuel = Some (Ok l) ->
  exists rest,
    l = (if existsb lacks_categories groups
         then [Endpoints.no_category] else []) ++ rest /\
    NoDup (map (fun c => hash_key (Endpoints.ci_id c)) rest) /\
    forall c, In c rest ->
      truthy (Endpoints.ci_id c) = true /\ truthy (Endpoints.ci_name c) = true.
Proof.
  intros Hs Hg H. unfold Endpoints.get_group_categories in H.
  rewrite Hg in H. injection H as H.
  returned H state. returned H rest. injection H as <-.
  destruct (fold_note_group_keyed groups ([], 0%nat) state Heqr)
    as ((Hd & Hc) & Hn).
  { split; [constructor | intros k c []]. }
  change (0 <? snd ([] : list (hkey * Endpoints.category_item), 0))%nat
    with false in Hn.
  cbn [orb] in Hn. rewrite Hn.
  exists rest. split; [now destruct (existsb lacks_categories groups)|].
  pose proof (Hs _ _ Heqr0) as Hp. split.
  - apply (Permutation.Permutation_NoDup
             (Permutation.Permutation_map _ Hp)).
    rewrite map_map.
    rewrite (map_ext_in _ (fun kc => Ok (fst kc)));
      [|intros [k c] Hin; apply (Hc k c Hin)].
    rewrite <- map_map. now apply NoDup_map_Ok.
  - intros c Hin.
    apply (Permutation.Permutation_in _ (Permutation.Permutation_sym Hp)) in Hin.
    apply in_map_iff in Hin as ([k c'] & <- & Hin).
    apply (Hc k c' Hin).
Qed.

Lemma group_categories_are_listed_once_witness :
  exists rest,
    [Endpoints.no_category;
     {| Endpoints.ci_id := VStr "c1"; Endpoints.ci_name := VStr "Youth" |}]
    = (if existsb lacks_categories [Cases.categorised_group; Cases.bare_group]
       then [Endpoints.no_category] else []) ++ rest /\
    NoDup (map (fun c => hash_key (Endpoints.ci_id c)) rest).
Proof.
  destruct (group_categories_are_listed_once Cases.sorted_strings
              (Sample.group_server [Cases.categorised_group; Cases.bare_group])
              2 [Cases.categorised_group; Cases.bare_group]
              [Endpoints.no_category;
               {| Endpoints.ci_id := VStr "c1";
                  Endpoints.ci_name := VStr "Youth" |}]
              sorted_strings_permutes eq_refl eq_refl)
    as (rest & Hl & Hn & _).
  exists rest. split; assumption.
Defined.

(** * The archived marker *)

Lemma uint_not_true (d : Decimal.uint) :
  d <> Decimal.Nil ->
  String.eqb (lower (NilEmpty.string_of_uint d)) "true" = false.
Proof. destruct d; [congruence | reflexivity ..]. Qed.

Lemma str_of_Z_not_true (z : Z) :
  String.eqb (lower (str_of_Z z)) "true" = false.
Proof.
  unfold str_of_Z. destruct z as [|p|p]; [reflexivity| |];
    cbn [Z.to_int NilZero.string_of_int];
    pose proof (DecimalPos.Unsigned.to_uint_nonnil p) as Hn.
  - replace (NilZero.string_of_uint (Pos.to_uint p))
      with (NilEmpty.string_of_uint (Pos.to_uint p))
      by (destruct (Pos.to_uint p); [congruence | reflexivity ..]).
    now apply uint_not_true.
  - reflexivity.
Qed.

(** The test on the [archived] field. *)
Lemma archived_test (a : value) :
  py_eq_int a 1 || py_eq_str a "1" || String.eqb (lower (py_str a)) "true"
  = true <->
  archived_signal a \/ a = VBool true.
Proof.
  unfold archived_signal. split.
  - intros H. destruct a as [|b|z|s|l|d]; cbn [py_eq_int py_eq_str py_str] in H.
    + discriminate.
    + destruct b; [now right | discriminate].
    + rewrite orb_false_r in H. cbn [py_repr] in H.
      rewrite str_of_Z_not_true, orb_false_r in H.
      apply Z.eqb_eq in H. subst. left. now left.
    + cbn [orb] in H. apply orb_true_iff in H as [H | H];
        apply String.eqb_eq in H; left; right;
        [left; now subst | right; eauto].
    + discriminate.
    + discriminate.
  - intros [[-> | [-> | (s & -> & Hs)]] | ->]; try reflexivity.
    cbn [py_eq_int py_eq_str py_str orb]. rewrite Hs.
    now rewrite orb_true_r.
Qed.

(** * From a response to the rows of the sheet *)

Lemma mapM_group_labels (gs : list group_ref) :
  mapM Main.group_label (map group_json gs)
  = Ok (map (fun g => VStr (py_str (gr_name g) ++ " (" ++ gr_role g ++ ")")%string)
            gs).
Proof.
  induction gs as [|g gs IH]; [reflexivity|].
  cbn [map mapM]. rewrite IH. reflexivity.
Qed.

Lemma mapM_position_names (ps : list service_position) :
  mapM (fun sp => py_get sp "name" (VStr "Unknown"))
       (map service_position_json ps)
  = Ok (map (fun p => VStr (sp_name p)) ps).
Proof.
  induction ps as [|p ps IH]; [reflexivity|].
  cbn [map mapM]. rewrite IH. reflexivity.
Qed.

Lemma join_strings (sep : string) (l : list string) :
  Main.join sep (map VStr l) = Ok (String.concat sep l).
Proof.
  unfold Main.join.
  assert (mapM (fun v => match v with VStr s => Ok s | _ => Raise TypeError end)
               (map VStr l) = Ok l) as ->; [|reflexivity].
  induction l as [|x l IH]; [reflexivity|].
  cbn [map mapM bind]. now rewrite IH.
Qed.

Lemma export_row_record (r : export_record) :
  Main.export_row (record_json r) = Ok (record_row r).
Proof.
  unfold Main.export_row, record_json, record_row.
  cbv [py_get]. cbn [bind].
  repeat (rewrite lookup_here || (rewrite lookup_skip by reflexivity)).
  cbn [bind py_iter].
  rewrite mapM_group_labels. cbn [bind].
  rewrite <- (map_map (fun g => (py_str (gr_name g) ++ " (" ++ gr_role g ++ ")")%string)
                      VStr).
  rewrite join_strings. cbn [bind py_iter].
  rewrite mapM_position_names. cbn [bind].
  rewrite <- (map_map sp_name VStr), join_strings. reflexivity.
Qed.

Section Workbook.
Variable append : Main.sheet -> list value -> option string.
Variable save : Main.sheet -> option string.

(** Records never stop the loop: only the workbook can. *)
Lemma fill_records_no_server_error (rs : list export_record) (ws : Main.sheet)
    (e : exn) :
  Main.fill append save ws (map record_json rs) <> Main.ServerError e.
Proof.
  revert ws. induction rs as [|r rs IH]; intros ws; cbn [map Main.fill].
  - destruct (save ws); discriminate.
  - rewrite export_row_record.
    destruct (append ws (record_row r)); [discriminate | apply IH].
Qed.

Lemma fill_records_taken (rs : list export_record) (ws : Main.sheet) :
  (forall before row after,
     map record_row rs = before ++ row :: after ->
     append (ws ++ before) row = None) ->
  Main.fill append save ws (map record_json rs)
  = match save (ws ++ map record_row rs) with
    | Some msg => Main.WorkbookError msg
    | None => Main.Download (ws ++ map record_row rs)
    end.
Proof.
  revert ws. induction rs as [|r rs IH]; intros ws H; cbn [map Main.fill].
  - now rewrite app_nil_r.
  - rewrite export_row_record.
    pose proof (H [] (record_row r) (map record_row rs) eq_refl) as H0.
    rewrite app_nil_r in H0. rewrite H0.
    rewrite IH.
    + now rewrite <- app_assoc.
    + intros before row after E. rewrite <- app_assoc.
      apply (H (record_row r :: before) row after).
      cbn [map app]. now rewrite E.
Qed.

Lemma fill_records_refused (rs : list export_record) (ws : Main.sheet)
    (before : Main.sheet) (row : list value) (after : Main.sheet)
    (msg : string) :
  map record_row rs = before ++ row :: after ->
  (forall b r a, before = b ++ r :: a -> append (ws ++ b) r = None) ->
  append (ws ++ before) row = Some msg ->
  Main.fill append save ws (map record_json rs) = Main.WorkbookError msg.
Proof.
  revert ws before. induction rs as [|r rs IH]; intros ws before E Hb Hr.
  - destruct before; discriminate E.
  - cbn [map Main.fill]. rewrite export_row_record.
    destruct before as [|x before]; cbn [map app] in E; injection E as Ex E.
    + subst row. rewrite app_nil_r in Hr. now rewrite Hr.
    + subst x.
      pose proof (Hb [] (record_row r) before eq_refl) as H0.
      rewrite app_nil_r in H0. rewrite H0.
      apply (IH (ws ++ [record_row r]) before E).
      * intros b x a Eb. rewrite <- app_assoc.
        apply (Hb (record_row r :: b) x a). cbn [app]. now rewrite Eb.
      * now rewrite <- app_assoc.
Qed.
End Workbook.

(** X19.  The export of a filter response, given as JSON, depends on the
    workbook alone: formatting a record never raises.  The rows handed to the
    sheet are the header row and then one row per record, in order, with the
    names and email as they are, the groups as "name (role)" joined by "; "
    and the service positions as their names joined by "; ".  If the sheet
    takes them all, the answer is the download of these rows, or the error of
    [wb.save]; if it refuses one, the answer is the error of the first row it
    refuses. *)
Theorem export_rows_of_a_response
    (append : Main.sheet -> list value -> option string)
    (save : Main.sheet -> option string) (response : FilterResponse) :
  let rows := Main.headers :: map record_row (people response) in
  (forall e,
     Main.export_to_xlsx append save (response_json response)
     <> Main.ServerError e) /\
  ((forall before row after,
      rows = before ++ row :: after -> append before row = None) ->
   Main.export_to_xlsx append save (response_json response)
   = match save rows with
     | Some msg => Main.WorkbookError msg
     | None => Main.Download rows
     end) /\
  (forall before row after msg,
     rows = before ++ row :: after ->
     (forall b r a, before = b ++ r :: a -> append b r = None) ->
     append before row = Some msg ->
     Main.export_to_xlsx append save (response_json response)
     = Main.WorkbookError msg).
Proof.
  cbv zeta.
  assert (Main.export_to_xlsx append save (response_json response)
          = match append [] Main.headers with
            | Some msg => Main.WorkbookError msg
            | None => Main.fill append save [Main.headers]
                        (map record_json (people response))
            end) as ->.
  { unfold Main.export_to_xlsx, response_json. cbv [py_get].
    rewrite lookup_here. reflexivity. }
  split; [|split].
  - intros e. destruct (append [] Main.headers); [discriminate|].
    apply fill_records_no_server_error.
  - intros H. rewrite (H [] Main.headers _ eq_refl).
    apply (fill_records_taken append save (people response) [Main.headers]).
    intros before row after E.
    apply (H (Main.headers :: before) row after). cbn [app]. now rewrite E.
  - intros before row after msg E Hb Hr.
    destruct before as [|x before]; cbn [app] in E; injection E as Ex E.
    + subst row. now rewrite Hr.
    + subst x. rewrite (Hb [] Main.headers before eq_refl).
      apply (fill_records_refused append save (people response)
               [Main.headers] before row after msg E).
      * intros b r a Eb. apply (Hb (Main.headers :: b) r a).
        cbn [app]. now rewrite Eb.
      * exact Hr.
Qed.

Lemma export_rows_of_a_response_witness :
  Main.export_to_xlsx Cases.takes_all Cases.saves
    (response_json Cases.ann_alone)
  = Main.Download
      [Main.headers;
       [VStr "Ann"; VStr ""; VStr ""; VStr ""; VStr ""; VStr "Ushers"]].
Proof.
  apply (proj1 (proj2 (export_rows_of_a_response Cases.takes_all Cases.saves
                         Cases.ann_alone))).
  intros before row after _. reflexivity.
Defined.

(** * Where an exported service position comes from *)

Section PositionsSound.
Variable post : transport.
Variable fuel : nat.
Variable request : FilterRequest.

Lemma positions_sound_setdefault (k : hkey) (i person : value)
    (fp : people_map) :
  positions_sound post fuel request fp ->
  positions_sound post fuel request (setdefault k (new_record i person) fp).
Proof.
  intros Hs k' r' Hin sp Hsp.
  apply In_setdefault in Hin as [Hin | [-> ->]]; [exact (Hs _ _ Hin _ Hsp)|].
  destruct Hsp.
Qed.

Lemma positions_sound_update (k : hkey) (f : export_record -> export_record)
    (fp : people_map) :
  (forall r sp, In sp (er_service_positions (f r)) ->
                In sp (er_service_positions r) \/
                position_from post fuel request k sp) ->
  positions_sound post fuel request fp ->
  positions_sound post fuel request (update k f fp).
Proof.
  intros Hf Hs k' r' Hin sp Hsp.
  apply In_update in Hin as (r & Hin & [-> | [-> ->]]);
    [exact (Hs _ _ Hin _ Hsp)|].
  destruct (Hf _ _ Hsp) as [H | H]; [exact (Hs _ _ Hin _ H) | exact H].
Qed.

Lemma add_leader_positions_sound (group_id : string) (group_name : value)
    (fp : people_map) (person : value) (fp' : people_map) :
  add_leader group_id group_name fp person = Ok fp' ->
  positions_sound post fuel request fp -> positions_sound post fuel request fp'.
Proof.
  unfold add_leader. intros H Hs.
  returned H i. destruct (negb (truthy i)); [now injection H as <-|].
  returned H k. injection H as <-.
  apply positions_sound_update; [|now apply positions_sound_setdefault].
  intros r sp Hsp. now left.
Qed.

Lemma process_group_positions_sound (fp : people_map) (group : value) :
  positions_sound post fuel request fp ->
  positions_sound post fuel request (fst (process_group request fp group)).
Proof.
  unfold process_group. intros Hs.
  match goal with
  | |- context [match ?c with _ => _ end] =>
      destruct c as [[[[gid gname] leaders]|]|e]
  end; try exact Hs.
  apply for_each_inv; [|exact Hs].
  intros s x Hx. apply atomic_inv; [exact Hx|].
  intros s' H. exact (add_leader_positions_sound _ _ _ _ _ H Hx).
Qed.

Lemma group_task_positions_sound (fp fp' : people_map) (e : option exn) :
  group_task post fuel request fp = Some (fp', e) ->
  positions_sound post fuel request fp -> positions_sound post fuel request fp'.
Proof.
  unfold group_task. intros H Hs.
  destruct (get_all_groups_with_people post fuel) as [[gp|]|]; try discriminate.
  2:{ now injection H as <- <-. }
  destruct (get_all_groups_with_categories post fuel) as [[gc|]|];
    try discriminate.
  2:{ now injection H as <- <-. }
  destruct (merge_categories gp gc) as [groups|].
  2:{ now injection H as <- <-. }
  injection H as H.
  pose proof (for_each_inv (positions_sound post fuel request)
                (process_group request) groups
                process_group_positions_sound fp Hs) as Hf.
  now rewrite H in Hf.
Qed.

Lemma matched_positions_sound (ids : list string) (refs : list position_ref)
    (sp : service_position) :
  In sp (matched_positions ids refs) ->
  In (sp_id sp) ids /\ sp_name sp = sp_id sp /\
  exists ref, In ref refs /\ pr_id ref = VStr (sp_id sp) /\
              sp_department sp = pr_department ref.
Proof.
  induction refs as [|q refs IH]; cbn [matched_positions]; [intros []|].
  intros H.
  assert (In sp (matched_positions ids refs) ->
          In (sp_id sp) ids /\ sp_name sp = sp_id sp /\
          exists ref, In ref (q :: refs) /\ pr_id ref = VStr (sp_id sp) /\
                      sp_department sp = pr_department ref) as Hrest.
  { intros H0. destruct (IH H0) as (H1 & H2 & ref & H3 & H4).
    repeat split; try assumption. exists ref. split; [now right | exact H4]. }
  destruct (pr_id q) as [| | |s| |] eqn:Eq; try exact (Hrest H).
  destruct (in_strs s ids) eqn:Es; [|exact (Hrest H)].
  destruct H as [<- | H]; [|exact (Hrest H)].
  cbn [sp_id sp_name sp_department]. apply in_strs_In in Es.
  repeat split; try assumption. exists q. split; [now left | now split].
Qed.

Lemma add_service_position_In (p sp : service_position) (r : export_record) :
  In sp (er_service_positions (add_service_position p r)) ->
  In sp (er_service_positions r) \/ sp = p.
Proof.
  unfold add_service_position. cbn [er_service_positions].
  destruct (existsb _ _); [now left|].
  intros H. apply in_app_iff in H as [H | [<- | []]]; [now left | now right].
Qed.

Lemma fold_update_positions_sound (k : hkey) (l : list service_position)
    (fp : people_map) :
  (forall sp, In sp l -> position_from post fuel request k sp) ->
  positions_sound post fuel request fp ->
  positions_sound post fuel request
    (fold_left (fun fp pos => update k (add_service_position pos) fp) l fp).
Proof.
  revert fp. induction l as [|x l IH]; intros fp Hl Hs; cbn [fold_left];
    [exact Hs|].
  apply IH; [intros sp Hsp; apply Hl; now right|].
  apply positions_sound_update; [|exact Hs].
  intros r sp Hsp. apply add_service_position_In in Hsp as [H | ->];
    [now left | right; apply Hl; now left].
Qed.

Lemma add_volunteer_positions_sound (fetched : list value) (fp : people_map)
    (person : value) (fp' : people_map) :
  get_all_people_with_departments post fuel true
    (Some (excluded_category_ids request)) = Some (Ok fetched) ->
  In person fetched ->
  add_volunteer request fp person = Ok fp' ->
  positions_sound post fuel request fp -> positions_sound post fuel request fp'.
Proof.
  unfold add_volunteer. intros Hf Hin H Hs.
  returned H i. destruct (negb (truthy i)) eqn:Et; [now injection H as <-|].
  apply negb_false_iff in Et.
  returned H refs.
  destruct (matched_positions (service_position_ids request) refs)
    as [|q matched] eqn:Em; [now injection H as <-|].
  returned H k. injection H as <-.
  apply (fold_update_positions_sound k (q :: matched));
    [|now apply positions_sound_setdefault].
  intros sp Hsp. rewrite <- Em in Hsp.
  destruct (matched_positions_sound _ _ _ Hsp) as (H1 & H2 & ref & H3 & H4 & H5).
  split; [exact H1|]. split; [exact H2|].
  exists fetched, person, i, refs, ref. repeat split; try assumption.
  pose proof (fetch_loop_keeps post _ _ _ _ _ _ _ _ _ Hf (Forall_nil _)) as Hk.
  rewrite Forall_forall in Hk. exact (Hk _ Hin).
Qed.

Lemma for_each_inv_in {S A} (P : S -> Prop) (body : S -> A -> outcome S)
    (l : list A) :
  (forall s x, In x l -> P s -> P (fst (body s x))) ->
  forall s, P s -> P (fst (for_each body s l)).
Proof.
  induction l as [|x l IH]; intros Hb s Hs; cbn [for_each]; [exact Hs|].
  pose proof (Hb s x (or_introl eq_refl) Hs) as Hx.
  destruct (body s x) as [s1 [e|]]; cbn [fst] in *; [exact Hx|].
  apply IH; [|exact Hx]. intros s0 y Hy. apply Hb. now right.
Qed.

Lemma service_task_positions_sound (fp fp' : people_map) (e : option exn) :
  service_task post fuel request fp = Some (fp', e) ->
  positions_sound post fuel request fp -> positions_sound post fuel request fp'.
Proof.
  unfold service_task. intros H Hs.
  destruct (get_all_people_with_departments post fuel true _)
    as [[ps|]|] eqn:Ef; try discriminate.
  2:{ now injection H as <- <-. }
  injection H as H.
  pose proof (for_each_inv_in (positions_sound post fuel request)
                (fun fp person => atomic fp (add_volunteer request fp person)) ps)
    as Hf.
  specialize (Hf (fun s x Hx Hp =>
                    atomic_inv _ s _ Hp
                      (fun s' H1 =>
                         add_volunteer_positions_sound ps _ _ _ Ef Hx H1 Hp))
                 fp Hs).
  now rewrite H in Hf.
Qed.
End PositionsSound.

(** X20.  Service positions are exported for a reason: every service position
    of every record of a response is one of the requested ids, carries that id
    as its name, and was found under a sub-department of that name in the walk
    of a person of the adults-only fetch who passed [should_include_person]
    and whose id is the record's id as a dictionary key; its department is the
    one of that walk. *)
Theorem exported_positions_are_held (post : transport) (fuel : nat)
    (request : FilterRequest) (response : FilterResponse) :
  filter_people post fuel request = Some response ->
  forall r sp, In r (people response) -> In sp (er_service_positions r) ->
    exists k, hash_key (er_id r) = Ok k /\
              position_from post fuel request k sp.
Proof.
  unfold filter_people. cbv zeta. intros H.
  assert (exists fp, keyed fp /\ positions_sound post fuel request fp /\
            response = {| people := map snd fp;
                          count := List.length (map snd fp) |})
    as (fp & (_ & Hk) & Hs & ->).
  { match type of H with
    | match ?c with _ => _ end = _ => destruct c as [fp1|] eqn:E1
    end; [|discriminate].
    assert (keyed fp1 /\ positions_sound post fuel request fp1) as (K1 & S1).
    { destruct (group_ids request).
      - injection E1 as <-. split; [apply keyed_nil | intros k r []].
      - destruct (group_task post fuel request []) as [[fp e]|] eqn:Eg;
          [|discriminate].
        injection E1 as <-. split.
        + exact (group_task_keyed _ _ _ _ _ _ Eg keyed_nil).
        + apply (group_task_positions_sound _ _ _ _ _ _ Eg). intros k r []. }
    match type of H with
    | match ?c with _ => _ end = _ => destruct c as [fp2|] eqn:E2
    end; [|discriminate].
    assert (keyed fp2 /\ positions_sound post fuel request fp2) as (K2 & S2).
    { destruct (service_position_ids request);
        [injection E2 as <-; now split|].
      destruct (service_task post fuel request fp1) as [[fp e]|] eqn:Es;
        [|discriminate].
      injection E2 as <-. split.
      - exact (service_task_keyed _ _ _ _ _ _ Es K1).
      - exact (service_task_positions_sound _ _ _ _ _ _ Es S1). }
    exists fp2. split; [exact K2|]. split; [exact S2 | now injection H as <-]. }
  cbn [people]. intros r sp Hin Hsp.
  apply in_map_iff in Hin as ([k r'] & <- & Hin). cbn [snd] in *.
  exists k. split; [apply (Hk k r' Hin) | exact (Hs k r' Hin sp Hsp)].
Qed.

Lemma exported_positions_are_held_witness :
  exists k,
    hash_key (er_id Cases.ann_usher) = Ok k /\
    position_from (Sample.people_server [Sample.usher_one]) 2
      Cases.ushers_only k
      {| sp_id := "Ushers"; sp_name := "Ushers";
         sp_department := VStr "Welcome" |}.
Proof.
  apply (exported_positions_are_held
           (Sample.people_server [Sample.usher_one]) 2 Cases.ushers_only
           {| people := [Cases.ann_usher]; count := 1 |} eq_refl
           Cases.ann_usher
           {| sp_id := "Ushers"; sp_name := "Ushers";
              sp_department := VStr "Welcome" |}
           (or_introl eq_refl) (or_introl eq_refl)).
Defined.

(** * The join of the two group fetches *)

Lemma find_assign {V} (k k' : hkey) (v : V) (m : list (hkey * V)) :
  find k (assign k' v m) = if key_eqb k k' then Some v else find k m.
Proof.
  induction m as [|[k0 v0] m IH]; cbn [assign find].
  - now destruct (key_eqb k k').
  - destruct (key_eqb k' k0) eqn:E0; cbn [find].
    + apply key_eqb_eq in E0. subst k0. now destruct (key_eqb k k').
    + destruct (key_eqb k k0) eqn:E1; [|exact IH].
      apply key_eqb_eq in E1. subst k0.
      destruct (key_eqb k k') eqn:E2; [|reflexivity].
      apply key_eqb_eq in E2. subst k'. rewrite key_eqb_refl in E0.
      discriminate.
Qed.

Lemma index_categories_find (gc : list value)
    (by_id idx : list (hkey * value)) (key : hkey) :
  foldM index_categories by_id gc = Ok idx ->
  find key idx = match last_categories key gc with
                 | Some c => Some c
                 | None => find key by_id
                 end.
Proof.
  revert by_id. induction gc as [|g gc IH]; intros by_id H; cbn [foldM] in H.
  - now injection H as <-.
  - returned H by1. rewrite (IH _ H). cbn [last_categories].
    destruct (last_categories key gc); [reflexivity|].
    unfold index_categories in Heqr.
    destruct (py_get g "id" VNone) as [id|]; [|discriminate].
    cbn [bind] in Heqr. destruct (truthy id).
    + destruct (hash_key id) as [k|]; [|discriminate]. cbn [bind] in Heqr.
      destruct (py_get g "categories" VNone) as [c|]; [|discriminate].
      cbn [bind] in Heqr. injection Heqr as <-. rewrite find_assign.
      now destruct (key_eqb key k).
    + injection Heqr as <-. now destruct (py_get g "categories" VNone).
Qed.

Lemma lookup_dict_set_same (k : string) (v : value) (d : dict) :
  lookup k (dict_set k v d) = Some v.
Proof.
  induction d as [|[k0 v0] d IH]; cbn [dict_set].
  - apply lookup_here.
  - destruct (String.eqb k k0) eqn:E; [apply lookup_here|].
    now rewrite lookup_skip.
Qed.

Lemma merge_group_joined (gc : list value) (idx : list (hkey * value))
    (acc out : list value) (g : value) :
  (forall key, find key idx = last_categories key gc) ->
  merge_group idx acc g = Ok out ->
  exists g', out = acc ++ [g'] /\ joined_with gc g g'.
Proof.
  unfold merge_group. intros Hidx H.
  returned H gid. returned H key. rewrite Hidx in H.
  destruct (last_categories key gc) as [c|] eqn:El.
  - destruct g as [| | | | |d]; try discriminate. injection H as <-.
    eexists. split; [reflexivity|]. exists gid, key.
    split; [assumption|]. split; [assumption|]. rewrite El. split.
    + cbn [py_get]. now rewrite lookup_dict_set_same.
    + intros k default Hk. cbn [py_get].
      now rewrite lookup_dict_set_other.
  - assert (out = acc ++ [g]) as -> by (destruct g; now injection H as <-).
    eexists. split; [reflexivity|]. exists gid, key.
    split; [assumption|]. split; [assumption|]. now rewrite El.
Qed.

(** X21.  The join of the two group fetches keeps the groups of the people
    fetch, each in its place: a group whose id (as a dictionary key) is the
    truthy id of a group of the categories fetch gets the [categories] of the
    last such group and keeps every other field; any other group is left
    untouched. *)
Theorem join_keeps_the_people_fetch (gp gc groups : list value) :
  merge_categories gp gc = Ok groups ->
  Forall2 (joined_with gc) gp groups.
Proof.
  unfold merge_categories. intros H. returned H idx.
  pose proof (fun key => index_categories_find gc [] idx key Heqr) as Hidx.
  assert (forall key, find key idx = last_categories key gc) as Hi.
  { intros key. rewrite Hidx. now destruct (last_categories key gc). }
  clear Hidx Heqr.
  assert (forall acc out,
            foldM (merge_group idx) acc gp = Ok out ->
            exists gs, out = acc ++ gs /\ Forall2 (joined_with gc) gp gs)
    as Hgen.
  { clear H. induction gp as [|g gp IH]; intros acc out H; cbn [foldM] in H.
    - injection H as <-. exists []. split; [now rewrite app_nil_r | constructor].
    - returned H acc1.
      destruct (merge_group_joined gc idx acc acc1 g Hi Heqr) as (g' & -> & Hj).
      destruct (IH _ _ H) as (gs & -> & Hf).
      exists (g' :: gs). split; [now rewrite <- app_assoc | now constructor]. }
  destruct (Hgen [] groups H) as (gs & -> & Hf). exact Hf.
Qed.

Lemma join_keeps_the_people_fetch_witness :
  Forall2 (joined_with [Cases.categorised_group])
          [Sample.g1 (VStr "Youth")] [Cases.g1_joined].
Proof.
  apply (join_keeps_the_people_fetch [Sample.g1 (VStr "Youth")]
           [Cases.categorised_group] [Cases.g1_joined]).
  reflexivity.
Defined.

(** * Who is included *)

Lemma py_in_strs_In (c : value) (l : list string) :
  py_in_strs c l = true <-> exists s, c = VStr s /\ In s l.
Proof.
  unfold py_in_strs. rewrite existsb_exists. split.
  - intros (s & Hin & He). destruct c; try discriminate. cbn [py_eq_str] in He.
    apply String.eqb_eq in He. subst. eauto.
  - intros (s & -> & Hin). exists s. split; [exact Hin|].
    apply String.eqb_refl.
Qed.

(** X22.  For a person of the data model, inclusion is the conjunction of three
    tests and nothing else: the person is included exactly when the [archived]
    field (0 when missing) is none of the archived markers, the [category_id]
    field is not a string of the exclusion list, and the demographic tags do
    not make the person a child (tagged children and not tagged adults).  An
    id that is not a string is never excluded by category. *)
Theorem inclusion_is_three_tests (person : dict) (tags : list string)
    (excluded : option (list string)) :
  demographic_tags (VDict person) = Some tags ->
  exists included,
    ElvantoClient.should_include_person (VDict person) excluded = Ok included /\
    People.should_include_person (VDict person) excluded = Ok included /\
    (included = true <->
     (let a := match lookup "archived" person with
               | Some a => a
               | None => VInt 0
               end in
      ~ (archived_signal a \/ a = VBool true)) /\
     (let c := match lookup "category_id" person with
               | Some c => c
               | None => VStr ""
               end in
      ~ exists s, c = VStr s /\
                  In s (match excluded with Some l => l | None => [] end)) /\
     ~ (has_tag "children" tags /\ ~ has_tag "adults" tags)).
Proof.
  intros Ht.
  enough (exists included,
            ElvantoClient.should_include_person (VDict person) excluded
            = Ok included /\
            (included = true <->
             ~ (archived_signal (match lookup "archived" person with
                                 | Some a => a
                                 | None => VInt 0
                                 end) \/
                match lookup "archived" person with
                | Some a => a
                | None => VInt 0
                end = VBool true) /\
             (~ exists s, match lookup "category_id" person with
                          | Some c => c
                          | None => VStr ""
                          end = VStr s /\
                          In s (match excluded with Some l => l | None => [] end)) /\
             ~ (has_tag "children" tags /\ ~ has_tag "adults" tags)))
    as (b & Hb & Hiff).
  { exists b. split; [exact Hb|]. split; [|exact Hiff].
    exact (eq_trans (people_should_include_copy _ _) Hb). }
  unfold ElvantoClient.should_include_person. cbn [py_get bind].
  rewrite (is_adult_tags _ _ Ht).
  pose proof (archived_test (match lookup "archived" person with
                             | Some a => a
                             | None => VInt 0
                             end)) as Ha.
  pose proof (py_in_strs_In (match lookup "category_id" person with
                             | Some c => c
                             | None => VStr ""
                             end)
                (match excluded with Some l => l | None => [] end)) as Hc.
  pose proof (in_strs_In "adults" (map lower tags)) as Hadult.
  pose proof (in_strs_In "children" (map lower tags)) as Hchild.
  unfold has_tag. cbv zeta.
  destruct (py_eq_int _ 1 || py_eq_str _ "1" || String.eqb (lower (py_str _)) "true").
  { exists false. split; [reflexivity|].
    split; [discriminate|]. intros (Hn & _). exfalso. apply Hn. now apply Ha. }
  destruct (py_in_strs _ _).
  { exists false. split; [reflexivity|].
    split; [discriminate|]. intros (_ & Hn & _). exfalso. apply Hn.
    now apply Hc. }
  cbn [bind].
  destruct (in_strs "adults" (map lower tags)).
  { exists true. split; [reflexivity|].
    split; [|reflexivity]. intros _. split; [|split].
    - intros H. apply Ha in H. discriminate.
    - intros H. apply Hc in H. discriminate.
    - intros (_ & Hn). apply Hn. now apply Hadult. }
  destruct (in_strs "children" (map lower tags)); cbn [negb].
  - exists false. split; [reflexivity|].
    split; [discriminate|]. intros (_ & _ & Hn). exfalso. apply Hn.
    split; [now apply Hchild|]. intros H. apply Hadult in H. discriminate.
  - exists true. split; [reflexivity|].
    split; [|reflexivity]. intros _. split; [|split].
    + intros H. apply Ha in H. discriminate.
    + intros H. apply Hc in H. discriminate.
    + intros (H & _). apply Hchild in H. discriminate.
Qed.

Lemma inclusion_is_three_tests_witness :
  exists included,
    ElvantoClient.should_include_person Sample.child_only None = Ok included /\
    People.should_include_person Sample.child_only None = Ok included.
Proof.
  destruct (inclusion_is_three_tests
              [("id", VStr "P2");
               ("demographics",
                VDict [("demographic", VDict [("name", VStr "Children")])])]
              ["Children"] None eq_refl) as (b & H1 & H2 & _).
  exists b. split; assumption.
Defined.

(** * Where an exported group comes from *)

Section GroupsSound.
Variable post : transport.
Variable fuel : nat.
Variable request : FilterRequest.

Lemma groups_sound_setdefault (k : hkey) (i person : value) (fp : people_map) :
  groups_sound post fuel request fp ->
  groups_sound post fuel request (setdefault k (new_record i person) fp).
Proof.
  intros Hs k' r' Hin gr Hgr.
  apply In_setdefault in Hin as [Hin | [-> ->]]; [exact (Hs _ _ Hin _ Hgr)|].
  destruct Hgr.
Qed.

Lemma groups_sound_update (k : hkey) (f : export_record -> export_record)
    (fp : people_map) :
  (forall r gr, In gr (er_groups (f r)) ->
                In gr (er_groups r) \/ group_from post fuel request k gr) ->
  groups_sound post fuel request fp ->
  groups_sound post fuel request (update k f fp).
Proof.
  intros Hf Hs k' r' Hin gr Hgr.
  apply In_update in Hin as (r & Hin & [-> | [-> ->]]);
    [exact (Hs _ _ Hin _ Hgr)|].
  destruct (Hf _ _ Hgr) as [H | H]; [exact (Hs _ _ Hin _ H) | exact H].
Qed.

Lemma add_group_In (g gr : group_ref) (r : export_record) :
  In gr (er_groups (add_group g r)) -> In gr (er_groups r) \/ gr = g.
Proof.
  unfold add_group. cbn [er_groups].
  destruct (existsb _ _); [now left|].
  intros H. apply in_app_iff in H as [H | [<- | []]]; [now left | now right].
Qed.

Lemma fold_update_groups_sound (k : hkey) (l : list service_position)
    (fp : people_map) :
  groups_sound post fuel request fp ->
  groups_sound post fuel request
    (fold_left (fun fp pos => update k (add_service_position pos) fp) l fp).
Proof.
  revert fp. induction l as [|x l IH]; intros fp Hs; cbn [fold_left];
    [exact Hs|].
  apply IH. apply groups_sound_update; [|exact Hs].
  intros r gr Hgr. now left.
Qed.

Lemma add_volunteer_groups_sound (fp : people_map) (person : value)
    (fp' : people_map) :
  add_volunteer request fp person = Ok fp' ->
  groups_sound post fuel request fp -> groups_sound post fuel request fp'.
Proof.
  unfold add_volunteer. intros H Hs.
  returned H i. destruct (negb (truthy i)); [now injection H as <-|].
  returned H refs.
  destruct (matched_positions (service_position_ids request) refs)
    as [|q matched]; [now injection H as <-|].
  returned H k. injection H as <-.
  apply (fold_update_groups_sound k (q :: matched)).
  now apply groups_sound_setdefault.
Qed.

Lemma service_task_groups_sound (fp fp' : people_map) (e : option exn) :
  service_task post fuel request fp = Some (fp', e) ->
  groups_sound post fuel request fp -> groups_sound post fuel request fp'.
Proof.
  unfold service_task. intros H Hs.
  destruct (get_all_people_with_departments post fuel true _)
    as [[ps|]|]; try discriminate.
  2:{ now injection H as <- <-. }
  injection H as H.
  pose proof (for_each_inv (groups_sound post fuel request)
                (fun fp person => atomic fp (add_volunteer request fp person)) ps)
    as Hf.
  specialize (Hf (fun s x Hx =>
                    atomic_inv _ s _ Hx
                      (fun s' H1 => add_volunteer_groups_sound _ _ _ H1 Hx))
                 fp Hs).
  now rewrite H in Hf.
Qed.

Lemma add_leader_groups_sound (group_id : string) (group_name : value)
    (fp : people_map) (person : value) (fp' : people_map) :
  (forall i k, py_get person "id" VNone = Ok i -> truthy i = true ->
               hash_key i = Ok k ->
               group_from post fuel request k
                 {| gr_id := group_id; gr_name := group_name;
                    gr_role := "Leader" |}) ->
  add_leader group_id group_name fp person = Ok fp' ->
  groups_sound post fuel request fp -> groups_sound post fuel request fp'.
Proof.
  unfold add_leader. intros Hg H Hs.
  destruct (py_get person "id" VNone) as [i|] eqn:Ei; [|discriminate].
  cbn [bind] in H.
  destruct (negb (truthy i)) eqn:Et; [now injection H as <-|].
  apply negb_false_iff in Et.
  destruct (hash_key i) as [k|] eqn:Ek; [|discriminate].
  cbn [bind] in H. injection H as <-.
  apply groups_sound_update; [|now apply groups_sound_setdefault].
  intros r gr Hgr. apply add_group_In in Hgr as [Hgr | ->]; [now left|].
  right. exact (Hg i k eq_refl Et Ek).
Qed.

Lemma process_group_groups_sound (gp gc groups : list value)
    (fp : people_map) (g : value) :
  get_all_groups_with_people post fuel = Some (Ok gp) ->
  get_all_groups_with_categories post fuel = Some (Ok gc) ->
  merge_categories gp gc = Ok groups ->
  In g groups ->
  groups_sound post fuel request fp ->
  groups_sound post fuel request (fst (process_group request fp g)).
Proof.
  intros Hgp Hgc Hm Hin Hs. unfold process_group.
  destruct (py_get g "id" (VStr "")) as [gid|] eqn:Eid; cbn [bind fst];
    [|exact Hs].
  destruct (in_strs (py_str gid) (group_ids request)) eqn:Ereq;
    cbn [negb fst]; [|exact Hs].
  destruct (group_has_excluded_category g (excluded_group_category_ids request))
    as [[|]|] eqn:Eex; cbn [bind fst]; try exact Hs.
  destruct (py_get g "name" (VStr "Unknown Group")) as [name|] eqn:En;
    cbn [bind fst]; [|exact Hs].
  destruct (get_leaders_from_group g) as [ls|] eqn:El; cbn [bind fst];
    [|exact Hs].
  apply for_each_inv_in; [|exact Hs].
  intros s p Hp Hsound. apply atomic_inv; [exact Hsound|].
  intros s' H. refine (add_leader_groups_sound _ _ _ _ _ _ H Hsound).
  intros i k Hi Ht Hk.
  split; [reflexivity|]. split; [now apply in_strs_In|].
  exists gp, gc, groups, g, gid, ls, p, i. repeat split; assumption.
Qed.

Lemma group_task_groups_sound (fp fp' : people_map) (e : option exn) :
  group_task post fuel request fp = Some (fp', e) ->
  groups_sound post fuel request fp -> groups_sound post fuel request fp'.
Proof.
  unfold group_task. intros H Hs.
  destruct (get_all_groups_with_people post fuel) as [[gp|]|] eqn:Egp;
    try discriminate.
  2:{ now injection H as <- <-. }
  destruct (get_all_groups_with_categories post fuel) as [[gc|]|] eqn:Egc;
    try discriminate.
  2:{ now injection H as <- <-. }
  destruct (merge_categories gp gc) as [groups|] eqn:Em.
  2:{ now injection H as <- <-. }
  injection H as H.
  pose proof (for_each_inv_in (groups_sound post fuel request)
                (process_group request) groups
                (fun s g Hg Hsound =>
                   process_group_groups_sound gp gc groups s g
                     Egp Egc Em Hg Hsound)
                fp Hs) as Hf.
  now rewrite H in Hf.
Qed.
End GroupsSound.

(** X23.  Group entries are exported for a reason: every group entry of every
    record of a response has the role "Leader" and the id and name of a
    requested group of the joined fetch for which the exclusion test answered
    False, and a leader of that group has a truthy id that is the record's id
    as a dictionary key.  A group with an excluded category is never
    exported. *)
Theorem exported_groups_are_led (post : transport) (fuel : nat)
    (request : FilterRequest) (response : FilterResponse) :
  filter_people post fuel request = Some response ->
  forall r gr, In r (people response) -> In gr (er_groups r) ->
    exists k, hash_key (er_id r) = Ok k /\ group_from post fuel request k gr.
Proof.
  unfold filter_people. cbv zeta. intros H.
  assert (exists fp, keyed fp /\ groups_sound post fuel request fp /\
            response = {| people := map snd fp;
                          count := List.length (map snd fp) |})
    as (fp & (_ & Hk) & Hs & ->).
  { match type of H with
    | match ?c with _ => _ end = _ => destruct c as [fp1|] eqn:E1
    end; [|discriminate].
    assert (keyed fp1 /\ groups_sound post fuel request fp1) as (K1 & S1).
    { destruct (group_ids request).
      - injection E1 as <-. split; [apply keyed_nil | intros k r []].
      - destruct (group_task post fuel request []) as [[fp e]|] eqn:Eg;
          [|discriminate].
        injection E1 as <-. split.
        + exact (group_task_keyed _ _ _ _ _ _ Eg keyed_nil).
        + apply (group_task_groups_sound _ _ _ _ _ _ Eg). intros k r []. }
    match type of H with
    | match ?c with _ => _ end = _ => destruct c as [fp2|] eqn:E2
    end; [|discriminate].
    assert (keyed fp2 /\ groups_sound post fuel request fp2) as (K2 & S2).
    { destruct (service_position_ids request);
        [injection E2 as <-; now split|].
      destruct (service_task post fuel request fp1) as [[fp e]|] eqn:Es;
        [|discriminate].
      injection E2 as <-. split.
      - exact (service_task_keyed _ _ _ _ _ _ Es K1).
      - exact (service_task_groups_sound _ _ _ _ _ _ Es S1). }
    exists fp2. split; [exact K2|]. split; [exact S2 | now injection H as <-]. }
  cbn [people]. intros r gr Hin Hgr.
  apply in_map_iff in Hin as ([k r'] & <- & Hin). cbn [snd] in *.
  exists k. split; [apply (Hk k r' Hin) | exact (Hs k r' Hin gr Hgr)].
Qed.

Lemma exported_groups_are_led_witness :
  exists k,
    hash_key (er_id (Sample.p1_leader (VStr "Youth"))) = Ok k /\
    group_from (Sample.group_server [Sample.g1 (VStr "Youth")]) 2
      (Sample.leaders_of ["G1"]) k
      {| gr_id := "G1"; gr_name := VStr "Youth"; gr_role := "Leader" |}.
Proof.
  apply (exported_groups_are_led
           (Sample.group_server [Sample.g1 (VStr "Youth")]) 2
           (Sample.leaders_of ["G1"])
           {| people := [Sample.p1_leader (VStr "Youth")]; count := 1 |}
           eq_refl
           (Sample.p1_leader (VStr "Youth"))
           {| gr_id := "G1"; gr_name := VStr "Youth"; gr_role := "Leader" |}
           (or_introl eq_refl) (or_introl eq_refl)).
Defined.

(** * The leaders of a group *)

Lemma as_mappings_map (l : list value) (ds : list dict) :
  as_mappings l = Some ds -> l = map VDict ds.
Proof.
  revert ds. induction l as [|x l IH]; intros ds H; cbn [as_mappings] in H.
  - now injection H as <-.
  - destruct x; try discriminate.
    destruct (as_mappings l) as [ds'|]; [|discriminate].
    injection H as <-. cbn [map]. now rewrite (IH ds' eq_refl).
Qed.

Lemma filterM_leading (ps : list dict) :
  filterM is_leader (map VDict ps)
  = match leading ps with
    | Some ls => Ok (map VDict ls)
    | None => Raise AttributeError
    end.
Proof.
  induction ps as [|p ps IH]; [reflexivity|].
  cbn [map filterM leading]. unfold is_leader at 1. cbn [py_get bind].
  destruct (lookup "position" p) as [[| | |s| |]|]; cbn [py_lower bind];
    try reflexivity.
  - rewrite IH. destruct (leading ps); [|reflexivity]. cbn [bind].
    now destruct (String.eqb (lower s) "leader").
  - rewrite IH. now destruct (leading ps).
Qed.

(** X24.  The leaders of a group of the data model are exactly its members
    whose position lower-cases to "leader", in the order the group lists
    them; a member without a position is no leader, a group without people
    has none, and a position that is there and is not a string makes the
    function raise AttributeError. *)
Theorem leaders_are_the_leading_members (g : dict) (ps : list dict) :
  members g = Some ps ->
  get_leaders_from_group (VDict g)
  = match leading ps with
    | Some ls => Ok (map VDict ls)
    | None => Raise AttributeError
    end.
Proof.
  unfold members, get_leaders_from_group. cbn [py_get bind]. intros H.
  destruct (lookup "people" g) as [v|]; [|now injection H as <-].
  destruct v as [|b|z|s|l|pd]; cbn [truthy] in *.
  - now injection H as <-.
  - destruct b; [discriminate | now injection H as <-].
  - destruct (Z.eqb z 0); [now injection H as <- | discriminate].
  - destruct (String.eqb s ""); [now injection H as <- | discriminate].
  - destruct l; [now injection H as <- | discriminate].
  - destruct pd as [|kv pd]; [now injection H as <-|].
    cbn [negb py_get bind].
    destruct (lookup "person" (kv :: pd)) as [[| | | |l|d]|]; try discriminate.
    + apply as_mappings_map in H. subst l.
      cbn [one_or_many is_dict py_iter bind]. apply filterM_leading.
    + injection H as <-. cbn [one_or_many is_dict py_iter bind].
      apply (filterM_leading [d]).
    + injection H as <-. reflexivity.
Qed.

Lemma leaders_are_the_leading_members_witness :
  get_leaders_from_group (Sample.g1 (VStr "Youth"))
  = Ok [VDict [("id", VStr "P1"); ("position", VStr "Leader")]].
Proof.
  apply (leaders_are_the_leading_members
           [("id", VStr "G1"); ("name", VStr "Youth");
            ("people",
             VDict [("person",
                     VList [VDict [("id", VStr "P1"); ("position", VStr "Leader")];
                            VDict [("id", VStr "P2"); ("position", VStr "Member")]])])]
           [[("id", VStr "P1"); ("position", VStr "Leader")];
            [("id", VStr "P2"); ("position", VStr "Member")]]).
  reflexivity.
Defined.

(** * Positions of a service plan *)

Lemma plan_kept_refl (ps : ServicePlans.plan_map) : plan_kept ps ps.
Proof.
  intros k e H. exists e. split; [exact H|]. repeat split. apply incl_refl.
Qed.

Lemma plan_kept_trans (p1 p2 p3 : ServicePlans.plan_map) :
  plan_kept p1 p2 -> plan_kept p2 p3 -> plan_kept p1 p3.
Proof.
  intros H12 H23 k e H.
  destruct (H12 _ _ H) as (e2 & H2 & Hi2 & Hn2 & Hs2 & Hv2).
  destruct (H23 _ _ H2) as (e3 & H3 & Hi3 & Hn3 & Hs3 & Hv3).
  exists e3. split; [exact H3|].
  repeat split; try congruence. exact (incl_tran Hv2 Hv3).
Qed.

Lemma plan_kept_setdefault (k : hkey) (e : ServicePlans.plan_entry)
    (ps : ServicePlans.plan_map) :
  plan_kept ps (setdefault k e ps).
Proof.
  intros k' e' H. exists e'. rewrite find_setdefault, H.
  split; [reflexivity|]. repeat split. apply incl_refl.
Qed.

Lemma add_volunteer_id_kept (key : hkey) (ps ps' : ServicePlans.plan_map)
    (volunteer : value) :
  ServicePlans.add_volunteer_id key ps volunteer = Ok ps' -> plan_kept ps ps'.
Proof.
  unfold ServicePlans.add_volunteer_id. intros H.
  returned H person. returned H person_id.
  destruct (truthy person_id); [|injection H as <-; apply plan_kept_refl].
  returned H mk. injection H as <-.
  intros k e Hk. rewrite find_update, Hk.
  destruct (key_eqb k key); cbn [option_map]; eexists;
    (split; [reflexivity|]); repeat split;
    [apply incl_refl || (intros x Hx; now apply set_add_In) ..].
Qed.

Lemma volunteers_loop_kept (key : hkey) (ps : ServicePlans.plan_map)
    (l : list value) :
  plan_kept ps
    (fst (for_each (fun ps volunteer =>
                      atomic ps (ServicePlans.add_volunteer_id key ps volunteer))
                   ps l)).
Proof.
  apply (for_each_inv (plan_kept ps)); [|apply plan_kept_refl].
  intros s x Hs. apply atomic_inv; [exact Hs|].
  intros s' H. exact (plan_kept_trans _ _ _ Hs (add_volunteer_id_kept _ _ _ _ H)).
Qed.

Lemma add_position_kept (ps : ServicePlans.plan_map)
    (position service_type_name : value) :
  plan_kept ps (fst (ServicePlans._add_position ps position service_type_name)).
Proof.
  unfold ServicePlans._add_position.
  destruct (bind (py_get position "id" VNone) _) as [[position_id position_name]|];
    [|apply plan_kept_refl].
  destruct (negb (truthy position_id)); [apply plan_kept_refl|].
  destruct (hash_key position_id) as [key|]; [|apply plan_kept_refl].
  cbv zeta.
  destruct (bind (py_get position "volunteers" (VDict [])) _) as [vols|].
  - exact (plan_kept_trans _ _ _ (plan_kept_setdefault _ _ _)
             (volunteers_loop_kept _ _ _)).
  - apply plan_kept_setdefault.
Qed.

Lemma heading_positions_kept (ps : ServicePlans.plan_map)
    (item service_type_name : value) :
  plan_kept ps
    (fst (ServicePlans.heading_positions ps item service_type_name)).
Proof.
  unfold ServicePlans.heading_positions.
  destruct (bind (ServicePlans.get_or item "heading" "title" _) _)
    as [[heading_name poss]|]; [|apply plan_kept_refl].
  apply (for_each_inv (plan_kept ps)); [|apply plan_kept_refl].
  intros s x Hs. exact (plan_kept_trans _ _ _ Hs (add_position_kept _ _ _)).
Qed.

Lemma role_position_kept (ps : ServicePlans.plan_map)
    (item service_type_name : value) :
  plan_kept ps (fst (ServicePlans.role_position ps item service_type_name)).
Proof.
  unfold ServicePlans.role_position.
  destruct (bind (ServicePlans.get_or item "id" "position_id" VNone) _)
    as [[position_id position_name]|]; [|apply plan_kept_refl].
  destruct (negb (truthy position_id)); [apply plan_kept_refl|].
  destruct (hash_key position_id) as [key|]; [|apply plan_kept_refl].
  cbv zeta.
  destruct (bind (ServicePlans.get_or item "volunteers" "volunteer" _) _)
    as [vols|].
  - exact (plan_kept_trans _ _ _ (plan_kept_setdefault _ _ _)
             (volunteers_loop_kept _ _ _)).
  - apply plan_kept_setdefault.
Qed.

Lemma own_positions_kept (ps : ServicePlans.plan_map)
    (item service_type_name : value) :
  plan_kept ps (fst (ServicePlans.own_positions ps item service_type_name)).
Proof.
  unfold ServicePlans.own_positions.
  destruct (py_get item "type" (VStr "")) as [item_type|];
    [|apply plan_kept_refl].
  destruct (py_eq_str item_type "heading"); [apply heading_positions_kept|].
  destruct (py_in_strs item_type _);
    [apply role_position_kept | apply plan_kept_refl].
Qed.

Lemma for_each_fuel_kept {A}
    (body : ServicePlans.plan_map -> A -> option (outcome ServicePlans.plan_map))
    (l : list A) :
  (forall s x s' e, body s x = Some (s', e) -> plan_kept s s') ->
  forall s s' e,
    ServicePlans.for_each_fuel body s l = Some (s', e) -> plan_kept s s'.
Proof.
  intros Hb. induction l as [|x l IH]; intros s s' e H;
    cbn [ServicePlans.for_each_fuel] in H.
  - injection H as <- <-. apply plan_kept_refl.
  - destruct (body s x) as [[s1 [e1|]]|] eqn:E; try discriminate.
    + injection H as <- <-. exact (Hb _ _ _ _ E).
    + exact (plan_kept_trans _ _ _ (Hb _ _ _ _ E) (IH _ _ _ H)).
Qed.

(** X25.  In the service-plan helpers the first write of a position wins:
    whatever [_add_position] and [_add_item_positions] do to the dict of
    positions, at whatever nesting and however they end, an entry that was
    there is still there with its id, name and service type as they were, and
    with every volunteer it had. *)
Theorem plan_entries_are_kept (positions : ServicePlans.plan_map)
    (item service_type_name : value) :
  plan_kept positions
    (fst (ServicePlans._add_position positions item service_type_name)) /\
  forall fuel positions' e,
    ServicePlans._add_item_positions fuel positions item service_type_name
    = Some (positions', e) ->
    plan_kept positions positions'.
Proof.
  split; [apply add_position_kept|].
  intros fuel. revert positions item.
  induction fuel as [|fuel IH]; intros positions item positions' e H;
    cbn [ServicePlans._add_item_positions] in H; [discriminate|].
  pose proof (own_positions_kept positions item service_type_name) as Ho.
  destruct (ServicePlans.own_positions positions item service_type_name)
    as [ps1 [e1|]]; cbn [fst] in Ho.
  - now injection H as <- <-.
  - destruct (ServicePlans.sub_items_of item) as [subs|].
    + refine (plan_kept_trans _ _ _ Ho
                (for_each_fuel_kept _ subs _ _ _ _ H)).
      intros s x s' e'. apply IH.
    + now injection H as <- <-.
Qed.

Lemma plan_entries_are_kept_witness :
  plan_kept Cases.door_plan
    (fst (ServicePlans._add_position Cases.door_plan Cases.door_again
            (VStr "Midweek"))).
Proof.
  apply (proj1 (plan_entries_are_kept Cases.door_plan Cases.door_again
                  (VStr "Midweek"))).
Defined.

(** ** The recursion ends *)

Lemma depth_lookup (k : string) (d : dict) (v : value) :
  lookup k d = Some v -> (depth v < depth (VDict d))%nat.
Proof.
  cbn [depth]. induction d as [|[k' x] d IH]; [discriminate|].
  unfold lookup. fold lookup. cbn [fold_right].
  destruct (String.eqb k k'); [intros [= ->]; lia|].
  intros H. specialize (IH H). lia.
Qed.

Lemma depth_In (x : value) (l : list value) :
  In x l -> (depth x < depth (VList l))%nat.
Proof.
  cbn [depth]. induction l as [|y l IH]; [intros []|].
  cbn [fold_right]. intros [-> | H]; [lia|]. specialize (IH H). lia.
Qed.

(** What iterating the one-or-many reading of [v] yields nests less than a
    bound under which [v] nests. *)
Lemma depth_iter (v : value) (xs : list value) (n : nat) :
  py_iter (one_or_many v) = Ok xs -> (depth v <= n)%nat -> (0 < n)%nat ->
  forall x, In x xs -> (depth x < S n)%nat.
Proof.
  intros H Hn Hpos x Hx.
  destruct v as [| | |s|l|d]; cbn [one_or_many is_dict py_iter] in H;
    try discriminate; injection H as <-.
  - unfold chars in Hx. apply in_map_iff in Hx as (c & <- & _). cbn. lia.
  - pose proof (depth_In _ _ Hx). lia.
  - destruct Hx as [<- | []]. lia.
Qed.

Lemma depth_get (v : value) (k : string) (default r : value) :
  py_get v k default = Ok r ->
  r = default \/ (depth r < depth v)%nat.
Proof.
  destruct v; try discriminate. cbn [py_get].
  destruct (lookup k d) eqn:E; intros [= <-]; [right | now left].
  now apply depth_lookup in E.
Qed.

Lemma sub_items_depth (item : value) (subs : list value) :
  ServicePlans.sub_items_of item = Ok subs ->
  forall x, In x subs -> (depth x < depth item)%nat.
Proof.
  unfold ServicePlans.sub_items_of, ServicePlans.get_or. intros H.
  destruct (py_get item "item" (VList [])) as [inner|] eqn:Ei;
    [|discriminate].
  cbn [bind] in H.
  destruct (py_get item "items" inner) as [sub_items|] eqn:Es;
    [|discriminate].
  cbn [bind] in H.
  assert (sub_items = VList [] \/ (depth sub_items < depth item)%nat) as Hs.
  { destruct (depth_get _ _ _ _ Es) as [-> | Hd]; [|now right].
    destruct (depth_get _ _ _ _ Ei) as [-> | Hd]; [now left | now right]. }
  destruct Hs as [-> | Hs]; [injection H as <-; intros x []|].
  destruct (truthy sub_items); [|injection H as <-; intros x []].
  assert (0 < depth item)%nat as Hpos by lia.
  destruct (is_dict sub_items).
  - destruct (py_get sub_items "item" (VList [])) as [inner_items|] eqn:Ej;
      [|discriminate].
    cbn [bind] in H.
    destruct (depth_get _ _ _ _ Ej) as [-> | Hd].
    + injection H as <-. intros x [].
    + intros x Hx.
      pose proof (depth_iter inner_items subs (depth item - 1) H) as Hi.
      specialize (Hi ltac:(lia)).
      destruct (Nat.eq_dec (depth item) 1) as [E1 | E1].
      * assert (depth inner_items = 0%nat) as E0 by lia.
        destruct inner_items as [| | |s|l|d];
          cbn [one_or_many is_dict py_iter] in H; try discriminate;
          cbn [depth] in E0; try discriminate.
        injection H as <-. unfold chars in Hx.
        apply in_map_iff in Hx as (c & <- & _). cbn. lia.
      * specialize (Hi ltac:(lia) x Hx). lia.
  - cbn [bind] in H. intros x Hx.
    destruct (Nat.eq_dec (depth item) 1) as [E1 | E1].
    + assert (depth sub_items = 0%nat) as E0 by lia.
      destruct sub_items as [| | |s|l|d];
        cbn [one_or_many is_dict py_iter] in H; try discriminate;
        cbn [depth] in E0; try discriminate.
      injection H as <-. unfold chars in Hx.
      apply in_map_iff in Hx as (c & <- & _). cbn. lia.
    + pose proof (depth_iter sub_items subs (depth item - 1) H
                    ltac:(lia) ltac:(lia) x Hx). lia.
Qed.

Lemma for_each_fuel_ends {S A} (body : S -> A -> option (outcome S))
    (l : list A) :
  (forall s x, In x l -> body s x <> None) ->
  forall s, ServicePlans.for_each_fuel body s l <> None.
Proof.
  induction l as [|x l IH]; intros Hb s; cbn [ServicePlans.for_each_fuel];
    [discriminate|].
  pose proof (Hb s x (or_introl eq_refl)) as Hx.
  destruct (body s x) as [[s1 [e|]]|]; [discriminate | | congruence].
  apply IH. intros s0 y Hy. apply Hb. now right.
Qed.

(** X26.  [_add_item_positions] ends on every item: the recursion goes down
    the nesting of the item only, so with more rounds than the item nests
    lists and mappings it has returned or raised. *)
Theorem add_item_positions_ends (fuel : nat)
    (positions : ServicePlans.plan_map) (item service_type_name : value) :
  (depth item < fuel)%nat ->
  ServicePlans._add_item_positions fuel positions item service_type_name
  <> None.
Proof.
  revert positions item. induction fuel as [|fuel IH];
    intros positions item Hd; [lia|].
  cbn [ServicePlans._add_item_positions].
  destruct (ServicePlans.own_positions positions item service_type_name)
    as [ps1 [e1|]]; [discriminate|].
  destruct (ServicePlans.sub_items_of item) as [subs|] eqn:Es; [|discriminate].
  apply for_each_fuel_ends. intros s x Hx. apply IH.
  pose proof (sub_items_depth item subs Es x Hx). lia.
Qed.

Lemma add_item_positions_ends_witness :
  ServicePlans._add_item_positions 5 [] Cases.nested_item (VStr "Sunday")
  <> None.
Proof.
  apply (add_item_positions_ends 5 [] Cases.nested_item (VStr "Sunday")).
  cbn. lia.
Defined.
